(** * Bag-database file processing: naming, tagging and upload pipeline

    A shallow embedding of [process_bags.py].  Pure string and list code
    is embedded as Rocq functions; code that logs, touches the file
    system, a recording or the HTTP session runs in a state-and-exception
    monad over a [World] that holds the file system and a trace of the
    external calls made so far. *)

From Stdlib Require Import ZArith QArith Qround List String Ascii Bool Lia Lqa.
From Stdlib Require Import DecimalString DecimalPos DecimalZ.
Import ListNotations.
Close Scope Q_scope.
Open Scope nat_scope.
Open Scope list_scope.
Open Scope string_scope.

(** ** Python strings *)

Module PyStr.

(** [s.split(sep)] for a one-character separator: never the empty
    list, empty fields are kept. *)
Fixpoint split (sep : ascii) (s : string) : list string :=
  match s with
  | EmptyString => [EmptyString]
  | String c r =>
      if Ascii.eqb c sep then EmptyString :: split sep r
      else match split sep r with
           | [] => [String c EmptyString]
           | h :: t => String c h :: t
           end
  end.

(** [sep.join(l)]. *)
Fixpoint join (sep : string) (l : list string) : string :=
  match l with
  | [] => EmptyString
  | [x] => x
  | x :: r => x ++ sep ++ join sep r
  end.

(** [s.rstrip(chars)], the characters to drop given as a predicate. *)
Fixpoint rstrip_with (p : ascii -> bool) (s : string) : string :=
  match s with
  | EmptyString => EmptyString
  | String c r =>
      match rstrip_with p r with
      | EmptyString => if p c then EmptyString else String c EmptyString
      | r' => String c r'
      end
  end.

(** The characters [str.isspace] accepts below 128: tab, line feed,
    vertical tab, form feed, carriage return, the four separators
    28..31 and the space. *)
Definition is_space (c : ascii) : bool :=
  let n := nat_of_ascii c in
  (((9 <=? n) && (n <=? 13)) || ((28 <=? n) && (n <=? 32)))%nat.

(** [s.rstrip()]. *)
Definition rstrip (s : string) : string := rstrip_with is_space s.

(** [s.endswith(suf)]. *)
Definition endswith (s suf : string) : bool :=
  let n := String.length s in
  let m := String.length suf in
  (m <=? n)%nat && String.eqb (substring (n - m) m s) suf.

(** [sub in s]. *)
Fixpoint contains (sub s : string) : bool :=
  prefix sub s ||
  match s with
  | EmptyString => false
  | String _ r => contains sub r
  end.

(** [s.find(c)] for a one-character needle, [-1] when absent. *)
Fixpoint find (c : ascii) (s : string) : Z :=
  match s with
  | EmptyString => (-1)%Z
  | String d r =>
      if Ascii.eqb d c then 0%Z
      else let k := find c r in
           if (k <? 0)%Z then (-1)%Z else (k + 1)%Z
  end.

(** [s[i:j]] for [0 <= i]. *)
Definition slice (i j : nat) (s : string) : string :=
  substring i (j - i) s.

(** [s.rsplit(sep, 1)]: split once, at the last separator. *)
Fixpoint rsplit1 (sep : ascii) (s : string) : list string :=
  match s with
  | EmptyString => [EmptyString]
  | String c r =>
      match rsplit1 sep r with
      | [l; t] => [String c l; t]
      | _ =>
          if Ascii.eqb c sep then [EmptyString; r] else [String c r]
      end
  end.

(** [str(n)] and [f"{n}"] for an integer. *)
Definition of_Z (z : Z) : string := NilZero.string_of_int (Z.to_int z).

End PyStr.

(** ** Python values, exceptions and dictionaries *)

(** The exception classes the pipeline can meet.  All of them derive from
    [Exception], so [except Exception] catches each one. *)
Inductive exn : Type :=
| IndexError
| KeyError
| ValueError
| TypeError
| AttributeError
| NameError
| OSError
| ROSBagException
| ConnectionError.

Inductive result (A : Type) : Type :=
| Ok (a : A)
| Raise (e : exn).
Arguments Ok {A} a.
Arguments Raise {A} e.

(** Tag values: strings, booleans, floats (by the rational they denote)
    and sets of integers. *)
Inductive pyval : Type :=
| PStr (s : string)
| PBool (b : bool)
| PFloat (x : Q)
| PSet (l : list Z).

(** A [dict] with string keys.  Python dictionaries keep insertion
    order, and [tag_this_bag] iterates over one, so a dictionary is an
    association list without repeated keys. *)
Definition dict (V : Type) : Type := list (string * V).

Fixpoint dict_get {V} (k : string) (d : dict V) : option V :=
  match d with
  | [] => None
  | (k', v) :: r => if String.eqb k k' then Some v else dict_get k r
  end.

(** [k in d]. *)
Definition dict_mem {V} (k : string) (d : dict V) : bool :=
  match dict_get k d with Some _ => true | None => false end.

(** [d[k] = v]: overwrite in place, or append a new key. *)
Fixpoint dict_set {V} (k : string) (v : V) (d : dict V) : dict V :=
  match d with
  | [] => [(k, v)]
  | (k', v') :: r =>
      if String.eqb k k' then (k', v) :: r else (k', v') :: dict_set k v r
  end.

(** [x in l] for a tuple or list of strings. *)
Definition str_mem (x : string) (l : list string) : bool :=
  existsb (String.eqb x) l.

(** [set(l)]: the distinct elements.  A list stands for the set, in
    order of first occurrence; Python iterates over a set in an order
    of its own. *)
Fixpoint py_set (l : list Z) : list Z :=
  match l with
  | [] => []
  | x :: r => x :: filter (fun y => negb (Z.eqb x y)) (py_set r)
  end.

(** ** The vehicle catalog *)

(** [vehicle_type: (unique_message_type, (list, of, vehicles))]. *)
Definition vehicle_info : dict (string * list string) :=
  [ ("remus", ("ros_remus/Status", ["shadow"; "casper"; "bullwinkle"]));
    ("buoy", ("ros_gwb/ScheduleStatus", ["sugar"; "skipper"; "shrew"])) ].

(** ** Recordings, paths and the outside world *)

(** [genpy.Time]: whole seconds and nanoseconds. *)
Record Time : Type := mkTime { secs : Z; nsecs : Z }.

(** [t.to_sec()], exactly: seconds as a rational.  The float Python
    computes is the double nearest to it. *)
Definition to_sec (t : Time) : Q :=
  (inject_Z (secs t) + inject_Z (nsecs t) / inject_Z 1000000000)%Q.

(** What a message on a channel carries: the status sample of a remus
    ([in_mission], [depth], [mission_mode]), a [std_msgs/String], or a
    message with none of these fields. *)
Inductive MsgBody : Type :=
| StatusMsg (in_mission : bool) (depth : Q) (mission_mode : Z)
| StringMsg (data : string)
| OtherMsg.

Record Msg : Type := mkMsg {
  topic : string;
  msg_type : string;
  body : MsgBody;
  stamp : Time
}.

(** A recording on disk: whether the container can be opened at all,
    and its records in file order. *)
Record BagFile : Type := mkBagFile {
  readable : bool;
  msgs : list Msg
}.

(** [Path.parts]: an absolute path starts with the part ["/"]. *)
Definition path : Type := list string.

Definition path_eqb (p q : path) : bool :=
  if list_eq_dec string_dec p q then true else false.

(** [p.name], [p.parent] and [p / name]. *)
Definition name (p : path) : string := last p "".
Definition parent (p : path) : path := removelast p.
Definition child (p : path) (n : string) : path := (p ++ [n])%list.

(** [str(p)]. *)
Definition path_str (p : path) : string :=
  match p with
  | "/" :: r => "/" ++ PyStr.join "/" r
  | _ => PyStr.join "/" p
  end.

(** The files of the tree, in directory-listing order. *)
Definition FS : Type := list (path * BagFile).

Fixpoint fs_lookup (p : path) (fs : FS) : option BagFile :=
  match fs with
  | [] => None
  | (q, f) :: r => if path_eqb p q then Some f else fs_lookup p r
  end.

Definition fs_remove (p : path) (fs : FS) : FS :=
  filter (fun e => negb (path_eqb p (fst e))) fs.

Fixpoint fs_update (p : path) (f : BagFile) (fs : FS) : FS :=
  match fs with
  | [] => []
  | (q, g) :: r =>
      if path_eqb p q then (q, f) :: r else (q, g) :: fs_update p f r
  end.

(** The calls that leave the process, in the order they were made. *)
Inductive Event : Type :=
| EvLog (txt : string)
| EvOpen (p : path) (mode : string)
| EvClose (p : path)
| EvWrite (p : path) (m : Msg)
| EvRename (src dst : path)
| EvMkdir (p : path)
| EvGet
| EvPost (p : path) (csrf : option string).

Record World : Type := mkWorld {
  fs : FS;
  trace : list Event
}.

(** [time.localtime(t)]: the nine fields a [struct_time] iterates over. *)
Record struct_time : Type := mkStructTime {
  tm_year : Z; tm_mon : Z; tm_mday : Z;
  tm_hour : Z; tm_min : Z; tm_sec : Z;
  tm_wday : Z; tm_yday : Z; tm_isdst : Z
}.

Definition st_fields (t : struct_time) : list Z :=
  [ tm_year t; tm_mon t; tm_mday t; tm_hour t; tm_min t; tm_sec t;
    tm_wday t; tm_yday t; tm_isdst t ].

(** What the run cannot decide by itself: the command line and working
    directory, the local time zone, the rendering of floats, whether the
    operating system refuses a write or a rename, and what the archive
    answers. *)
Record Env : Type := mkEnv {
  cwd : path;
  IS_RECURSIVE : bool;
  localtime : Q -> struct_time;
  float_repr : Q -> string;
  write_fault : path -> option exn;
  rename_fault : path -> path -> option exn;
  (** the text node that mentions the token in the archive's page:
      [Raise] when the request fails, [None] when no node matches *)
  csrf_script : result (option string);
  (** the status code of the upload of a file name under a token *)
  http_post : string -> option string -> result Z
}.

(** ** The monad: state and exceptions *)

Definition M (A : Type) : Type := World -> result A * World.

Definition ret {A} (a : A) : M A := fun w => (Ok a, w).

Definition raise {A} (e : exn) : M A := fun w => (Raise e, w).

Definition bind {A B} (m : M A) (f : A -> M B) : M B :=
  fun w =>
    match m w with
    | (Ok a, w') => f a w'
    | (Raise e, w') => (Raise e, w')
    end.

(** [try: m  except Exception as e: h e]. *)
Definition try_except {A} (m : M A) (h : exn -> M A) : M A :=
  fun w =>
    match m w with
    | (Ok a, w') => (Ok a, w')
    | (Raise e, w') => h e w'
    end.

Declare Scope monad_scope.
Delimit Scope monad_scope with monad.
Notation "x <- m ;; k" := (bind m (fun x => k))
  (at level 61, m at next level, right associativity) : monad_scope.
Notation "' p <- m ;; k" := (bind m (fun x => match x with p => k end))
  (at level 61, p pattern, m at next level, right associativity) : monad_scope.
Notation "m ;; k" := (bind m (fun _ => k))
  (at level 61, right associativity) : monad_scope.
Open Scope monad_scope.

Definition lift {A} (r : result A) : M A := fun w => (r, w).

Definition emit (e : Event) : M unit :=
  fun w => (Ok tt, mkWorld (fs w) (trace w ++ [e])%list).

Definition get_fs : M FS := fun w => (Ok (fs w), w).

Definition put_fs (f : FS) : M unit :=
  fun w => (Ok tt, mkWorld f (trace w)).

(** [l[i]]. *)
Definition index {A} (l : list A) (i : nat) : M A :=
  match nth_error l i with
  | Some x => ret x
  | None => raise IndexError
  end.

(** [l[-1]]. *)
Definition index_last {A} (l : list A) : M A :=
  match rev l with
  | x :: _ => ret x
  | [] => raise IndexError
  end.

(** [d[k]]. *)
Definition getitem {V} (d : dict V) (k : string) : M V :=
  match dict_get k d with
  | Some v => ret v
  | None => raise KeyError
  end.

(** [for x in l: body x], with the loop counter threaded through. *)
Fixpoint for_each {A S} (l : list A) (s : S) (body : A -> S -> M S) : M S :=
  match l with
  | [] => ret s
  | x :: r => s' <- body x s ;; for_each r s' body
  end.

(** ** The collaborators: log, file system, recording container *)

Definition LF : string := String (ascii_of_nat 10) EmptyString.
Definition DQUOTE : ascii := ascii_of_nat 34.

Definition exn_str (e : exn) : string :=
  match e with
  | IndexError => "list index out of range"
  | KeyError => "key"
  | ValueError => "max() arg is an empty sequence"
  | TypeError => "time values must be positive"
  | AttributeError => "object has no such attribute"
  | NameError => "local variable referenced before assignment"
  | OSError => "No such file or directory"
  | ROSBagException => "Bag contains no message"
  | ConnectionError => "connection failed"
  end.

(** [log(txt)]: one more line in the log. *)
Definition log (txt : string) : M unit := emit (EvLog txt).

(** An open [rosbag.Bag]: the file it was opened on and the mode. *)
Record Bag : Type := mkBag { filename : path; mode : string }.

Definition qmin (a b : Q) : Q := if Qle_bool a b then a else b.
Definition qmax (a b : Q) : Q := if Qle_bool a b then b else a.

(** [int(x)]. *)
Definition py_int (x : Q) : Z := Z.quot (Qnum x) (Zpos (Qden x)).

(** [divmod(x, 1)]. *)
Definition divmod1 (x : Q) : Q * Q :=
  (inject_Z (Qfloor x), (x - inject_Z (Qfloor x))%Q).

(** [genpy.Time(secs, nsecs)] for an integral [secs]: [nsecs] goes
    through [int], the pair is brought to canonical form, and a negative
    time is refused. *)
Definition Time_new (s : Z) (ns : Q) : M Time :=
  let n := py_int ns in
  let s' := (s + n / 1000000000)%Z in
  let n' := (n mod 1000000000)%Z in
  if (s' <? 0)%Z then raise TypeError else ret (mkTime s' n').

(** The order in which the records of a recording are read: by time,
    the index of a topic being kept sorted, with records of the same
    time in the order they were written. *)
Fixpoint insert_by_time (x : Msg) (l : list Msg) : list Msg :=
  match l with
  | [] => [x]
  | y :: r =>
      if Qle_bool (to_sec (stamp x)) (to_sec (stamp y)) then x :: y :: r
      else y :: insert_by_time x r
  end.

Definition time_order (l : list Msg) : list Msg :=
  fold_right insert_by_time [] l.

Section Pipeline.

Variable E : Env.

(** [Path.rename]: the target is replaced when it exists. *)
Definition path_rename (src dst : path) : M unit :=
  match rename_fault E src dst with
  | Some e => raise e
  | None =>
      fs0 <- get_fs ;;
      match fs_lookup src fs0 with
      | None => raise OSError
      | Some f =>
          put_fs (fs_remove dst (fs_remove src fs0) ++ [(dst, f)])%list ;;
          emit (EvRename src dst)
      end
  end.

(** [Path.mkdir(exist_ok=True)]: fails only when a file has the name. *)
Definition path_mkdir (p : path) : M unit :=
  fs0 <- get_fs ;;
  match fs_lookup p fs0 with
  | Some _ => raise OSError
  | None => emit (EvMkdir p)
  end.

(** [Bag(p, mode)].  Append mode creates a missing file. *)
Definition Bag_open (p : path) (md : string) : M Bag :=
  fs0 <- get_fs ;;
  match fs_lookup p fs0 with
  | Some f =>
      if readable f then emit (EvOpen p md) ;; ret (mkBag p md)
      else raise ROSBagException
  | None =>
      if String.eqb md "a" then
        put_fs (fs0 ++ [(p, mkBagFile true [])])%list ;;
        emit (EvOpen p md) ;;
        ret (mkBag p md)
      else raise OSError
  end.

Definition bag_file (b : Bag) : M BagFile :=
  fs0 <- get_fs ;;
  match fs_lookup (filename b) fs0 with
  | Some f => ret f
  | None => raise OSError
  end.

(** [bag.get_start_time()] and [bag.get_end_time()]: the earliest and
    the latest record, in seconds.  The library reads them off the
    first and the last chunk of the file, which gives the same for a
    recording written in one piece. *)
Definition get_start_time (b : Bag) : M Q :=
  f <- bag_file b ;;
  match map (fun m => to_sec (stamp m)) (msgs f) with
  | [] => raise ROSBagException
  | t :: r => ret (fold_left qmin r t)
  end.

Definition get_end_time (b : Bag) : M Q :=
  f <- bag_file b ;;
  match map (fun m => to_sec (stamp m)) (msgs f) with
  | [] => raise ROSBagException
  | t :: r => ret (fold_left qmax r t)
  end.

(** [bag.read_messages(topics=tp)]: the records of the topic in time
    order, records of the same time in file order. *)
Definition read_messages (b : Bag) (tp : string) : M (list Msg) :=
  f <- bag_file b ;;
  ret (time_order (filter (fun m => String.eqb (topic m) tp) (msgs f))).

(** [bag.get_type_and_topic_info()._asdict()["msg_types"]], its keys. *)
Definition get_msg_types (b : Bag) : M (list string) :=
  f <- bag_file b ;;
  ret (map msg_type (msgs f)).

(** [bag.write(tp, String(data=d), t)]. *)
Definition Bag_write (b : Bag) (tp : string) (d : string) (t : Time)
  : M unit :=
  match write_fault E (filename b) with
  | Some e => raise e
  | None =>
      f <- bag_file b ;;
      fs0 <- get_fs ;;
      let m := mkMsg tp "std_msgs/String" (StringMsg d) t in
      put_fs (fs_update (filename b)
                (mkBagFile (readable f) (msgs f ++ [m])%list) fs0) ;;
      emit (EvWrite (filename b) m)
  end.

(** [bag.close()], as the event it is.  A recording is modelled by its
    records; what closing does to the bytes of the file, where the index
    is written anew, lies below that. *)
Definition Bag_close (b : Bag) : M unit := emit (EvClose (filename b)).

(** Attribute access on a message. *)
Definition msg_in_mission (m : Msg) : M bool :=
  match body m with StatusMsg i _ _ => ret i | _ => raise AttributeError end.
Definition msg_depth (m : Msg) : M Q :=
  match body m with StatusMsg _ d _ => ret d | _ => raise AttributeError end.
Definition msg_mission_mode (m : Msg) : M Z :=
  match body m with StatusMsg _ _ k => ret k | _ => raise AttributeError end.

(** ** [identify_date] *)

Fixpoint date_loop (i : nat) (vals : list Z) (date : string) : string :=
  match vals with
  | [] => date
  | val :: r =>
      let date := date ++ PyStr.of_Z val ++ "-" in
      if (i =? 6)%nat then date else date_loop (S i) r date
  end.

Definition identify_date (bag : Bag) : M string :=
  t <- get_start_time bag ;;
  let date := date_loop 0 (st_fields (localtime E t)) "" in
  ret (PyStr.rstrip_with (Ascii.eqb "-") date).

(** ** [is_rename_necessary] *)

Definition is_rename_necessary (filename : string) : M bool :=
  let components := PyStr.split "_" filename in
  valid <-
    (if ((2 <? List.length components) && (List.length components <? 5))%nat then
       c0 <- index components 0 ;;
       if dict_mem c0 vehicle_info then
         c1 <- index components 1 ;;
         info <- getitem vehicle_info c0 ;;
         ret (str_mem c1 (snd info))
       else ret false
     else ret false) ;;
  if valid : bool then
    log ("---Bag " ++ filename ++ " has a valid name; skipping to next file.") ;;
    ret false
  else
    log ("--Bag " ++ filename ++ " has an invalid name; renaming now.") ;;
    ret true.

(** ** [identify_source] *)

(** The local variables [source] (unbound at first) and [status]. *)
Definition src_state : Type := option string * Z.

(** The inner loop of the directory search, for one path component. *)
Definition scan_names (parent_folder : string) (st : src_state)
  : src_state :=
  fold_left
    (fun st (it : string * (string * list string)) =>
       let '(v_type, v_info) := it in
       if str_mem parent_folder (snd v_info)
       then (Some (v_type ++ "_" ++ parent_folder), 1%Z)
       else st)
    vehicle_info st.

(** The directory search over [bag.parts]. *)
Definition scan_parts (parts : list string) (st : src_state) : src_state :=
  fold_left (fun st parent_folder => scan_names parent_folder st) parts st.

(** The search of the catalog's message types in the recording. *)
Definition scan_types (msg_types : list string) (st : src_state)
  : src_state :=
  fold_left
    (fun st (it : string * (string * list string)) =>
       let '(v_type, v_info) := it in
       if str_mem (fst v_info) msg_types
       then (Some (v_type ++ "_unknownname"), 2%Z)
       else st)
    vehicle_info st.

Definition identify_source (bag : path) : M (string * Z) :=
  let st : src_state := (None, 0%Z) in
  log ("---Attempting to rename " ++ name bag ++ " by directory.") ;;
  let st := scan_parts bag st in
  st <-
    (if (snd st =? 0)%Z then
       log "---Directory naming failed; attempting to name by contents." ;;
       b <- Bag_open bag "r" ;;
       msg_types <- get_msg_types b ;;
       ret (scan_types msg_types st)
     else ret st) ;;
  st <-
    (if (snd st =? 0)%Z then
       log "---Content naming failed." ;;
       ret (Some "unknowntype_unknownname", snd st)
     else ret st) ;;
  match fst st with
  | Some source => ret (source, snd st)
  | None => raise NameError
  end.

(** ** [standard_rename] *)

Definition standard_rename (bag : path) : M (bool * path) :=
  let to_upload := true in
  let newpath := bag in
  log ("-Evaluating filename " ++ name bag) ;;
  needed <- is_rename_necessary (name bag) ;;
  '(to_upload, newpath) <-
    (if needed : bool then
       '(source, status) <- identify_source bag ;;
       b <- Bag_open bag "r" ;;
       date <- identify_date b ;;
       let built_name := source ++ "_" ++ date ++ ".bag" in
       to_upload <-
         (if (status =? 0)%Z then
            log ("--Could not retrieve vehicle info, named bag "
                 ++ built_name ++ ". "
                 ++ "Do not upload this bag file to the database until its "
                 ++ "source vehicle can be identified.") ;;
            ret false
          else if (status =? 1)%Z then
            log ("--Retrieved good name info " ++ built_name
                 ++ " from directory.") ;;
            ret to_upload
          else if (status =? 2)%Z then
            log ("--Retrieved name info " ++ built_name
                 ++ " from contents. The "
                 ++ "invididual vehicle could not be identified, please add "
                 ++ "the source vehicle's name to the filename manually "
                 ++ "before uploading this file to the database.") ;;
            ret false
          else ret to_upload) ;;
       let newpath := child (parent bag) built_name in
       path_rename bag newpath ;;
       ret (to_upload, newpath)
     else ret (to_upload, newpath)) ;;
  log "-Finished evaluation." ;;
  ret (to_upload, newpath).

(** ** [generate_tags] *)

(** [round(x, 2)] on the value a float denotes: to the nearest
    hundredth, a tie going to the even neighbour. *)
Definition round_half_even (x : Q) : Z :=
  let f := Qfloor x in
  match Qcompare (x - inject_Z f) (1 # 2) with
  | Lt => f
  | Gt => (f + 1)%Z
  | Eq => if Z.even f then f else (f + 1)%Z
  end.

Definition py_round2 (x : Q) : Q :=
  Qmake (round_half_even (x * inject_Z 100)) 100.

(** [max(l)]: the first of the largest items; an empty list raises. *)
Definition max_step (cur item : Q) : Q :=
  if Qle_bool item cur then cur else item.

Definition py_max (l : list Q) : M Q :=
  match l with
  | [] => raise ValueError
  | x :: r => ret (fold_left max_step r x)
  end.

(** [v[i:j]] on a tag value. *)
Definition py_slice (i j : nat) (v : pyval) : M pyval :=
  match v with
  | PStr s => ret (PStr (PyStr.slice i j s))
  | _ => raise TypeError
  end.

(** [v == s] for a string [s]. *)
Definition py_eq_str (v : pyval) (s : string) : bool :=
  match v with
  | PStr t => String.eqb t s
  | _ => false
  end.

Definition generate_tags (bag : Bag) : M (dict pyval) :=
  bagname <- index (PyStr.rsplit1 "/" (path_str (filename bag))) 1 ;;
  log ("-Attempting to tag " ++ bagname) ;;
  let bag_name_list := PyStr.split "_" bagname in
  let tags : dict pyval := [] in
  vehicle <- index bag_name_list 0 ;;
  let tags := dict_set "vehicle" (PStr vehicle) tags in
  vname <- index bag_name_list 1 ;;
  let tags := dict_set "name" (PStr vname) tags in
  date <- identify_date bag ;;
  let tags := dict_set "date/time" (PStr date) tags in
  dt <- getitem tags "date/time" ;;
  year <- py_slice 0 4 dt ;;
  let tags := dict_set "year" year tags in
  veh <- getitem tags "vehicle" ;;
  if py_eq_str veh "remus" then
    let depth_list : list Q := [] in
    let mission_modes : list Z := [] in
    first <- read_messages bag "/status" ;;
    tags <-
      (match first with
       | m :: _ =>
           st <- msg_in_mission m ;;
           ret (dict_set "mission state" (PBool st) tags)
       | [] => ret tags
       end) ;;
    samples <- read_messages bag "/status" ;;
    '(depth_list, mission_modes) <-
      for_each samples (depth_list, mission_modes)
        (fun m acc =>
           d <- msg_depth m ;;
           k <- msg_mission_mode m ;;
           ret ((fst acc ++ [py_round2 d])%list, (snd acc ++ [k])%list)) ;;
    deepest <- py_max depth_list ;;
    let tags := dict_set "max depth" (PFloat deepest) tags in
    let tags := dict_set "mission modes" (PSet (py_set mission_modes)) tags in
    ret tags
  else if py_eq_str veh "buoy" then
    ret tags
  else
    ret tags.

(** ** [tag_this_bag] *)

(** [f"{val}"] for a tag value. *)
Definition py_str (v : pyval) : string :=
  match v with
  | PStr s => s
  | PBool true => "True"
  | PBool false => "False"
  | PFloat x => float_repr E x
  | PSet [] => "set()"
  | PSet l => "{" ++ PyStr.join ", " (map PyStr.of_Z l) ++ "}"
  end.

(** The message text before trimming: one [key:val] line per tag. *)
Definition tag_lines (tags : dict pyval) : string :=
  fold_left
    (fun data (kv : string * pyval) =>
       data ++ fst kv ++ ":" ++ py_str (snd kv) ++ LF)
    tags "".

Definition tag_this_bag (bag : Bag) (tags : dict pyval) : M unit :=
  let data := PyStr.rstrip (tag_lines tags) in
  log ("--Publishing message with data: " ++ LF ++ data) ;;
  end_time <- get_end_time bag ;;
  let '(msg_sec, msg_nsec) := divmod1 end_time in
  t <- Time_new (py_int msg_sec) msg_nsec ;;
  Bag_write bag "/metadata" data t ;;
  log "--Successfully tagged bag.".

(** ** [prep_and_post] and [get_csrf_token] *)

Definition prep_and_post (filepath : path) (csrf : option string)
  : M string :=
  fs0 <- get_fs ;;
  match fs_lookup filepath fs0 with
  | None => raise OSError
  | Some _ =>
      emit (EvPost filepath csrf) ;;
      code <- lift (http_post E (name filepath) csrf) ;;
      ret (PyStr.of_Z code)
  end.

Fixpoint enumerate {A} (i : nat) (l : list A) : list (nat * A) :=
  match l with
  | [] => []
  | x :: r => (i, x) :: enumerate (S i) r
  end.

Definition opt_str (o : option string) : string :=
  match o with Some s => s | None => "None" end.

Definition get_csrf_token : M (option string) :=
  log "Retrieving CSRF token." ;;
  emit EvGet ;;
  found <- lift (csrf_script E) ;;
  log "Got html" ;;
  let csrf : option string := None in
  log "Finding string with token" ;;
  script <-
    (match found with
     | Some s => ret s
     | None => raise AttributeError
     end) ;;
  let script_items := PyStr.split ";" script in
  log "Found" ;;
  csrf <-
    for_each (enumerate 0 script_items) csrf
      (fun it csrf =>
         let '(i, str) := it in
         log ("Step " ++ PyStr.of_Z (Z.of_nat i) ++ " of "
              ++ PyStr.of_Z (Z.of_nat (List.length script_items) - 1)) ;;
         if PyStr.contains "csrfToken" str then
           ret (Some (PyStr.slice (Z.to_nat (PyStr.find DQUOTE str + 1))
                        (String.length str - 1) str))
         else ret csrf) ;;
  log ("Token: " ++ opt_str csrf) ;;
  ret csrf.

(** ** [process_bags] *)

Definition post_folder : string := "uploaded".

Fixpoint is_prefix (p q : path) : bool :=
  match p, q with
  | [], _ => true
  | x :: p', y :: q' => String.eqb x y && is_prefix p' q'
  | _ :: _, [] => false
  end.

(** [thisdir.glob("**/*.bag")] when recursive, [thisdir.glob("*.bag")]
    otherwise. *)
Definition glob (thisdir : path) (fs0 : FS) : list path :=
  filter
    (fun p =>
       PyStr.endswith (name p) ".bag" &&
       (if IS_RECURSIVE E then is_prefix thisdir (parent p)
        else path_eqb (parent p) thisdir))
    (map fst fs0).

(** The line that announces a recording, and the line that reports an
    exception caught while tagging. *)
Definition progress_line (bagpath : path) (i : Z) (net : nat) : string :=
  "Processing bag " ++ name bagpath ++ " (" ++ PyStr.of_Z i ++ "/"
  ++ PyStr.of_Z (Z.of_nat net) ++ ")".

Definition error_line (e : exn) : string :=
  "Error " ++ exn_str e ++ "." ++ LF
  ++ "Closing and skipping bag without upload.".

(** The body of the loop over [bagfiles]; [i] is the running count. *)
Definition process_one (csrf : option string) (net : nat)
    (bagpath : path) (i : Z) : M Z :=
  log (progress_line bagpath i net) ;;
  let i := (i + 1)%Z in
  leaf <- index_last bagpath ;;
  (if negb (String.eqb leaf post_folder) then
     '(rename_results, bagpath) <- standard_rename bagpath ;;
     if rename_results : bool then
       bag <- Bag_open bagpath "a" ;;
       tagged <-
         try_except
           (tags <- generate_tags bag ;;
            tag_this_bag bag tags ;;
            Bag_close bag ;;
            ret true)
           (fun e =>
              log (error_line e) ;;
              Bag_close bag ;;
              ret false) ;;
       if tagged : bool then
         post_status <- prep_and_post bagpath csrf ;;
         if String.eqb post_status "200" then
           log "Successful file upload. Moving file to subdirectory." ;;
           path_mkdir (child (parent bagpath) post_folder) ;;
           path_rename bagpath
             (child (child (parent bagpath) post_folder) (name bagpath))
         else
           log ("Post request failed with status code " ++ post_status
                ++ ".")
       else ret tt
     else
       log ("Bag " ++ name bagpath ++ " does not have enough metadata "
            ++ "to be uploaded safely. Skipping bag without upload.")
   else
     log ("Ignoring pre-existing bag " ++ name bagpath ++ " in '"
          ++ path_str (parent bagpath) ++ "'")) ;;
  ret i.

Definition process_bags : M unit :=
  let thisdir := cwd E in
  fs0 <- get_fs ;;
  let bagfiles := glob thisdir fs0 in
  csrf <- get_csrf_token ;;
  let net := List.length bagfiles in
  for_each bagfiles 1%Z (process_one csrf net) ;;
  ret tt.

Definition main : M unit :=
  log "**Processing new bag file batch.**" ;;
  process_bags ;;
  log "**Finished processing.**".

End Pipeline.

(** ** [hard_rename.py] *)

Section HardRename.

Variable E : Env.

(** The command line of the script: [--type] and [--name], [None] when
    left out. *)
Variables PLATFORM_TYPE PLATFORM_NAME : option string.

(** [thisdir.glob("*.bag")]: the directory is listed when the loop
    starts. *)
Definition glob_here (thisdir : path) (fs0 : FS) : list path :=
  filter
    (fun p => PyStr.endswith (name p) ".bag" && path_eqb (parent p) thisdir)
    (map fst fs0).

(** [f"{PLATFORM_TYPE}_{PLATFORM_NAME}_{file.name}"]. *)
Definition hard_name (file_name : string) : string :=
  opt_str PLATFORM_TYPE ++ "_" ++ opt_str PLATFORM_NAME ++ "_" ++ file_name.

(** [hard_rename()].  The new name is a relative path, taken from the
    working directory, which is [thisdir]; it is one part as long as
    type and name hold no ["/"]. *)
Definition hard_rename : M unit :=
  let thisdir := cwd E in
  fs0 <- get_fs ;;
  let files := glob_here thisdir fs0 in
  for_each files tt
    (fun file _ => path_rename E file (child thisdir (hard_name (name file)))) ;;
  ret tt.

End HardRename.

(** * Vocabulary of the properties *)

(** The decision of [is_rename_necessary], without its log lines. *)
Definition valid_name (filename : string) : bool :=
  let components := PyStr.split "_" filename in
  ((2 <? List.length components) && (List.length components <? 5))%nat &&
  match nth_error components 0, nth_error components 1 with
  | Some c0, Some c1 =>
      match dict_get c0 vehicle_info with
      | Some info => str_mem c1 (snd info)
      | None => false
      end
  | _, _ => false
  end.

(** A path component is a known name when some vehicle type of the
    catalog lists it. *)
Definition known_name (c : string) : Prop :=
  exists v_type signal names,
    In (v_type, (signal, names)) vehicle_info /\ In c names.

(** A recording carries a content signal of the catalog when the unique
    message type of some vehicle type is among its message types. *)
Definition has_signal (msg_types : list string) : Prop :=
  exists v_type signal names,
    In (v_type, (signal, names)) vehicle_info /\ In signal msg_types.

(** The type the directory search settles on for a component: the last
    type of the catalog that lists it. *)
Definition type_of_name (c : string) : option string :=
  fold_left
    (fun acc (it : string * (string * list string)) =>
       if str_mem c (snd (snd it)) then Some (fst it) else acc)
    vehicle_info None.

(** The type the content search settles on: the last type of the catalog
    whose message type the recording carries. *)
Definition type_of_signal (msg_types : list string) : option string :=
  fold_left
    (fun acc (it : string * (string * list string)) =>
       if str_mem (fst (snd it)) msg_types then Some (fst it) else acc)
    vehicle_info None.

(** An event that is a log line. *)
Definition is_log (ev : Event) : Prop := exists txt, ev = EvLog txt.

(** The verdict of [standard_rename] follows the confidence of the
    identification: no rename needed means eligible under the old path;
    otherwise eligible exactly under confidence 1. *)
Definition verdict_follows_confidence (bag : path) (w : World)
    (to_upload : bool) (newpath : path) : Prop :=
  exists needed w1,
    is_rename_necessary (name bag)
      (snd (log ("-Evaluating filename " ++ name bag) w)) = (Ok needed, w1)
    /\ (needed = false -> to_upload = true /\ newpath = bag)
    /\ (needed = true ->
        exists source status w2,
          identify_source bag w1 = (Ok (source, status), w2)
          /\ (status = 0 \/ status = 1 \/ status = 2)%Z
          /\ (status = 0%Z -> to_upload = false)
          /\ (status = 1%Z -> to_upload = true)
          /\ (status = 2%Z -> to_upload = false)).

(** A run from [w] to [w'] that only logged: the files are the same
    and the trace grew by log lines alone. *)
Definition only_logs (w w' : World) : Prop :=
  fs w' = fs w /\
  exists logs, trace w' = (trace w ++ logs)%list /\ Forall is_log logs.

(** A computation that only logs, whatever its outcome. *)
Definition quiet {A} (m : M A) : Prop :=
  forall w r w', m w = (r, w') -> only_logs w w'.

(** A computation that has only logged whenever it raises. *)
Definition quiet_on_raise {A} (m : M A) : Prop :=
  forall w e w', m w = (Raise e, w') -> only_logs w w'.

(** A computation that never raises. *)
Definition total {A} (m : M A) : Prop :=
  forall w, exists a w', m w = (Ok a, w').

(** Whether a character occurs in a string. *)
Fixpoint occurs (c : ascii) (s : string) : bool :=
  match s with
  | EmptyString => false
  | String d r => Ascii.eqb d c || occurs c r
  end.

(** The samples of the status channel of a recording in the order they
    are read, the message being a status sample, and the depths
    sampled. *)
Definition status_samples (f : BagFile) : list Msg :=
  time_order (filter (fun m => String.eqb (topic m) "/status") (msgs f)).

Definition is_status (m : Msg) : Prop :=
  exists i d k, body m = StatusMsg i d k.

Definition depth_of (m : Msg) : list Q :=
  match body m with
  | StatusMsg _ d _ => [d]
  | _ => []
  end.

Definition mode_of (m : Msg) : list Z :=
  match body m with
  | StatusMsg _ _ k => [k]
  | _ => []
  end.

Definition sampled_depths (f : BagFile) : list Q :=
  flat_map depth_of (status_samples f).

(** [v] is [x] rounded to two decimal places: a whole number of
    hundredths, at most half a hundredth away from [x], and the even one
    of the two when [x] lies halfway between them. *)
Definition nearest_hundredth (x v : Q) : Prop :=
  exists n : Z,
    v = (n # 100)%Q
    /\ (inject_Z n - (1 # 2) <= x * inject_Z 100)%Q
    /\ (x * inject_Z 100 <= inject_Z n + (1 # 2))%Q
    /\ ((x * inject_Z 100 == inject_Z n + (1 # 2))%Q
        \/ (x * inject_Z 100 == inject_Z n - (1 # 2))%Q ->
        Z.even n = true).

(** The start and the end of a recording with first record [m] and
    further records [r], in seconds. *)
Definition earliest (m : Msg) (r : list Msg) : Q :=
  fold_left qmin (map (fun x => to_sec (stamp x)) r) (to_sec (stamp m)).

Definition latest (m : Msg) (r : list Msg) : Q :=
  fold_left qmax (map (fun x => to_sec (stamp x)) r) (to_sec (stamp m)).

(** The token [identify_date] builds for a start time. *)
Definition date_string (E : Env) (t : Q) : string :=
  PyStr.rstrip_with (Ascii.eqb "-")
    (date_loop 0 (st_fields (localtime E t)) "").

(** The record [tag_this_bag] writes for a tag set and an end time. *)
Definition metadata_record (E : Env) (tags : dict pyval) (e : Q) : Msg :=
  mkMsg "/metadata" "std_msgs/String"
    (StringMsg (PyStr.rstrip (tag_lines E tags))) (mkTime (Qfloor e) 0).

(** One [key:value] line of the metadata text. *)
Definition tag_line (E : Env) (kv : string * pyval) : string :=
  fst kv ++ ":" ++ py_str E (snd kv).

(** How an exception can leave the body of the driver's loop for a
    recording, from the world [w0] in which the progress line has been
    logged: out of [standard_rename]; out of opening the recording for
    tagging; out of the upload; or out of the move that follows an
    accepted upload.  Tagging and publishing are not among them.  (A
    path without parts has no last part to test.) *)
Definition escapes_outside_tagging (E : Env) (csrf : option string)
    (bagpath : path) (w0 : World) (e : exn) (w' : World) : Prop :=
  (bagpath = [] /\ e = IndexError /\ w' = w0)
  \/ (bagpath <> [] /\ name bagpath <> post_folder /\
      (standard_rename E bagpath w0 = (Raise e, w')
       \/ exists p' w1,
           standard_rename E bagpath w0 = (Ok (true, p'), w1) /\
           (Bag_open p' "a" w1 = (Raise e, w')
            \/ exists bag w2 w3,
                Bag_open p' "a" w1 = (Ok bag, w2) /\
                (tags <- generate_tags E bag ;;
                 tag_this_bag E bag tags ;; Bag_close bag ;; ret true) w2
                = (Ok true, w3) /\
                (prep_and_post E p' csrf w3 = (Raise e, w')
                 \/ exists w4,
                     prep_and_post E p' csrf w3 = (Ok "200", w4) /\
                     (log "Successful file upload. Moving file to subdirectory." ;;
                      path_mkdir (child (parent p') post_folder) ;;
                      path_rename E p'
                        (child (child (parent p') post_folder) (name p'))) w4
                     = (Raise e, w'))))).

(** Whether an event concerns a path. *)
Definition touches (p : path) (ev : Event) : bool :=
  match ev with
  | EvOpen q _ | EvClose q | EvWrite q _ | EvMkdir q | EvPost q _ =>
      path_eqb p q
  | EvRename q r => path_eqb p q || path_eqb p r
  | EvLog _ | EvGet => false
  end.

(** Events that tag, upload or rename. *)
Definition is_write (ev : Event) : bool :=
  match ev with EvWrite _ _ => true | _ => false end.
Definition is_post (ev : Event) : bool :=
  match ev with EvPost _ _ => true | _ => false end.
Definition is_rename (ev : Event) : bool :=
  match ev with EvRename _ _ => true | _ => false end.

(** Every character of a string passes a test; the last character. *)
Fixpoint all_chars (p : ascii -> bool) (s : string) : bool :=
  match s with
  | EmptyString => true
  | String c r => p c && all_chars p r
  end.

Fixpoint last_char (s : string) : option ascii :=
  match s with
  | EmptyString => None
  | String c EmptyString => Some c
  | String _ r => last_char r
  end.

Definition is_digit (c : ascii) : bool :=
  let n := nat_of_ascii c in ((48 <=? n) && (n <=? 57))%nat.

Definition is_digit_or_dash (c : ascii) : bool :=
  is_digit c || Ascii.eqb c "-".

(** The seven fields of the local time that [identify_date] prints. *)
Definition printed_fields (t : struct_time) : list Z :=
  [ tm_year t; tm_mon t; tm_mday t; tm_hour t; tm_min t; tm_sec t;
    tm_wday t ].

(** What the validator accepts, spelled out. *)
Definition catalog_valid (filename : string) : Prop :=
  let components := PyStr.split "_" filename in
  (List.length components = 3 \/ List.length components = 4) /\
  exists v_type signal names v_name,
    nth_error components 0 = Some v_type /\
    dict_get v_type vehicle_info = Some (signal, names) /\
    nth_error components 1 = Some v_name /\
    In v_name names.

(** A computation that leaves the files alone, whatever its outcome. *)
Definition keeps_fs {A} (m : M A) : Prop :=
  forall w r w', m w = (r, w') -> fs w' = fs w.

(** The token a statement of the script yields: what stands between its
    first double quote and its last character. *)
Definition token_of (str : string) : string :=
  PyStr.slice (Z.to_nat (PyStr.find DQUOTE str + 1)) (String.length str - 1)
    str.

(** The token of the last statement that mentions ["csrfToken"]. *)
Definition last_token (pieces : list string) : option string :=
  fold_left
    (fun acc p => if PyStr.contains "csrfToken" p then Some (token_of p) else acc)
    pieces None.

(** * Sample worlds *)

(** Friday 5 January 2024, 13:07:09: weekday 4, day 5 of the year. *)
Definition sample_localtime : struct_time :=
  mkStructTime 2024 1 5 13 7 9 4 5 0.

(** A two-decimal rendering, enough for rounded depths. *)
Definition sample_float_repr (x : Q) : string :=
  let c := Qfloor (x * inject_Z 100) in
  let a := Z.abs c in
  let ip := (a / 100)%Z in
  let fp := (a mod 100)%Z in
  (if (c <? 0)%Z then "-" else "") ++ PyStr.of_Z ip ++ "." ++
  (if (fp mod 10 =? 0)%Z then PyStr.of_Z (fp / 10)
   else (if (fp <? 10)%Z then "0" else "") ++ PyStr.of_Z fp).

Definition sample_script : string :=
  "var a = 1; var csrfToken = " ++ String DQUOTE ("abc" ++ String DQUOTE "").

(** A run in [/data], recursive, with an archive that accepts every
    upload. *)
Definition sample_env : Env :=
  mkEnv ["/"; "data"] true (fun _ => sample_localtime) sample_float_repr
    (fun _ => None) (fun _ _ => None)
    (Ok (Some sample_script)) (fun _ _ => Ok 200%Z).

Definition remus_rec : BagFile :=
  mkBagFile true
    [ mkMsg "/status" "ros_remus/Status"
        (StatusMsg true (1234567 # 1000000) 3) (mkTime 10 500000000);
      mkMsg "/status" "ros_remus/Status"
        (StatusMsg true (25 # 1000) 4) (mkTime 12 700000000) ].

(** A remus recording under the directory of the vehicle ["shadow"]. *)
Definition remus_path : path := ["/"; "data"; "shadow"; "rec1.bag"].
Definition remus_world : World := mkWorld [(remus_path, remus_rec)] [].

(** The same recording once it carries its canonical name. *)
Definition named_remus_path : path :=
  ["/"; "data"; "shadow"; "remus_shadow_2024-1-5-13-7-9-4.bag"].
Definition named_remus_world : World :=
  mkWorld [(named_remus_path, remus_rec)] [].


(** A recording of a single record, half a second past second 10. *)
Definition short_rec : BagFile :=
  mkBagFile true
    [ mkMsg "/schedule" "ros_gwb/ScheduleStatus" OtherMsg
        (mkTime 10 500000000) ].
Definition short_path : path := ["/"; "data"; "buoy_sugar_2024-1-5-13-7-9-4.bag"].
Definition short_world : World := mkWorld [(short_path, short_rec)] [].
Definition short_tags : dict pyval :=
  [ ("vehicle", PStr "buoy"); ("name", PStr "sugar") ].

(** A recording that carries the canonical name of a remus but holds no
    status sample, and the worlds the driver takes it through: after the
    validator, after [Bag(..., mode="a")], after tagging failed. *)
Definition hollow_path : path :=
  ["/"; "data"; "remus_shadow_2024-1-5-13-7-9-4.bag"].
Definition hollow_world : World := mkWorld [(hollow_path, short_rec)] [].
Definition hollow_validated : World :=
  snd (standard_rename sample_env hollow_path
         (snd (log (progress_line hollow_path 1 1) hollow_world))).
Definition hollow_opened : World :=
  snd (Bag_open hollow_path "a" hollow_validated).
Definition hollow_failed : World :=
  snd ((tags <- generate_tags sample_env (mkBag hollow_path "a") ;;
        tag_this_bag sample_env (mkBag hollow_path "a") tags) hollow_opened).

(** The tree a first run leaves behind when it archived its only
    recording, with a fresh trace, and where the recording then lies. *)
Definition archived_world : World :=
  mkWorld (fs (snd (process_bags sample_env named_remus_world))) [].
Definition archived_path : path :=
  ["/"; "data"; "shadow"; "uploaded"; "remus_shadow_2024-1-5-13-7-9-4.bag"].
Definition rearchived_path : path :=
  ["/"; "data"; "shadow"; "uploaded"; "uploaded";
   "remus_shadow_2024-1-5-13-7-9-4.bag"].

(** An archive that cannot be reached once the token has been handed
    out, and a tree of two recordings with canonical names. *)
Definition offline_env : Env :=
  mkEnv ["/"; "data"] true (fun _ => sample_localtime) sample_float_repr
    (fun _ => None) (fun _ _ => None)
    (Ok (Some sample_script)) (fun _ _ => Raise ConnectionError).
Definition two_world : World :=
  mkWorld [(named_remus_path, remus_rec); (short_path, short_rec)] [].

(** Where the first of the two recordings leaves the loop body when the
    archive is out of reach. *)
Definition offline_failed : World :=
  snd (process_one offline_env (Some "abc") 2 named_remus_path 1 two_world).

(** The worlds the driver takes the named remus recording through on its
    way into the archive: validated, opened, tagged and closed. *)
Definition sent_validated : World :=
  snd (standard_rename sample_env named_remus_path
         (snd (log (progress_line named_remus_path 1 1) named_remus_world))).
Definition sent_opened : World :=
  snd (Bag_open named_remus_path "a" sent_validated).
Definition sent_tagged : World :=
  snd ((tags <- generate_tags sample_env (mkBag named_remus_path "a") ;;
        tag_this_bag sample_env (mkBag named_remus_path "a") tags ;;
        Bag_close (mkBag named_remus_path "a") ;; ret true) sent_opened).
Definition sent_posted : World :=
  snd (prep_and_post sample_env named_remus_path (Some "abc") sent_tagged).

Definition clashing_pair : World :=
  mkWorld [(["/"; "data"; "a.bag"], remus_rec);
           (["/"; "data"; "remus_shadow_a.bag"], short_rec)] [].

(** A working directory that holds no recording. *)
Definition notes_only : World :=
  mkWorld [(["/"; "data"; "notes.txt"], mkBagFile false [])] [].

(** A run on a medium that refuses every write. *)
Definition readonly_env : Env :=
  mkEnv ["/"; "data"] true (fun _ => sample_localtime) sample_float_repr
    (fun _ => Some OSError) (fun _ _ => None)
    (Ok (Some sample_script)) (fun _ _ => Ok 200%Z).

(** A tree whose first recording cannot be opened (it was never
    indexed) and whose second recording is in order. *)
Definition broken_path : path := ["/"; "data"; "rec0.bag"].
Definition broken_world : World :=
  mkWorld [(broken_path, mkBagFile false []); (short_path, short_rec)] [].

Definition buoy_rec : BagFile :=
  mkBagFile true
    [ mkMsg "/schedule" "ros_gwb/ScheduleStatus" OtherMsg (mkTime 5 0) ].

(** A buoy recording with an unhelpful name in an unhelpful directory. *)
Definition buoy_path : path := ["/"; "data"; "rec2.bag"].
Definition buoy_world : World := mkWorld [(buoy_path, buoy_rec)] [].

Definition plain_rec : BagFile :=
  mkBagFile true
    [ mkMsg "/chatter" "std_msgs/String" (StringMsg "hi") (mkTime 5 0) ].

(** * Properties *)

(** ** Running a computation *)

Lemma bind_ok {A B} (m : M A) (f : A -> M B) w a w1 :
  m w = (Ok a, w1) -> bind m f w = f a w1.
Proof. intros H. unfold bind. rewrite H. reflexivity. Qed.

Lemma bind_raise {A B} (m : M A) (f : A -> M B) w e w1 :
  m w = (Raise e, w1) -> bind m f w = (Raise e, w1).
Proof. intros H. unfold bind. rewrite H. reflexivity. Qed.

Lemma bind_inv_ok {A B} (m : M A) (f : A -> M B) w b w' :
  bind m f w = (Ok b, w') ->
  exists a w1, m w = (Ok a, w1) /\ f a w1 = (Ok b, w').
Proof.
  unfold bind. destruct (m w) as [[a | e] w1]; intros H.
  - exists a, w1. split; [reflexivity | exact H].
  - discriminate H.
Qed.

Lemma bind_inv_raise {A B} (m : M A) (f : A -> M B) w e w' :
  bind m f w = (Raise e, w') ->
  m w = (Raise e, w') \/
  exists a w1, m w = (Ok a, w1) /\ f a w1 = (Raise e, w').
Proof.
  unfold bind. destruct (m w) as [[a | e0] w1]; intros H.
  - right. exists a, w1. split; [reflexivity | exact H].
  - left. inversion H. reflexivity.
Qed.

Lemma log_run txt w :
  log txt w = (Ok tt, mkWorld (fs w) (trace w ++ [EvLog txt])).
Proof. reflexivity. Qed.

Lemma bind_assoc {A B C} (m : M A) (f : A -> M B) (g : B -> M C) w :
  bind (bind m f) g w = bind m (fun a => bind (f a) g) w.
Proof. unfold bind. destruct (m w) as [[a | e] w1]; reflexivity. Qed.

(** Unfold the monad's plumbing, leaving the collaborators' calls and the
    projections of the world in place. *)
Ltac mstep :=
  cbv beta iota delta
    [bind ret raise lift try_except log emit get_fs put_fs];
  cbn [fs trace filename mode fst snd].

(** Take one step of a computation whose first call is known. *)
Ltac mnext H := rewrite (bind_ok _ _ _ _ _ H); cbv beta.
Ltac mnext_refl := erewrite bind_ok; [| reflexivity]; cbv beta.

(** ** The naming validator *)

Lemma str_mem_In x l : str_mem x l = true <-> In x l.
Proof.
  unfold str_mem. rewrite existsb_exists. split.
  - intros [y [Hy He]]. apply String.eqb_eq in He. subst. exact Hy.
  - intros H. exists x. split; [exact H | apply String.eqb_refl].
Qed.

Lemma is_rename_necessary_run filename w :
  exists txt,
    is_rename_necessary filename w =
    (Ok (negb (valid_name filename)),
     mkWorld (fs w) (trace w ++ [EvLog txt])).
Proof.
  unfold is_rename_necessary, valid_name.
  set (components := PyStr.split "_" filename).
  destruct ((2 <? List.length components) && (List.length components <? 5))%nat
    eqn:Hlen.
  - apply andb_true_iff in Hlen. destruct Hlen as [H2 H5].
    apply Nat.ltb_lt in H2.
    destruct components as [| c0 [| c1 rest]]; simpl in H2; try lia.
    unfold index, dict_mem, getitem. cbn [nth_error andb].
    cbv [bind ret].
    destruct (dict_get c0 vehicle_info) as [info |].
    + destruct (str_mem c1 (snd info)); eexists; reflexivity.
    + eexists; reflexivity.
  - eexists; reflexivity.
Qed.

(** C6.  A file name that does not split into three or four segments
    at ["_"] needs renaming; one that does, whose first segment is a
    vehicle type of the catalog and whose second segment is one of that
    type's names, does not, whatever its other segments are. *)
Theorem is_rename_necessary_decision (filename : string) (w : World) :
  let components := PyStr.split "_" filename in
  (List.length components <> 3 -> List.length components <> 4 ->
   fst (is_rename_necessary filename w) = Ok true)
  /\
  (forall v_type signal names v_name,
      List.length components = 3 \/ List.length components = 4 ->
      nth_error components 0 = Some v_type ->
      dict_get v_type vehicle_info = Some (signal, names) ->
      nth_error components 1 = Some v_name ->
      In v_name names ->
      fst (is_rename_necessary filename w) = Ok false).
Proof.
  intros components.
  destruct (is_rename_necessary_run filename w) as [txt Hrun].
  rewrite Hrun. simpl fst. unfold valid_name. fold components. split.
  - intros H3 H4.
    replace ((2 <? List.length components) && (List.length components <? 5))%nat
      with false; [reflexivity |].
    symmetry. apply andb_false_iff.
    destruct (Nat.ltb_spec 2 (List.length components)); [right | left; reflexivity].
    apply Nat.ltb_ge. lia.
  - intros v_type signal names v_name Hlen H0 Hget H1 Hin.
    replace ((2 <? List.length components) && (List.length components <? 5))%nat
      with true.
    + rewrite H0, H1, Hget. simpl.
      apply str_mem_In in Hin. rewrite Hin. reflexivity.
    + symmetry. apply andb_true_iff. split; apply Nat.ltb_lt; lia.
Qed.

Lemma is_rename_necessary_decision_witness :
  fst (is_rename_necessary "recording1.bag" (mkWorld [] [])) = Ok true
  /\ fst (is_rename_necessary "remus_casper_20240101-000000.bag"
            (mkWorld [] [])) = Ok false.
Proof.
  split.
  - apply (proj1 (is_rename_necessary_decision "recording1.bag"
                    (mkWorld [] []))); simpl; lia.
  - apply (proj2 (is_rename_necessary_decision
                    "remus_casper_20240101-000000.bag" (mkWorld [] []))
             "remus" "ros_remus/Status" ["shadow"; "casper"; "bullwinkle"]
             "casper").
    + left; reflexivity.
    + reflexivity.
    + reflexivity.
    + reflexivity.
    + simpl; auto.
Defined.

(** ** The source identifier *)

Lemma type_of_name_known c t :
  type_of_name c = Some t ->
  exists signal names, In (t, (signal, names)) vehicle_info /\ In c names.
Proof.
  unfold type_of_name, vehicle_info. cbn [fold_left fst snd].
  destruct (str_mem c ["sugar"; "skipper"; "shrew"]) eqn:Hb.
  - intros H. injection H as <-. do 2 eexists. split.
    + right; left; reflexivity.
    + apply str_mem_In; exact Hb.
  - destruct (str_mem c ["shadow"; "casper"; "bullwinkle"]) eqn:Hr.
    + intros H. injection H as <-. do 2 eexists. split.
      * left; reflexivity.
      * apply str_mem_In; exact Hr.
    + discriminate.
Qed.

Lemma known_name_type c : known_name c <-> type_of_name c <> None.
Proof.
  split.
  - intros (t & sg & names & Hin & Hc).
    unfold type_of_name, vehicle_info. cbn [fold_left fst snd].
    destruct Hin as [Heq | [Heq | []]]; injection Heq as <- <- <-;
      apply str_mem_In in Hc.
    + rewrite Hc. destruct (str_mem c ["sugar"; "skipper"; "shrew"]); discriminate.
    + rewrite Hc. discriminate.
  - intros H. destruct (type_of_name c) as [t |] eqn:Ht; [| congruence].
    destruct (type_of_name_known c t Ht) as (sg & names & H1 & H2).
    exists t, sg, names. split; assumption.
Qed.

Lemma scan_names_spec c st :
  scan_names c st =
  match type_of_name c with
  | Some t => (Some (t ++ "_" ++ c), 1%Z)
  | None => st
  end.
Proof.
  unfold scan_names, type_of_name, vehicle_info. cbn [fold_left fst snd].
  destruct (str_mem c ["sugar"; "skipper"; "shrew"]);
    destruct (str_mem c ["shadow"; "casper"; "bullwinkle"]); reflexivity.
Qed.

Lemma scan_parts_app l1 l2 st :
  scan_parts (l1 ++ l2)%list st = scan_parts l2 (scan_parts l1 st).
Proof. unfold scan_parts. apply fold_left_app. Qed.

Lemma scan_parts_none parts st :
  (forall c, In c parts -> ~ known_name c) -> scan_parts parts st = st.
Proof.
  revert st. induction parts as [| c r IH]; intros st H; [reflexivity |].
  change (scan_parts (c :: r) st) with (scan_parts r (scan_names c st)).
  rewrite scan_names_spec.
  destruct (type_of_name c) eqn:Ht.
  - exfalso. apply (H c); [left; reflexivity |].
    apply known_name_type. congruence.
  - apply IH. intros d Hd. apply H. right; exact Hd.
Qed.

Lemma known_name_dec c : {known_name c} + {~ known_name c}.
Proof.
  destruct (type_of_name c) eqn:Ht.
  - left. apply known_name_type. congruence.
  - right. intros H. apply known_name_type in H. congruence.
Qed.

(** The last known name among the components of a path. *)
Lemma last_known_name parts :
  (exists c, In c parts /\ known_name c) ->
  exists pre c post,
    parts = (pre ++ c :: post)%list /\ known_name c /\
    (forall d, In d post -> ~ known_name d).
Proof.
  induction parts as [| x r IH]; intros (c & Hin & Hk).
  - destruct Hin.
  - destruct (Exists_dec known_name r known_name_dec) as [Hex | Hno].
    + apply Exists_exists in Hex. destruct (IH Hex) as (pre & d & post & -> & Hd & Hp).
      exists (x :: pre), d, post. repeat split; assumption.
    + assert (Hx : known_name x).
      { destruct Hin as [-> | Hin]; [exact Hk |].
        exfalso. apply Hno. apply Exists_exists. exists c. split; assumption. }
      exists [], x, r. repeat split; [exact Hx |].
      intros d Hd Hkd. apply Hno. apply Exists_exists. exists d. split; assumption.
Qed.

Lemma scan_parts_last pre c post st t :
  type_of_name c = Some t ->
  (forall d, In d post -> ~ known_name d) ->
  scan_parts (pre ++ c :: post)%list st = (Some (t ++ "_" ++ c), 1%Z).
Proof.
  intros Ht Hpost.
  rewrite scan_parts_app.
  change (scan_parts (c :: post) ?s) with (scan_parts post (scan_names c s)).
  rewrite scan_names_spec, Ht. apply scan_parts_none. exact Hpost.
Qed.

Lemma type_of_signal_known tys t :
  type_of_signal tys = Some t ->
  exists signal names, In (t, (signal, names)) vehicle_info /\ In signal tys.
Proof.
  unfold type_of_signal, vehicle_info. cbn [fold_left fst snd].
  destruct (str_mem "ros_gwb/ScheduleStatus" tys) eqn:Hb.
  - intros H. injection H as <-. do 2 eexists. split.
    + right; left; reflexivity.
    + apply str_mem_In; exact Hb.
  - destruct (str_mem "ros_remus/Status" tys) eqn:Hr.
    + intros H. injection H as <-. do 2 eexists. split.
      * left; reflexivity.
      * apply str_mem_In; exact Hr.
    + discriminate.
Qed.

Lemma has_signal_type tys : has_signal tys <-> type_of_signal tys <> None.
Proof.
  split.
  - intros (t & sg & names & Hin & Hc).
    unfold type_of_signal, vehicle_info. cbn [fold_left fst snd].
    destruct Hin as [Heq | [Heq | []]]; injection Heq as <- <- <-;
      apply str_mem_In in Hc.
    + rewrite Hc. destruct (str_mem "ros_gwb/ScheduleStatus" tys); discriminate.
    + rewrite Hc. discriminate.
  - intros H. destruct (type_of_signal tys) as [t |] eqn:Ht; [| congruence].
    destruct (type_of_signal_known tys t Ht) as (sg & names & H1 & H2).
    exists t, sg, names. split; assumption.
Qed.

Lemma scan_types_spec tys st :
  scan_types tys st =
  match type_of_signal tys with
  | Some t => (Some (t ++ "_unknownname"), 2%Z)
  | None => st
  end.
Proof.
  unfold scan_types, type_of_signal, vehicle_info. cbn [fold_left fst snd].
  destruct (str_mem "ros_gwb/ScheduleStatus" tys);
    destruct (str_mem "ros_remus/Status" tys); reflexivity.
Qed.

(** What [identify_source] returns, by the strategy that applies. *)
Lemma identify_source_by_directory bag w pre c post t :
  bag = (pre ++ c :: post)%list ->
  type_of_name c = Some t ->
  (forall d, In d post -> ~ known_name d) ->
  identify_source bag w =
  (Ok (t ++ "_" ++ c, 1%Z),
   mkWorld (fs w)
     (trace w ++ [EvLog ("---Attempting to rename " ++ name bag
                         ++ " by directory.")])).
Proof.
  intros Hbag Ht Hpost. unfold identify_source.
  rewrite (bind_ok _ _ _ _ _ (log_run _ w)).
  assert (Hs : scan_parts bag (None, 0%Z) = (Some (t ++ "_" ++ c), 1%Z))
    by (rewrite Hbag; apply scan_parts_last; assumption).
  rewrite Hs. reflexivity.
Qed.

Lemma identify_source_by_content bag w f :
  (forall c, In c bag -> ~ known_name c) ->
  fs_lookup bag (fs w) = Some f ->
  readable f = true ->
  exists w',
    identify_source bag w =
    (Ok (match type_of_signal (map msg_type (msgs f)) with
         | Some t => (t ++ "_unknownname", 2%Z)
         | None => ("unknowntype_unknownname", 0%Z)
         end), w')
    /\ fs w' = fs w.
Proof.
  intros Hno Hf Hr. unfold identify_source.
  rewrite (bind_ok _ _ _ _ _ (log_run _ w)).
  rewrite (scan_parts_none bag _ Hno).
  cbn [snd Z.eqb].
  unfold Bag_open, get_msg_types, bag_file. mstep.
  rewrite Hf, Hr. mstep. rewrite Hf.
  rewrite scan_types_spec.
  destruct (type_of_signal (map msg_type (msgs f))) as [t |];
    cbn; eexists; split; reflexivity.
Qed.

(** C5.  The strategies of the source identifier, in order.  When some
    component of the path is a known vehicle name, the result is that
    name (the last such component) under its vehicle type, with
    confidence 1 (directory), whatever the recording contains.  When no
    component is a known name and the recording carries the message type
    of a vehicle type, the result is that type with the placeholder
    ["unknownname"] and confidence 2 (content).  When neither holds the
    result is ["unknowntype_unknownname"] with confidence 0 (failed). *)
Theorem identify_source_strategies (bag : path) (w : World) :
  ((exists c, In c bag /\ known_name c) ->
   exists pre c post v_type signal names,
     bag = (pre ++ c :: post)%list /\
     (forall d, In d post -> ~ known_name d) /\
     In (v_type, (signal, names)) vehicle_info /\ In c names /\
     fst (identify_source bag w) = Ok (v_type ++ "_" ++ c, 1%Z))
  /\
  (forall f,
     (forall c, In c bag -> ~ known_name c) ->
     fs_lookup bag (fs w) = Some f -> readable f = true ->
     (has_signal (map msg_type (msgs f)) ->
      exists v_type signal names,
        In (v_type, (signal, names)) vehicle_info /\
        In signal (map msg_type (msgs f)) /\
        fst (identify_source bag w) = Ok (v_type ++ "_unknownname", 2%Z))
     /\
     (~ has_signal (map msg_type (msgs f)) ->
      fst (identify_source bag w) = Ok ("unknowntype_unknownname", 0%Z))).
Proof.
  split.
  - intros Hex.
    destruct (last_known_name bag Hex) as (pre & c & post & Hbag & Hk & Hpost).
    destruct (type_of_name c) as [t |] eqn:Ht;
      [| apply known_name_type in Hk; congruence].
    destruct (type_of_name_known c t Ht) as (sg & names & Hcat & Hin).
    exists pre, c, post, t, sg, names.
    rewrite (identify_source_by_directory bag w pre c post t Hbag Ht Hpost).
    repeat split; assumption.
  - intros f Hno Hf Hr.
    destruct (identify_source_by_content bag w f Hno Hf Hr) as (w' & Hrun & _).
    rewrite Hrun. cbn [fst]. split.
    + intros Hsig. apply has_signal_type in Hsig.
      destruct (type_of_signal (map msg_type (msgs f))) as [t |] eqn:Ht;
        [| congruence].
      destruct (type_of_signal_known _ t Ht) as (sg & names & Hcat & Hin).
      exists t, sg, names. repeat split; assumption.
    + intros Hsig.
      destruct (type_of_signal (map msg_type (msgs f))) as [t |] eqn:Ht;
        [| reflexivity].
      exfalso. apply Hsig. apply has_signal_type. congruence.
Qed.

Lemma identify_source_strategies_witness :
  (exists v_type c,
      fst (identify_source ["/"; "data"; "shadow"; "rec1.bag"]
             (mkWorld [(["/"; "data"; "shadow"; "rec1.bag"], buoy_rec)] []))
      = Ok (v_type ++ "_" ++ c, 1%Z))
  /\ (exists v_type,
         fst (identify_source ["/"; "data"; "rec2.bag"]
                (mkWorld [(["/"; "data"; "rec2.bag"], buoy_rec)] []))
         = Ok (v_type ++ "_unknownname", 2%Z))
  /\ fst (identify_source ["/"; "data"; "rec3.bag"]
            (mkWorld [(["/"; "data"; "rec3.bag"], plain_rec)] []))
     = Ok ("unknowntype_unknownname", 0%Z).
Proof.
  assert (Hno : forall n c, In c ["/"; "data"; n] ->
                            type_of_name n = None -> ~ known_name c).
  { intros n c [<- | [<- | [<- | []]]] Hn Hk;
      apply known_name_type in Hk; apply Hk; [reflexivity | reflexivity | exact Hn]. }
  split; [| split].
  - destruct (proj1 (identify_source_strategies
                       ["/"; "data"; "shadow"; "rec1.bag"]
                       (mkWorld [(["/"; "data"; "shadow"; "rec1.bag"],
                                  buoy_rec)] [])))
      as (pre & c & post & t & sg & names & _ & _ & _ & _ & Hrun).
    + exists "shadow". split; [simpl; auto |].
      apply known_name_type. discriminate.
    + exists t, c. exact Hrun.
  - destruct (proj2 (identify_source_strategies ["/"; "data"; "rec2.bag"]
                       (mkWorld [(["/"; "data"; "rec2.bag"], buoy_rec)] []))
                buoy_rec) as [Hsig _].
    + intros c Hc. apply (Hno "rec2.bag" c Hc). reflexivity.
    + reflexivity.
    + reflexivity.
    + destruct Hsig as (t & sg & names & _ & _ & Hrun).
      * apply has_signal_type. discriminate.
      * exists t. exact Hrun.
  - destruct (proj2 (identify_source_strategies ["/"; "data"; "rec3.bag"]
                       (mkWorld [(["/"; "data"; "rec3.bag"], plain_rec)] []))
                plain_rec) as [_ Hfail].
    + intros c Hc. apply (Hno "rec3.bag" c Hc). reflexivity.
    + reflexivity.
    + reflexivity.
    + apply Hfail. intros Hsig. apply has_signal_type in Hsig.
      apply Hsig. reflexivity.
Defined.

Example identify_source_directory_wins :
  fst (identify_source ["/"; "data"; "shadow"; "rec1.bag"]
         (mkWorld [(["/"; "data"; "shadow"; "rec1.bag"], buoy_rec)] []))
  = Ok ("remus_shadow", 1%Z).
Proof. reflexivity. Qed.

Example identify_source_last_name_wins :
  fst (identify_source ["/"; "shadow"; "sugar"; "rec1.bag"] (mkWorld [] []))
  = Ok ("buoy_sugar", 1%Z).
Proof. reflexivity. Qed.
(** ** Rounding and maxima *)

Lemma round_half_even_bounds x :
  (Qfloor x <= round_half_even x <= Qfloor x + 1)%Z.
Proof.
  unfold round_half_even.
  destruct (Qcompare (x - inject_Z (Qfloor x)) (1 # 2));
    [destruct (Z.even (Qfloor x)) | |]; lia.
Qed.

Lemma round_half_even_mono x y :
  (x <= y)%Q -> (round_half_even x <= round_half_even y)%Z.
Proof.
  intros Hxy.
  pose proof (Qfloor_resp_le x y Hxy) as Hf.
  pose proof (round_half_even_bounds x) as Bx.
  pose proof (round_half_even_bounds y) as By.
  destruct (Z.eq_dec (Qfloor x) (Qfloor y)) as [Heq | Hne]; [| lia].
  clear Bx By Hf. unfold round_half_even. rewrite <- Heq.
  set (f := Qfloor x).
  destruct (Qcompare (x - inject_Z f) (1 # 2)) eqn:Cx;
    destruct (Qcompare (y - inject_Z f) (1 # 2)) eqn:Cy;
    try (destruct (Z.even f)); try lia; exfalso;
    repeat match goal with
      | H : Qcompare _ _ = Eq |- _ => apply Qeq_alt in H
      | H : Qcompare _ _ = Lt |- _ => apply Qlt_alt in H
      | H : Qcompare _ _ = Gt |- _ => apply Qgt_alt in H
      end; lra.
Qed.

Lemma py_round2_mono x y : (x <= y)%Q -> (py_round2 x <= py_round2 y)%Q.
Proof.
  intros Hxy. unfold py_round2, Qle. cbn [Qnum Qden].
  apply Z.mul_le_mono_nonneg_r; [lia |].
  apply round_half_even_mono.
  change (inject_Z 100) with (100 # 1)%Q. lra.
Qed.

Lemma py_round2_eq x y : (py_round2 x == py_round2 y)%Q -> py_round2 x = py_round2 y.
Proof.
  unfold py_round2, Qeq. cbn [Qnum Qden]. intros H. f_equal. lia.
Qed.

(** Rounding goes to the nearest integer, and to the even one from
    halfway. *)
Lemma round_half_even_nearest x :
  (inject_Z (round_half_even x) - (1 # 2) <= x)%Q
  /\ (x <= inject_Z (round_half_even x) + (1 # 2))%Q
  /\ ((x == inject_Z (round_half_even x) + (1 # 2))%Q
      \/ (x == inject_Z (round_half_even x) - (1 # 2))%Q ->
      Z.even (round_half_even x) = true).
Proof.
  pose proof (Qfloor_le x) as Hlo. pose proof (Qlt_floor x) as Hhi.
  rewrite inject_Z_plus in Hhi. change (inject_Z 1) with 1%Q in Hhi.
  unfold round_half_even. set (f := Qfloor x) in *.
  destruct (Qcompare (x - inject_Z f) (1 # 2)) eqn:C.
  - apply Qeq_alt in C. destruct (Z.even f) eqn:Ev.
    + split; [lra |]. split; [lra |]. intros _. exact Ev.
    + rewrite inject_Z_plus. change (inject_Z 1) with 1%Q.
      split; [lra |]. split; [lra |]. intros _.
      change (f + 1)%Z with (Z.succ f). rewrite Z.even_succ, <- Z.negb_even, Ev.
      reflexivity.
  - apply Qlt_alt in C. split; [lra |]. split; [lra |].
    intros [H | H]; exfalso; lra.
  - apply Qgt_alt in C. rewrite inject_Z_plus. change (inject_Z 1) with 1%Q.
    split; [lra |]. split; [lra |].
    intros [H | H]; exfalso; lra.
Qed.

Lemma py_round2_nearest x : nearest_hundredth x (py_round2 x).
Proof.
  exists (round_half_even (x * inject_Z 100)).
  split; [reflexivity |].
  exact (round_half_even_nearest (x * inject_Z 100)).
Qed.

Lemma max_step_round cur item :
  max_step (py_round2 cur) (py_round2 item) = py_round2 (max_step cur item).
Proof.
  unfold max_step.
  destruct (Qle_bool item cur) eqn:Hic.
  - apply Qle_bool_iff in Hic. apply py_round2_mono in Hic.
    apply Qle_bool_iff in Hic. rewrite Hic. reflexivity.
  - destruct (Qle_bool (py_round2 item) (py_round2 cur)) eqn:Hr; [| reflexivity].
    apply Qle_bool_iff in Hr.
    assert (Hci : (cur <= item)%Q).
    { destruct (Qlt_le_dec cur item) as [Hlt | Hle].
      - apply Qlt_le_weak; exact Hlt.
      - apply Qle_bool_iff in Hle. congruence. }
    apply py_round2_mono in Hci.
    symmetry. apply py_round2_eq. apply Qle_antisym; assumption.
Qed.

Lemma fold_max_round l x :
  fold_left max_step (map py_round2 l) (py_round2 x)
  = py_round2 (fold_left max_step l x).
Proof.
  revert x. induction l as [| y r IH]; intros x; [reflexivity |].
  cbn [map fold_left]. rewrite max_step_round. apply IH.
Qed.

(** [fold_left max_step] picks an item that no item exceeds. *)
Lemma fold_max_spec l x :
  In (fold_left max_step l x) (x :: l) /\
  forall y, In y (x :: l) -> (y <= fold_left max_step l x)%Q.
Proof.
  revert x. induction l as [| z r IH]; intros x.
  - split; [left; reflexivity |]. intros y [<- | []]. apply Qle_refl.
  - cbn [fold_left]. destruct (IH (max_step x z)) as [Hin Hub]. split.
    + destruct Hin as [Heq | Hin].
      * rewrite <- Heq. unfold max_step.
        destruct (Qle_bool z x); [left | right; left]; reflexivity.
      * right; right; exact Hin.
    + assert (Hx : (x <= max_step x z)%Q /\ (z <= max_step x z)%Q).
      { unfold max_step. destruct (Qle_bool z x) eqn:Hzx.
        - apply Qle_bool_iff in Hzx. split; [apply Qle_refl | exact Hzx].
        - split; [| apply Qle_refl].
          destruct (Qlt_le_dec x z) as [Hlt | Hle].
          + apply Qlt_le_weak; exact Hlt.
          + apply Qle_bool_iff in Hle. congruence. }
      intros y [<- | [<- | Hy]].
      * eapply Qle_trans; [apply Hx | apply Hub; left; reflexivity].
      * eapply Qle_trans; [apply Hx | apply Hub; left; reflexivity].
      * apply Hub. right; exact Hy.
Qed.
(** ** Paths and file names *)

Lemma append_assoc (a b c : string) : (a ++ b) ++ c = a ++ (b ++ c).
Proof. induction a as [| x a IH]; cbn; [reflexivity | rewrite IH; reflexivity]. Qed.

Lemma rsplit1_none sep b : occurs sep b = false -> PyStr.rsplit1 sep b = [b].
Proof.
  induction b as [| c r IH]; intros H; [reflexivity |].
  cbn in H. apply orb_false_iff in H. destruct H as [Hc Hr].
  cbn [PyStr.rsplit1]. rewrite (IH Hr), Hc. reflexivity.
Qed.

Lemma rsplit1_last sep a b :
  occurs sep b = false ->
  PyStr.rsplit1 sep (a ++ String sep b) = [a; b].
Proof.
  intros Hb. induction a as [| c a IH].
  - cbn [append PyStr.rsplit1]. rewrite (rsplit1_none sep b Hb).
    rewrite Ascii.eqb_refl. reflexivity.
  - cbn [append PyStr.rsplit1]. rewrite IH. reflexivity.
Qed.

Lemma join_snoc sep l x :
  l <> [] -> PyStr.join sep (l ++ [x]) = PyStr.join sep l ++ sep ++ x.
Proof.
  induction l as [| y r IH]; intros Hl; [congruence |].
  destruct r as [| z r'].
  - reflexivity.
  - change (PyStr.join sep ((y :: z :: r') ++ [x]))
      with (y ++ sep ++ PyStr.join sep ((z :: r') ++ [x])).
    rewrite IH by discriminate.
    change (PyStr.join sep (y :: z :: r'))
      with (y ++ sep ++ PyStr.join sep (z :: r')).
    rewrite !append_assoc. reflexivity.
Qed.

(** The name [generate_tags] cuts out of [str(bag.filename)] is the last
    part of an absolute path. *)
Lemma bagname_of_path dirs nm :
  occurs "/" nm = false ->
  nth_error (PyStr.rsplit1 "/" (path_str ("/" :: dirs ++ [nm]))) 1 = Some nm.
Proof.
  intros Hnm. unfold path_str.
  destruct dirs as [| d r].
  - change (PyStr.join "/" ([] ++ [nm])) with nm.
    change ("/" ++ nm) with ("" ++ String "/" nm).
    rewrite rsplit1_last by exact Hnm. reflexivity.
  - rewrite join_snoc by discriminate.
    change ("/" ++ nm) with (String "/" nm).
    rewrite <- append_assoc.
    rewrite rsplit1_last by exact Hnm. reflexivity.
Qed.

Lemma name_snoc (p : path) nm : name (p ++ [nm])%list = nm.
Proof. unfold name. apply last_last. Qed.

(** ** Computations that only log *)

Lemma only_logs_refl w : only_logs w w.
Proof.
  split; [reflexivity |]. exists []. split; [| constructor].
  symmetry. apply app_nil_r.
Qed.

Lemma only_logs_trans w1 w2 w3 :
  only_logs w1 w2 -> only_logs w2 w3 -> only_logs w1 w3.
Proof.
  intros [F1 (l1 & T1 & L1)] [F2 (l2 & T2 & L2)]. split; [congruence |].
  exists (l1 ++ l2)%list. split.
  - rewrite T2, T1. symmetry. apply app_assoc.
  - apply Forall_app. split; assumption.
Qed.

Lemma only_logs_log txt w : only_logs w (snd (log txt w)).
Proof.
  split; [reflexivity |]. exists [EvLog txt]. split; [reflexivity |].
  constructor; [exists txt; reflexivity | constructor].
Qed.

Lemma quiet_ret {A} (a : A) : quiet (ret a).
Proof. intros w r w' H. injection H as _ <-. apply only_logs_refl. Qed.

Lemma quiet_raise {A} e : quiet (@raise A e).
Proof. intros w r w' H. injection H as _ <-. apply only_logs_refl. Qed.

Lemma quiet_lift {A} (x : result A) : quiet (lift x).
Proof. intros w r w' H. injection H as _ <-. apply only_logs_refl. Qed.

Lemma quiet_get_fs : quiet get_fs.
Proof. intros w r w' H. injection H as _ <-. apply only_logs_refl. Qed.

Lemma quiet_log txt : quiet (log txt).
Proof. intros w r w' H. injection H as _ <-. apply (only_logs_log txt w). Qed.

Lemma quiet_bind {A B} (m : M A) (f : A -> M B) :
  quiet m -> (forall a, quiet (f a)) -> quiet (bind m f).
Proof.
  intros Hm Hf w r w'. unfold bind.
  destruct (m w) as [[a | e] w1] eqn:Hrun; intros H.
  - eapply only_logs_trans; [exact (Hm _ _ _ Hrun) | exact (Hf a _ _ _ H)].
  - injection H as _ <-. exact (Hm _ _ _ Hrun).
Qed.

Lemma quiet_index {A} (l : list A) i : quiet (index l i).
Proof. unfold index. destruct (nth_error l i); [apply quiet_ret | apply quiet_raise]. Qed.

Lemma quiet_getitem {V} (d : dict V) k : quiet (getitem d k).
Proof. unfold getitem. destruct (dict_get k d); [apply quiet_ret | apply quiet_raise]. Qed.

Lemma quiet_for_each {A S} (l : list A) (body : A -> S -> M S) :
  (forall x s, quiet (body x s)) -> forall s, quiet (for_each l s body).
Proof.
  intros Hb. induction l as [| x r IH]; intros s; cbn [for_each].
  - apply quiet_ret.
  - apply quiet_bind; [apply Hb | intros s'; apply IH].
Qed.

Lemma quiet_bag_file b : quiet (bag_file b).
Proof.
  unfold bag_file. apply quiet_bind; [apply quiet_get_fs |].
  intros fs0. destruct (fs_lookup (filename b) fs0);
    [apply quiet_ret | apply quiet_raise].
Qed.

Lemma quiet_get_start_time b : quiet (get_start_time b).
Proof.
  unfold get_start_time. apply quiet_bind; [apply quiet_bag_file |].
  intros f. destruct (map _ (msgs f)); [apply quiet_raise | apply quiet_ret].
Qed.

Lemma quiet_get_end_time b : quiet (get_end_time b).
Proof.
  unfold get_end_time. apply quiet_bind; [apply quiet_bag_file |].
  intros f. destruct (map _ (msgs f)); [apply quiet_raise | apply quiet_ret].
Qed.

Lemma quiet_read_messages b tp : quiet (read_messages b tp).
Proof.
  unfold read_messages. apply quiet_bind; [apply quiet_bag_file |].
  intros f. apply quiet_ret.
Qed.

Lemma quiet_identify_date E b : quiet (identify_date E b).
Proof.
  unfold identify_date. apply quiet_bind; [apply quiet_get_start_time |].
  intros t. apply quiet_ret.
Qed.

Lemma quiet_Time_new s ns : quiet (Time_new s ns).
Proof.
  unfold Time_new. destruct (_ <? 0)%Z; [apply quiet_raise | apply quiet_ret].
Qed.

Create HintDb quiet.
#[local] Hint Resolve quiet_ret quiet_raise quiet_lift quiet_get_fs quiet_log
  quiet_index quiet_getitem quiet_bag_file quiet_get_start_time
  quiet_get_end_time quiet_read_messages quiet_identify_date
  quiet_Time_new : quiet.

Ltac quiet_tac :=
  repeat first
    [ apply quiet_bind; [| intros ?]
    | apply quiet_for_each; intros ? ?
    | solve [auto with quiet]
    | match goal with
      | |- quiet (match ?x with _ => _ end) => destruct x
      | |- quiet (if ?x then _ else _) => destruct x
      end ].

Lemma quiet_generate_tags E b : quiet (generate_tags E b).
Proof.
  unfold generate_tags, py_slice, py_max, msg_in_mission, msg_depth,
    msg_mission_mode.
  quiet_tac.
Qed.
(** ** The timestamp token *)

Lemma bag_file_run b w f :
  fs_lookup (filename b) (fs w) = Some f -> bag_file b w = (Ok f, w).
Proof. intros H. unfold bag_file. mstep. rewrite H. reflexivity. Qed.

Lemma get_start_time_run b w f m r :
  fs_lookup (filename b) (fs w) = Some f -> msgs f = m :: r ->
  get_start_time b w = (Ok (earliest m r), w).
Proof.
  intros Hf Hm. unfold get_start_time.
  rewrite (bind_ok _ _ _ _ _ (bag_file_run b w f Hf)). rewrite Hm. reflexivity.
Qed.

Lemma get_end_time_run b w f m r :
  fs_lookup (filename b) (fs w) = Some f -> msgs f = m :: r ->
  get_end_time b w = (Ok (latest m r), w).
Proof.
  intros Hf Hm. unfold get_end_time.
  rewrite (bind_ok _ _ _ _ _ (bag_file_run b w f Hf)). rewrite Hm. reflexivity.
Qed.

Lemma identify_date_run E b w f m r :
  fs_lookup (filename b) (fs w) = Some f -> msgs f = m :: r ->
  identify_date E b w = (Ok (date_string E (earliest m r)), w).
Proof.
  intros Hf Hm. unfold identify_date.
  rewrite (bind_ok _ _ _ _ _ (get_start_time_run b w f m r Hf Hm)).
  reflexivity.
Qed.

(** The token always carries seven fields of the local time: the loop
    stops after the field of index 6, the day of the week. *)
Lemma date_string_fields E t :
  let lt := localtime E t in
  date_string E t =
  PyStr.rstrip_with (Ascii.eqb "-")
    (PyStr.of_Z (tm_year lt) ++ "-" ++ PyStr.of_Z (tm_mon lt) ++ "-" ++
     PyStr.of_Z (tm_mday lt) ++ "-" ++ PyStr.of_Z (tm_hour lt) ++ "-" ++
     PyStr.of_Z (tm_min lt) ++ "-" ++ PyStr.of_Z (tm_sec lt) ++ "-" ++
     PyStr.of_Z (tm_wday lt) ++ "-").
Proof.
  intros lt. unfold date_string. fold lt. unfold st_fields.
  cbn [date_loop Nat.eqb]. cbn [append]. rewrite !append_assoc.
  cbn [append]. reflexivity.
Qed.

(** C4.  [identify_date] does not stop at the seconds.  On a recording
    that starts on Friday 5 January 2024 at 13:07:09 local time it
    returns seven dash-separated fields, not six: the loop leaves after
    the field of index 6, so the day of the week (4) follows the
    seconds.  The fields are not padded with zeros either. *)
Theorem identify_date_appends_weekday :
  fst (identify_date sample_env (mkBag remus_path "r") remus_world)
  = Ok "2024-1-5-13-7-9-4"
  /\ List.length (PyStr.split "-" "2024-1-5-13-7-9-4") = 7
  /\ nth_error (PyStr.split "-" "2024-1-5-13-7-9-4") 6
     = Some (PyStr.of_Z (tm_wday sample_localtime)).
Proof.
  split; [vm_compute; reflexivity |]. split; reflexivity.
Qed.
(** ** The renamer *)

Lemma scan_parts_cases parts :
  scan_parts parts (None, 0%Z) = (None, 0%Z) \/
  exists s, scan_parts parts (None, 0%Z) = (Some s, 1%Z).
Proof.
  destruct (Exists_dec known_name parts known_name_dec) as [Hex | Hno].
  - right. apply Exists_exists in Hex.
    destruct (last_known_name parts Hex) as (pre & c & post & -> & Hk & Hpost).
    destruct (type_of_name c) as [t |] eqn:Ht;
      [| apply known_name_type in Hk; congruence].
    eexists. apply (scan_parts_last pre c post _ t Ht Hpost).
  - left. apply scan_parts_none. intros c Hc Hk. apply Hno.
    apply Exists_exists. exists c. split; assumption.
Qed.

Lemma identify_source_status bag w source status w' :
  identify_source bag w = (Ok (source, status), w') ->
  (status = 0 \/ status = 1 \/ status = 2)%Z.
Proof.
  unfold identify_source.
  rewrite (bind_ok _ _ _ _ _ (log_run _ w)).
  destruct (scan_parts_cases bag) as [-> | [s ->]].
  - cbn [snd Z.eqb]. intros H.
    apply bind_inv_ok in H as (st & w1 & Hst & H).
    apply bind_inv_ok in Hst as (u & w2 & _ & Hst).
    apply bind_inv_ok in Hst as (b & w3 & _ & Hst).
    apply bind_inv_ok in Hst as (tys & w4 & _ & Hst).
    rewrite scan_types_spec in Hst.
    destruct (type_of_signal tys); injection Hst as <- <-;
      revert H; mstep; intros H; injection H as <- <- <-; auto.
  - mstep. cbn [Z.eqb]. mstep. intros H. injection H as <- <- <-. auto.
Qed.

Lemma identify_source_returns bag w f :
  fs_lookup bag (fs w) = Some f ->
  readable f = true ->
  exists source status w',
    identify_source bag w = (Ok (source, status), w') /\ fs w' = fs w.
Proof.
  intros Hf Hr.
  destruct (Exists_dec known_name bag known_name_dec) as [Hex | Hno].
  - apply Exists_exists in Hex.
    destruct (last_known_name bag Hex) as (pre & c & post & Hbag & Hk & Hpost).
    destruct (type_of_name c) as [t |] eqn:Ht;
      [| apply known_name_type in Hk; congruence].
    do 3 eexists. split.
    + exact (identify_source_by_directory bag w pre c post t Hbag Ht Hpost).
    + reflexivity.
  - assert (Hno' : forall c, In c bag -> ~ known_name c).
    { intros c Hc Hk. apply Hno. apply Exists_exists. exists c.
      split; assumption. }
    destruct (identify_source_by_content bag w f Hno' Hf Hr) as (w' & Hrun & Hfs).
    destruct (type_of_signal (map msg_type (msgs f)));
      do 2 eexists; exists w'; split; [exact Hrun | exact Hfs | exact Hrun | exact Hfs].
Qed.

Lemma Bag_open_run p md w f :
  fs_lookup p (fs w) = Some f -> readable f = true ->
  Bag_open p md w
  = (Ok (mkBag p md), mkWorld (fs w) (trace w ++ [EvOpen p md])).
Proof.
  intros Hf Hr. unfold Bag_open. mstep. rewrite Hf, Hr. reflexivity.
Qed.

Lemma path_rename_run E src dst w f :
  rename_fault E src dst = None ->
  fs_lookup src (fs w) = Some f ->
  exists w', path_rename E src dst w = (Ok tt, w').
Proof.
  intros Hfault Hf. unfold path_rename. rewrite Hfault. mstep. rewrite Hf.
  eexists. reflexivity.
Qed.

(** [standard_rename] returns on a recording that can be opened, holds
    a record, and may be renamed. *)
Lemma standard_rename_returns E bag w f m r :
  fs_lookup bag (fs w) = Some f ->
  readable f = true ->
  msgs f = m :: r ->
  (forall dst, rename_fault E bag dst = None) ->
  exists to_upload newpath w',
    standard_rename E bag w = (Ok (to_upload, newpath), w').
Proof.
  intros Hf Hr Hm Hfault. unfold standard_rename.
  mnext (log_run ("-Evaluating filename " ++ name bag) w).
  match goal with
  | |- context [bind (is_rename_necessary ?n) _ ?w0] =>
      destruct (is_rename_necessary_run n w0) as [txt Hval]
  end.
  mnext Hval. cbn [fs trace] in *.
  destruct (negb (valid_name (name bag))).
  - match goal with
    | |- context [bind _ _ ?w1] =>
        destruct (identify_source_returns bag w1 f Hf Hr)
          as (source & status & w2 & Hsrc & Hfs2)
    end.
    rewrite bind_assoc. mnext Hsrc. rewrite bind_assoc.
    assert (Hf2 : fs_lookup bag (fs w2) = Some f)
      by (rewrite Hfs2; exact Hf).
    mnext (Bag_open_run bag "r" w2 f Hf2 Hr). rewrite bind_assoc.
    match goal with
    | |- context [bind (identify_date E ?b) _ ?w3] =>
        mnext (identify_date_run E b w3 f m r Hf2 Hm)
    end.
    rewrite bind_assoc.
    match goal with
    | |- context [bind ?v _ ?w3] =>
        assert (Hverdict : exists tu w4, v w3 = (Ok tu, w4) /\ fs w4 = fs w2)
    end.
    { destruct (status =? 0)%Z; [| destruct (status =? 1)%Z;
                                   [| destruct (status =? 2)%Z]];
        do 2 eexists; split; reflexivity. }
    destruct Hverdict as (tu & w4 & Hv & Hfs4).
    mnext Hv. rewrite bind_assoc.
    assert (Hf4 : fs_lookup bag (fs w4) = Some f)
      by (rewrite Hfs4; exact Hf2).
    match goal with
    | |- context [path_rename E bag ?dst] =>
        destruct (path_rename_run E bag dst w4 f (Hfault _) Hf4)
          as (w5 & Hren)
    end.
    mnext Hren. do 3 eexists. reflexivity.
  - do 3 eexists. reflexivity.
Qed.

(** C2.  The verdict of the renamer.  When [standard_rename] returns,
    either the validator found the name in order, and the recording is
    eligible under its old path; or the name had to be rebuilt, and the
    recording is eligible exactly when the source identifier answered
    with confidence 1 (directory): not with 0 (failed), not with 2
    (content).  And it does return on every recording that can be
    opened, holds a record and may be renamed. *)
Theorem standard_rename_verdict (E : Env) (bag : path) (w : World) :
  (forall to_upload newpath w',
      standard_rename E bag w = (Ok (to_upload, newpath), w') ->
      verdict_follows_confidence bag w to_upload newpath)
  /\
  (forall f m r,
      fs_lookup bag (fs w) = Some f ->
      readable f = true ->
      msgs f = m :: r ->
      (forall dst, rename_fault E bag dst = None) ->
      exists to_upload newpath w',
        standard_rename E bag w = (Ok (to_upload, newpath), w')).
Proof.
  split; [| apply standard_rename_returns].
  intros to_upload newpath w'.
  unfold standard_rename, verdict_follows_confidence. intros H.
  rewrite (bind_ok _ _ _ _ _ (log_run _ w)) in H.
  apply bind_inv_ok in H as (needed & w1 & Hneed & H).
  exists needed, w1. split; [exact Hneed |].
  apply bind_inv_ok in H as ([tu np] & w3 & Hbody & H).
  revert H. mstep. intros H. injection H as -> -> _.
  destruct needed.
  - split; [discriminate |]. intros _.
    apply bind_inv_ok in Hbody as ([source status] & w2 & Hsrc & Hbody).
    exists source, status, w2. split; [exact Hsrc |].
    pose proof (identify_source_status _ _ _ _ _ Hsrc) as Hst.
    split; [exact Hst |].
    apply bind_inv_ok in Hbody as (b & w4 & _ & Hbody).
    apply bind_inv_ok in Hbody as (date & w5 & _ & Hbody).
    apply bind_inv_ok in Hbody as (tu & w6 & Hverdict & Hbody).
    apply bind_inv_ok in Hbody as (u & w7 & _ & Hbody).
    revert Hbody. mstep. intros Hbody. injection Hbody as <- _ _.
    destruct Hst as [-> | [-> | ->]]; revert Hverdict; cbn [Z.eqb]; mstep;
      intros Hv; injection Hv as <- _;
      repeat split; intros; try reflexivity; discriminate.
  - split; [| discriminate]. intros _.
    revert Hbody. mstep. intros Hbody. injection Hbody as <- <- _.
    split; reflexivity.
Qed.

Lemma standard_rename_verdict_witness :
  exists to_upload newpath w',
    standard_rename sample_env buoy_path buoy_world
    = (Ok (to_upload, newpath), w')
    /\ verdict_follows_confidence buoy_path buoy_world to_upload newpath.
Proof.
  destruct (proj2 (standard_rename_verdict sample_env buoy_path buoy_world)
              buoy_rec
              (mkMsg "/schedule" "ros_gwb/ScheduleStatus" OtherMsg (mkTime 5 0))
              [])
    as (tu & np & w' & Hrun).
  - reflexivity.
  - reflexivity.
  - reflexivity.
  - reflexivity.
  - exists tu, np, w'. split; [exact Hrun |].
    exact (proj1 (standard_rename_verdict sample_env buoy_path buoy_world)
             tu np w' Hrun).
Defined.

(** The three confidences at work, and a name that is already in order. *)
Example standard_rename_failed :
  fst (standard_rename sample_env ["/"; "data"; "rec3.bag"]
         (mkWorld [(["/"; "data"; "rec3.bag"], plain_rec)] []))
  = Ok (false, ["/"; "data"; "unknowntype_unknownname_2024-1-5-13-7-9-4.bag"]).
Proof. vm_compute. reflexivity. Qed.

Example standard_rename_directory :
  fst (standard_rename sample_env ["/"; "data"; "shadow"; "rec1.bag"]
         (mkWorld [(["/"; "data"; "shadow"; "rec1.bag"], buoy_rec)] []))
  = Ok (true, ["/"; "data"; "shadow"; "remus_shadow_2024-1-5-13-7-9-4.bag"]).
Proof. vm_compute. reflexivity. Qed.

Example standard_rename_content :
  fst (standard_rename sample_env ["/"; "data"; "rec2.bag"]
         (mkWorld [(["/"; "data"; "rec2.bag"], buoy_rec)] []))
  = Ok (false, ["/"; "data"; "buoy_unknownname_2024-1-5-13-7-9-4.bag"]).
Proof. vm_compute. reflexivity. Qed.

Example standard_rename_valid_name :
  fst (standard_rename sample_env
         ["/"; "data"; "remus_casper_20240101-000000.bag"]
         (mkWorld [] []))
  = Ok (true, ["/"; "data"; "remus_casper_20240101-000000.bag"]).
Proof. vm_compute. reflexivity. Qed.

(** ** The tag generator *)

Lemma read_messages_run b w f tp :
  fs_lookup (filename b) (fs w) = Some f ->
  read_messages b tp w
  = (Ok (time_order (filter (fun m => String.eqb (topic m) tp) (msgs f))),
     w).
Proof.
  intros Hf. unfold read_messages.
  rewrite (bind_ok _ _ _ _ _ (bag_file_run b w f Hf)). reflexivity.
Qed.

(** The loop over the status samples collects the rounded depths and the
    mission modes, in order. *)
Lemma collect_samples samples dl mm w :
  Forall is_status samples ->
  for_each samples (dl, mm)
    (fun m (acc : list Q * list Z) =>
       d <- msg_depth m ;;
       k <- msg_mission_mode m ;;
       ret ((fst acc ++ [py_round2 d])%list, (snd acc ++ [k])%list)) w
  = (Ok ((dl ++ map py_round2 (flat_map depth_of samples))%list,
         (mm ++ flat_map mode_of samples)%list), w).
Proof.
  intros Hall. revert dl mm.
  induction Hall as [| m r (i & d & k & Hm) _ IH]; intros dl mm.
  - cbn. rewrite !app_nil_r. reflexivity.
  - cbn [for_each flat_map]. unfold msg_depth, msg_mission_mode, depth_of, mode_of.
    rewrite Hm. mstep. rewrite IH.
    cbn [app map]. rewrite <- !app_assoc. reflexivity.
Qed.

Lemma generate_tags_run E bag w dirs nm vehicle vname rest f m r :
  filename bag = "/" :: dirs ++ [nm] ->
  occurs "/" nm = false ->
  PyStr.split "_" nm = vehicle :: vname :: rest ->
  fs_lookup (filename bag) (fs w) = Some f ->
  msgs f = m :: r ->
  let date := date_string E (earliest m r) in
  let w' := snd (log ("-Attempting to tag " ++ nm) w) in
  let base :=
    [ ("vehicle", PStr vehicle); ("name", PStr vname);
      ("date/time", PStr date); ("year", PStr (PyStr.slice 0 4 date)) ] in
  (vehicle <> "remus" -> generate_tags E bag w = (Ok base, w'))
  /\
  (vehicle = "remus" ->
   forall s0 ss i0 d0 k0,
     status_samples f = s0 :: ss -> body s0 = StatusMsg i0 d0 k0 ->
     Forall is_status ss ->
     generate_tags E bag w
     = (Ok (base ++
            [ ("mission state", PBool i0);
              ("max depth",
               PFloat (py_round2
                         (fold_left max_step (flat_map depth_of ss) d0)));
              ("mission modes",
               PSet (py_set (k0 :: flat_map mode_of ss))) ])%list, w')).
Proof.
  intros Hp Hs Hsplit Hf Hm date w' base.
  assert (Hf' : fs_lookup (filename bag) (fs w') = Some f) by exact Hf.
  assert (Hlog : log ("-Attempting to tag " ++ nm) w = (Ok tt, w'))
    by reflexivity.
  assert (Hname : index (PyStr.rsplit1 "/" (path_str (filename bag))) 1 w
                  = (Ok nm, w)).
  { unfold index. rewrite Hp, (bagname_of_path dirs nm Hs). reflexivity. }
  unfold generate_tags.
  mnext Hname. mnext Hlog. rewrite Hsplit.
  mnext_refl. mnext_refl.
  mnext (identify_date_run E bag w' f m r Hf' Hm). fold date.
  mnext_refl. mnext_refl. mnext_refl.
  fold base. cbn [py_eq_str]. split.
  - intros Hne. apply String.eqb_neq in Hne. rewrite Hne.
    destruct (vehicle =? "buoy"); reflexivity.
  - intros -> s0 ss i0 d0 k0 Hsamp Hb0 Hall.
    rewrite String.eqb_refl.
    mnext (read_messages_run bag w' f "/status" Hf').
    fold (status_samples f). rewrite Hsamp.
    unfold msg_in_mission at 1. rewrite Hb0. mnext_refl.
    mnext (read_messages_run bag w' f "/status" Hf').
    fold (status_samples f). rewrite Hsamp.
    rewrite (bind_ok _ _ _ _ _ (collect_samples (s0 :: ss) [] [] w'
               (Forall_cons s0 (ex_intro _ i0 (ex_intro _ d0
                  (ex_intro _ k0 Hb0))) Hall))).
    cbn [app flat_map]. unfold depth_of at 1, mode_of at 1. rewrite Hb0.
    cbn [app map py_max]. mnext_refl. rewrite fold_max_round. reflexivity.
Qed.
Lemma valid_name_segments nm :
  valid_name nm = true ->
  exists vehicle vname x rest,
    PyStr.split "_" nm = vehicle :: vname :: x :: rest.
Proof.
  unfold valid_name. intros H.
  apply andb_true_iff in H as [H _]. apply andb_true_iff in H as [H _].
  apply Nat.ltb_lt in H.
  destruct (PyStr.split "_" nm) as [| a [| b [| c r]]]; cbn in H; try lia.
  exists a, b, c, r. reflexivity.
Qed.

(** Whenever tags come back, the year is cut from the date. *)
Lemma generate_tags_year E bag w tags w' :
  generate_tags E bag w = (Ok tags, w') ->
  exists date,
    dict_get "date/time" tags = Some (PStr date) /\
    dict_get "year" tags = Some (PStr (PyStr.slice 0 4 date)).
Proof.
  unfold generate_tags. intros H.
  apply bind_inv_ok in H as (bagname & w1 & _ & H).
  apply bind_inv_ok in H as (u & w2 & _ & H).
  apply bind_inv_ok in H as (vehicle & w3 & _ & H).
  apply bind_inv_ok in H as (vname & w4 & _ & H).
  apply bind_inv_ok in H as (date & w5 & _ & H).
  exists date.
  apply bind_inv_ok in H as (dt & w6 & Hdt & H).
  injection Hdt as <- _.
  apply bind_inv_ok in H as (year & w7 & Hy & H).
  injection Hy as <- _.
  apply bind_inv_ok in H as (veh & w8 & Hv & H).
  injection Hv as <- _.
  cbn [py_eq_str] in H.
  destruct (vehicle =? "remus").
  - apply bind_inv_ok in H as (first & w9 & _ & H).
    apply bind_inv_ok in H as (tags1 & w10 & Ht1 & H).
    apply bind_inv_ok in H as (samples & w11 & _ & H).
    apply bind_inv_ok in H as ([dl mm] & w12 & _ & H).
    apply bind_inv_ok in H as (deepest & w13 & _ & H).
    injection H as <- _.
    destruct first as [| m0 first'].
    + injection Ht1 as <- _. split; reflexivity.
    + apply bind_inv_ok in Ht1 as (st & w14 & _ & Ht1).
      injection Ht1 as <- _. split; reflexivity.
  - destruct (vehicle =? "buoy"); injection H as <- _; split; reflexivity.
Qed.

(** C9.  The tags [generate_tags] returns.  Whenever it returns tags,
    the value under ["year"] is the first four characters of the value
    under ["date/time"].  For a validly named recording of type remus
    whose status channel holds at least one sample, it does return tags,
    and the value under ["max depth"] is the largest of the sampled
    depths, rounded to two decimal places. *)
Theorem generate_tags_postconditions (E : Env) (bag : Bag) (w : World) :
  (forall tags w',
      generate_tags E bag w = (Ok tags, w') ->
      exists date,
        dict_get "date/time" tags = Some (PStr date) /\
        dict_get "year" tags = Some (PStr (PyStr.slice 0 4 date)))
  /\
  (forall dirs nm f,
      filename bag = "/" :: dirs ++ [nm] ->
      occurs "/" nm = false ->
      valid_name nm = true ->
      nth_error (PyStr.split "_" nm) 0 = Some "remus" ->
      fs_lookup (filename bag) (fs w) = Some f ->
      status_samples f <> [] ->
      Forall is_status (status_samples f) ->
      exists tags w' deepest,
        generate_tags E bag w = (Ok tags, w')
        /\ In deepest (sampled_depths f)
        /\ (forall d, In d (sampled_depths f) -> (d <= deepest)%Q)
        /\ dict_get "max depth" tags = Some (PFloat (py_round2 deepest))
        /\ nearest_hundredth deepest (py_round2 deepest)).
Proof.
  split; [intros tags w'; apply generate_tags_year |].
  intros dirs nm f Hp Hs Hvalid Hveh Hf Hne Hall.
  destruct (valid_name_segments nm Hvalid) as (vehicle & vname & x & rest & Hsplit).
  rewrite Hsplit in Hveh. injection Hveh as ->.
  destruct (status_samples f) as [| s0 ss] eqn:Hsamp; [congruence |].
  inversion Hall as [| ? ? (i0 & d0 & k0 & Hb0) Hss]; subst.
  assert (Hmsgs : exists m r, msgs f = m :: r).
  { unfold status_samples in Hsamp. destruct (msgs f) as [| m r].
    - discriminate Hsamp.
    - exists m, r. reflexivity. }
  destruct Hmsgs as (m & r & Hm).
  destruct (generate_tags_run E bag w dirs nm "remus" vname (x :: rest) f m r
              Hp Hs Hsplit Hf Hm) as [_ Hrun].
  specialize (Hrun eq_refl s0 ss i0 d0 k0 Hsamp Hb0 Hss).
  do 2 eexists. exists (fold_left max_step (flat_map depth_of ss) d0).
  split; [exact Hrun |].
  assert (Hd : sampled_depths f = d0 :: flat_map depth_of ss).
  { unfold sampled_depths. rewrite Hsamp. cbn [flat_map].
    unfold depth_of at 1. rewrite Hb0. reflexivity. }
  rewrite Hd.
  destruct (fold_max_spec (flat_map depth_of ss) d0) as [Hin Hub].
  split; [exact Hin |]. split; [exact Hub |].
  split; [reflexivity | apply py_round2_nearest].
Qed.

Lemma generate_tags_postconditions_witness :
  exists tags w' deepest,
    generate_tags sample_env (mkBag named_remus_path "a") named_remus_world
    = (Ok tags, w')
    /\ dict_get "date/time" tags = Some (PStr "2024-1-5-13-7-9-4")
    /\ dict_get "year" tags = Some (PStr "2024")
    /\ In deepest (sampled_depths remus_rec)
    /\ dict_get "max depth" tags = Some (PFloat (py_round2 deepest))
    /\ nearest_hundredth deepest (py_round2 deepest)
    /\ dict_get "max depth" tags = Some (PFloat (123 # 100)).
Proof.
  destruct (generate_tags_postconditions sample_env
              (mkBag named_remus_path "a") named_remus_world) as [Hyear Hmax].
  destruct (Hmax ["data"; "shadow"] "remus_shadow_2024-1-5-13-7-9-4.bag"
              remus_rec)
    as (tags & w' & deepest & Hrun & Hin & _ & Hdepth & Hnear).
  - reflexivity.
  - reflexivity.
  - reflexivity.
  - reflexivity.
  - reflexivity.
  - discriminate.
  - repeat constructor; do 3 eexists; reflexivity.
  - destruct (Hyear tags w' Hrun) as (date & Hdate & Hy).
    exists tags, w', deepest. split; [exact Hrun |].
    assert (Hd : dict_get "date/time" tags = Some (PStr "2024-1-5-13-7-9-4")).
    { pose proof Hrun as Hc. vm_compute in Hc. injection Hc as <- _.
      reflexivity. }
    split; [exact Hd |]. split.
    + rewrite Hd in Hdate. injection Hdate as <-. exact Hy.
    + split; [exact Hin |]. split; [exact Hdepth |]. split; [exact Hnear |].
      pose proof Hrun as Hc. vm_compute in Hc. injection Hc as <- _.
      reflexivity.
Defined.

Example generate_tags_sample :
  fst (generate_tags sample_env (mkBag named_remus_path "a") named_remus_world)
  = Ok [ ("vehicle", PStr "remus"); ("name", PStr "shadow");
         ("date/time", PStr "2024-1-5-13-7-9-4"); ("year", PStr "2024");
         ("mission state", PBool true);
         ("max depth", PFloat (123 # 100));
         ("mission modes", PSet [3%Z; 4%Z]) ].
Proof. vm_compute. reflexivity. Qed.
(** ** The tag publisher *)

Lemma py_int_inject z : py_int (inject_Z z) = z.
Proof. unfold py_int. cbn [Qnum Qden inject_Z]. apply Z.quot_1_r. Qed.

Lemma py_int_fraction q : (0 <= q)%Q -> (q < 1)%Q -> py_int q = 0%Z.
Proof.
  destruct q as [n d]. unfold Qle, Qlt, py_int. cbn [Qnum Qden].
  intros H0 H1. apply Z.quot_small. lia.
Qed.

Lemma fraction_bounds x :
  (0 <= x - inject_Z (Qfloor x))%Q /\ (x - inject_Z (Qfloor x) < 1)%Q.
Proof.
  pose proof (Qfloor_le x) as Hl. pose proof (Qlt_floor x) as Hu.
  rewrite inject_Z_plus in Hu. change (inject_Z 1) with 1%Q in Hu.
  split; lra.
Qed.

(** The time [tag_this_bag] builds from an end time: the whole seconds,
    the fraction lost in [int]. *)
Lemma metadata_time e :
  (0 <= Qfloor e)%Z ->
  forall w,
    Time_new (py_int (fst (divmod1 e))) (snd (divmod1 e)) w
    = (Ok (mkTime (Qfloor e) 0), w).
Proof.
  intros Hpos w. unfold divmod1, Time_new. cbn [fst snd].
  rewrite py_int_inject.
  destruct (fraction_bounds e) as [H0 H1].
  rewrite (py_int_fraction _ H0 H1).
  change (0 / 1000000000)%Z with 0%Z. change (0 mod 1000000000)%Z with 0%Z.
  rewrite Z.add_0_r.
  destruct (Z.ltb_spec (Qfloor e) 0); [lia | reflexivity].
Qed.

(** [tag_this_bag] appends exactly one record, on ["/metadata"], whose
    text is the trimmed [key:value] lines and whose time is the end time
    cut down to whole seconds. *)
Lemma tag_this_bag_run E bag tags w f m r :
  fs_lookup (filename bag) (fs w) = Some f ->
  msgs f = m :: r ->
  write_fault E (filename bag) = None ->
  (0 <= Qfloor (latest m r))%Z ->
  let record := metadata_record E tags (latest m r) in
  exists w',
    tag_this_bag E bag tags w = (Ok tt, w')
    /\ fs w' = fs_update (filename bag)
                 (mkBagFile (readable f) (msgs f ++ [record])%list) (fs w)
    /\ exists l1 l2,
        trace w' = (trace w ++ [EvLog l1; EvWrite (filename bag) record;
                                EvLog l2])%list.
Proof.
  intros Hf Hm Hw Hpos record.
  unfold tag_this_bag.
  match goal with
  | |- context [log ?t] => set (l1 := t)
  end.
  set (w1 := snd (log l1 w)).
  assert (Hlog : log l1 w = (Ok tt, w1)) by reflexivity.
  assert (Hf1 : fs_lookup (filename bag) (fs w1) = Some f) by exact Hf.
  mnext Hlog.
  mnext (get_end_time_run bag w1 f m r Hf1 Hm).
  unfold divmod1. cbv beta iota.
  mnext (metadata_time (latest m r) Hpos w1).
  unfold Bag_write. rewrite Hw. rewrite bind_assoc.
  mnext (bag_file_run bag w1 f Hf1).
  eexists. split; [reflexivity |]. split; [reflexivity |].
  exists l1, "--Successfully tagged bag.".
  unfold w1, log, emit, put_fs, bind. cbn [trace fs snd].
  rewrite <- !app_assoc. reflexivity.
Qed.

Lemma rstrip_with_snoc p s c :
  p c = true ->
  PyStr.rstrip_with p (s ++ String c "") = PyStr.rstrip_with p s.
Proof.
  intros Hc. induction s as [| d s IH].
  - cbn. rewrite Hc. reflexivity.
  - cbn [append PyStr.rstrip_with]. rewrite IH. reflexivity.
Qed.

Lemma append_nil_r (s : string) : s ++ "" = s.
Proof. induction s as [| c a IH]; cbn; congruence. Qed.

Lemma tag_lines_fold E tags acc :
  fold_left
    (fun data (kv : string * pyval) =>
       data ++ fst kv ++ ":" ++ py_str E (snd kv) ++ LF) tags acc
  = acc ++ fold_right (fun l s => l ++ LF ++ s) "" (map (tag_line E) tags).
Proof.
  revert acc. induction tags as [| kv r IH]; intros acc.
  - cbn. symmetry. apply append_nil_r.
  - cbn [fold_left map fold_right]. rewrite IH. unfold tag_line.
    rewrite !append_assoc. reflexivity.
Qed.

Lemma concat_lines (lines : list string) :
  lines <> [] ->
  fold_right (fun l s => l ++ LF ++ s) "" lines = PyStr.join LF lines ++ LF.
Proof.
  induction lines as [| l r IH]; intros Hne; [congruence |].
  destruct r as [| l' r'].
  - cbn [fold_right PyStr.join]. reflexivity.
  - change (fold_right (fun l0 s => l0 ++ LF ++ s) "" (l :: l' :: r'))
      with (l ++ LF ++ fold_right (fun l0 s => l0 ++ LF ++ s) "" (l' :: r')).
    rewrite IH by discriminate.
    change (PyStr.join LF (l :: l' :: r'))
      with (l ++ LF ++ PyStr.join LF (l' :: r')).
    rewrite !append_assoc. reflexivity.
Qed.

(** The text of the record is the lines of the tags, one [key:value]
    per tag, separated by line feeds, with trailing white space gone. *)
Lemma metadata_text E tags :
  PyStr.rstrip (tag_lines E tags)
  = PyStr.rstrip (PyStr.join LF (map (tag_line E) tags)).
Proof.
  unfold tag_lines. rewrite tag_lines_fold. cbn [append].
  destruct tags as [| kv r]; [reflexivity |].
  rewrite concat_lines by discriminate.
  unfold PyStr.rstrip, LF. apply rstrip_with_snoc. reflexivity.
Qed.

(** C8.  The record [tag_this_bag] appends is one record on
    ["/metadata"] with the trimmed [key:value] lines, but its time is
    not the end time of the recording.  [divmod(end, 1)] hands the
    fraction of a second to the nanoseconds of [Time], where [int] cuts
    it to 0.  On a recording whose only record sits at 10.5 s the
    metadata lands at 10.0 s: before the end, and before the start,
    which moves from 10.5 s to 10.0 s. *)
Theorem tag_this_bag_drops_fraction :
  fst (get_end_time (mkBag short_path "a") short_world)
  = Ok (to_sec (mkTime 10 500000000))
  /\ fst (get_start_time (mkBag short_path "a") short_world)
     = Ok (to_sec (mkTime 10 500000000))
  /\ exists w',
      tag_this_bag sample_env (mkBag short_path "a") short_tags short_world
      = (Ok tt, w')
      /\ fs_lookup short_path (fs w')
         = Some (mkBagFile true
                   (msgs short_rec ++
                    [mkMsg "/metadata" "std_msgs/String"
                       (StringMsg ("vehicle:buoy" ++ LF ++ "name:sugar"))
                       (mkTime 10 0)])%list)
      /\ (to_sec (mkTime 10 0) < to_sec (mkTime 10 500000000))%Q
      /\ fst (get_start_time (mkBag short_path "a") w')
         = Ok (to_sec (mkTime 10 0)).
Proof.
  split; [reflexivity |]. split; [reflexivity |].
  eexists. split; [vm_compute; reflexivity |].
  split; [reflexivity |]. split; [reflexivity |]. reflexivity.
Qed.
(** ** The upload driver *)

Lemma index_last_run (p : path) w :
  p <> [] -> index_last p w = (Ok (name p), w).
Proof.
  intros Hp. destruct (exists_last Hp) as (l & a & ->).
  unfold index_last, name. rewrite rev_app_distr, last_last. reflexivity.
Qed.

Lemma Bag_open_inv p md w bag w' :
  Bag_open p md w = (Ok bag, w') -> bag = mkBag p md.
Proof.
  unfold Bag_open. mstep.
  destruct (fs_lookup p (fs w)) as [f |].
  - destruct (readable f); intros H; [injection H as <- _; reflexivity | discriminate].
  - destruct (md =? "a"); intros H; [injection H as <- _; reflexivity | discriminate].
Qed.

Lemma quiet_on_raise_tag_this_bag E bag tags :
  quiet_on_raise (tag_this_bag E bag tags).
Proof.
  intros w e w' H. unfold tag_this_bag in H.
  apply bind_inv_raise in H as [H | (u & w1 & Hlog & H)]; [discriminate H |].
  pose proof (quiet_log _ _ _ _ Hlog) as Q1.
  apply (only_logs_trans _ _ _ Q1). clear Q1 Hlog.
  apply bind_inv_raise in H as [H | (t & w2 & Hend & H)].
  { exact (quiet_get_end_time _ _ _ _ H). }
  pose proof (quiet_get_end_time _ _ _ _ Hend) as Q2.
  apply (only_logs_trans _ _ _ Q2). clear Q2 Hend.
  unfold divmod1 in H. cbv beta iota in H.
  apply bind_inv_raise in H as [H | (tm & w3 & Htm & H)].
  { exact (quiet_Time_new _ _ _ _ _ H). }
  pose proof (quiet_Time_new _ _ _ _ _ Htm) as Q3.
  apply (only_logs_trans _ _ _ Q3). clear Q3 Htm.
  apply bind_inv_raise in H as [H | (u' & w4 & _ & H)]; [| discriminate H].
  unfold Bag_write in H.
  destruct (write_fault E (filename bag)).
  { injection H as _ <-. apply only_logs_refl. }
  apply bind_inv_raise in H as [H | (f & w5 & _ & H)].
  { exact (quiet_bag_file _ _ _ _ H). }
  discriminate H.
Qed.

(** An exception out of tagging or publishing has only logged. *)
Lemma tagging_raise_only_logs E bag w e w' :
  (tags <- generate_tags E bag ;; tag_this_bag E bag tags) w = (Raise e, w') ->
  only_logs w w'.
Proof.
  intros H. apply bind_inv_raise in H as [H | (tags & w1 & Hg & H)].
  - exact (quiet_generate_tags _ _ _ _ _ H).
  - eapply only_logs_trans.
    + exact (quiet_generate_tags _ _ _ _ _ Hg).
    + exact (quiet_on_raise_tag_this_bag _ _ _ _ _ _ H).
Qed.

(** The [try] statement of the driver when tagging or publishing
    raises: the handler logs, closes the recording, and the loop body
    ends there. *)
Lemma process_one_tagging_raises E csrf net bagpath i w p' w1 bag w2 e w3 :
  bagpath <> [] ->
  name bagpath <> post_folder ->
  standard_rename E bagpath (snd (log (progress_line bagpath i net) w))
  = (Ok (true, p'), w1) ->
  Bag_open p' "a" w1 = (Ok bag, w2) ->
  (tags <- generate_tags E bag ;; tag_this_bag E bag tags) w2 = (Raise e, w3) ->
  process_one E csrf net bagpath i w
  = (Ok (i + 1)%Z,
     mkWorld (fs w3) (trace w3 ++ [EvLog (error_line e); EvClose p'])).
Proof.
  intros Hne Hleaf Hren Hopen Htag.
  pose proof (Bag_open_inv _ _ _ _ _ Hopen) as ->.
  unfold process_one.
  set (w0 := snd (log (progress_line bagpath i net) w)) in *.
  assert (Hlog : log (progress_line bagpath i net) w = (Ok tt, w0))
    by reflexivity.
  mnext Hlog. mnext (index_last_run bagpath w0 Hne).
  apply String.eqb_neq in Hleaf. rewrite Hleaf. cbn [negb].
  rewrite bind_assoc. mnext Hren. rewrite bind_assoc. mnext Hopen.
  rewrite bind_assoc.
  assert (Htry :
    try_except
      (tags <- generate_tags E (mkBag p' "a") ;;
       tag_this_bag E (mkBag p' "a") tags ;;
       Bag_close (mkBag p' "a") ;; ret true)
      (fun e0 => log (error_line e0) ;; Bag_close (mkBag p' "a") ;; ret false)
      w2
    = (Ok false,
       mkWorld (fs w3) (trace w3 ++ [EvLog (error_line e); EvClose p']))).
  { unfold try_except.
    apply bind_inv_raise in Htag as [Hg | (tags & w4 & Hg & Ht)].
    - rewrite (bind_raise _ _ _ _ _ Hg). unfold log, Bag_close, emit, bind, ret.
      cbn [fs trace filename]. rewrite <- app_assoc. reflexivity.
    - rewrite (bind_ok _ _ _ _ _ Hg). rewrite (bind_raise _ _ _ _ _ Ht).
      unfold log, Bag_close, emit, bind, ret.
      cbn [fs trace filename]. rewrite <- app_assoc. reflexivity. }
  mnext Htry. reflexivity.
Qed.
Lemma only_logs_trace w w' p :
  only_logs w w' ->
  fs w' = fs w /\
  exists logs,
    (trace w' ++ [EvLog (error_line p)])%list = (trace w ++ logs)%list
    /\ Forall is_log logs.
Proof.
  intros [Hfs (logs & Ht & Hl)]. split; [exact Hfs |].
  exists (logs ++ [EvLog (error_line p)])%list. split.
  - rewrite Ht. symmetry. apply app_assoc.
  - apply Forall_app. split; [exact Hl |].
    constructor; [eexists; reflexivity | constructor].
Qed.

(** C7.  An exception raised while generating or publishing the tags of
    a recording stays inside the loop body: the body returns normally,
    so the loop goes on with the next recording; the recording has been
    closed, as the last thing done; and between opening it and closing
    it nothing happened but log lines - no write, no upload, no rename,
    no directory made.  So the files are under the paths they were
    under, the recording among them, and every file but the recording
    holds what it held. *)
Theorem tagging_failure_is_contained (E : Env) (csrf : option string)
    (net : nat) (bagpath : path) (i : Z) (w : World) (p' : path)
    (w1 : World) (bag : Bag) (w2 : World) (e : exn) (w3 : World) :
  bagpath <> [] ->
  name bagpath <> post_folder ->
  standard_rename E bagpath (snd (log (progress_line bagpath i net) w))
  = (Ok (true, p'), w1) ->
  Bag_open p' "a" w1 = (Ok bag, w2) ->
  (tags <- generate_tags E bag ;; tag_this_bag E bag tags) w2 = (Raise e, w3) ->
  exists w' logs,
    process_one E csrf net bagpath i w = (Ok (i + 1)%Z, w')
    /\ map fst (fs w') = map fst (fs w2)
    /\ (forall q, q <> p' -> fs_lookup q (fs w') = fs_lookup q (fs w2))
    /\ trace w' = (trace w2 ++ logs ++ [EvClose p'])%list
    /\ Forall is_log logs
    /\ forall rest,
        for_each (bagpath :: rest) i (process_one E csrf net) w
        = for_each rest (i + 1)%Z (process_one E csrf net) w'.
Proof.
  intros Hne Hleaf Hren Hopen Htag.
  pose proof (process_one_tagging_raises E csrf net bagpath i w p' w1 bag w2
                e w3 Hne Hleaf Hren Hopen Htag) as Hrun.
  destruct (only_logs_trace w2 w3 e (tagging_raise_only_logs E bag w2 e w3 Htag))
    as [Hfs (logs & Ht & Hl)].
  eexists. exists logs. split; [exact Hrun |].
  cbn [fs trace]. split; [rewrite Hfs; reflexivity |].
  split; [intros q _; rewrite Hfs; reflexivity |]. split.
  - change (trace w3 ++ [EvLog (error_line e); EvClose p'])%list
      with (trace w3 ++ ([EvLog (error_line e)] ++ [EvClose p']))%list.
    rewrite app_assoc, Ht. symmetry. apply app_assoc.
  - split; [exact Hl |]. intros rest. cbn [for_each].
    rewrite (bind_ok _ _ _ _ _ Hrun). reflexivity.
Qed.

Lemma tagging_failure_is_contained_witness :
  exists w' logs,
    process_one sample_env (Some "abc") 1 hollow_path 1 hollow_world
    = (Ok 2%Z, w')
    /\ map fst (fs w') = map fst (fs hollow_opened)
    /\ (forall q, q <> hollow_path ->
                  fs_lookup q (fs w') = fs_lookup q (fs hollow_opened))
    /\ trace w' = (trace hollow_opened ++ logs ++ [EvClose hollow_path])%list
    /\ Forall is_log logs
    /\ forall rest,
        for_each (hollow_path :: rest) 1%Z
          (process_one sample_env (Some "abc") 1) hollow_world
        = for_each rest 2%Z (process_one sample_env (Some "abc") 1) w'.
Proof.
  apply (tagging_failure_is_contained sample_env (Some "abc") 1 hollow_path
           1 hollow_world hollow_path hollow_validated
           (mkBag hollow_path "a") hollow_opened ValueError hollow_failed).
  - discriminate.
  - discriminate.
  - vm_compute. reflexivity.
  - vm_compute. reflexivity.
  - vm_compute. reflexivity.
Defined.
(** A recording named as a remus with no sample on ["/status"] makes
    [generate_tags] raise: for want of a second segment, of any record,
    or of a depth to take the maximum of. *)
Lemma generate_tags_empty_status E bag w dirs nm f :
  filename bag = "/" :: dirs ++ [nm] ->
  occurs "/" nm = false ->
  nth_error (PyStr.split "_" nm) 0 = Some "remus" ->
  fs_lookup (filename bag) (fs w) = Some f ->
  status_samples f = [] ->
  exists e w',
    generate_tags E bag w = (Raise e, w')
    /\ (forall vname rest,
           PyStr.split "_" nm = "remus" :: vname :: rest ->
           msgs f <> [] -> e = ValueError).
Proof.
  intros Hp Hs Hveh Hf Hsamp.
  set (w' := snd (log ("-Attempting to tag " ++ nm) w)).
  assert (Hf' : fs_lookup (filename bag) (fs w') = Some f) by exact Hf.
  assert (Hlog : log ("-Attempting to tag " ++ nm) w = (Ok tt, w'))
    by reflexivity.
  assert (Hname : index (PyStr.rsplit1 "/" (path_str (filename bag))) 1 w
                  = (Ok nm, w)).
  { unfold index. rewrite Hp, (bagname_of_path dirs nm Hs). reflexivity. }
  unfold generate_tags. mnext Hname. mnext Hlog.
  destruct (PyStr.split "_" nm) as [| v tl] eqn:Hsplit; [discriminate Hveh |].
  injection Hveh as ->.
  mnext_refl.
  destruct tl as [| vname rest].
  - exists IndexError, w'. split; [reflexivity |]. intros ? ? Hx. discriminate Hx.
  - mnext_refl.
    destruct (msgs f) as [| m r] eqn:Hm.
    + exists ROSBagException, w'. split.
      * unfold identify_date, get_start_time.
        rewrite bind_assoc. rewrite bind_assoc.
        mnext (bag_file_run bag w' f Hf'). rewrite Hm. reflexivity.
      * intros ? ? _ Hx. congruence.
    + mnext (identify_date_run E bag w' f m r Hf' Hm).
      mnext_refl. mnext_refl. mnext_refl.
      cbn [py_eq_str]. rewrite String.eqb_refl.
      mnext (read_messages_run bag w' f "/status" Hf').
      fold (status_samples f). rewrite Hsamp.
      mnext_refl.
      mnext (read_messages_run bag w' f "/status" Hf').
      fold (status_samples f). rewrite Hsamp.
      exists ValueError, w'. split; [reflexivity |]. reflexivity.
Qed.

(** C10.  A recording whose name starts with the segment ["remus"] and
    whose ["/status"] channel is empty: [generate_tags] raises (the
    maximum of no depth at all, when the name has a second segment and
    the recording any record), and under the handler of the driver the
    recording is closed and passed over: nothing is written, uploaded or
    moved, and the loop body returns normally. *)
Theorem remus_without_status_is_skipped (E : Env) (csrf : option string)
    (net : nat) (bagpath : path) (i : Z) (w : World) (dirs : list string)
    (nm : string) (w1 : World) (bag : Bag) (w2 : World) (f : BagFile) :
  bagpath <> [] ->
  name bagpath <> post_folder ->
  standard_rename E bagpath (snd (log (progress_line bagpath i net) w))
  = (Ok (true, "/" :: dirs ++ [nm]), w1) ->
  occurs "/" nm = false ->
  nth_error (PyStr.split "_" nm) 0 = Some "remus" ->
  Bag_open ("/" :: dirs ++ [nm]) "a" w1 = (Ok bag, w2) ->
  fs_lookup ("/" :: dirs ++ [nm]) (fs w2) = Some f ->
  status_samples f = [] ->
  exists e w3 w' logs,
    generate_tags E bag w2 = (Raise e, w3)
    /\ (forall vname rest,
           PyStr.split "_" nm = "remus" :: vname :: rest ->
           msgs f <> [] -> e = ValueError)
    /\ process_one E csrf net bagpath i w = (Ok (i + 1)%Z, w')
    /\ fs w' = fs w2
    /\ trace w' = (trace w2 ++ logs ++ [EvClose ("/" :: dirs ++ [nm])])%list
    /\ Forall is_log logs.
Proof.
  intros Hne Hleaf Hren Hs Hveh Hopen Hf Hsamp.
  pose proof (Bag_open_inv _ _ _ _ _ Hopen) as Hbag.
  assert (Hfn : filename bag = "/" :: dirs ++ [nm]) by (rewrite Hbag; reflexivity).
  rewrite <- Hfn in Hf.
  destruct (generate_tags_empty_status E bag w2 dirs nm f Hfn Hs Hveh Hf Hsamp)
    as (e & w3 & Hgen & Hval).
  assert (Htag : (tags <- generate_tags E bag ;; tag_this_bag E bag tags) w2
                 = (Raise e, w3))
    by (apply bind_raise; exact Hgen).
  pose proof (process_one_tagging_raises E csrf net bagpath i w _ w1 bag w2
                e w3 Hne Hleaf Hren Hopen Htag) as Hrun.
  destruct (only_logs_trace w2 w3 e (tagging_raise_only_logs E bag w2 e w3 Htag))
    as [Hfs (logs & Ht & Hl)].
  exists e, w3. eexists. exists logs.
  split; [exact Hgen |]. split; [exact Hval |]. split; [exact Hrun |].
  cbn [fs trace]. split; [exact Hfs |]. split; [| exact Hl].
  change (trace w3 ++ [EvLog (error_line e); EvClose ("/" :: dirs ++ [nm])])%list
    with (trace w3 ++ ([EvLog (error_line e)]
                       ++ [EvClose ("/" :: dirs ++ [nm])]))%list.
  rewrite app_assoc, Ht. symmetry. apply app_assoc.
Qed.

Lemma remus_without_status_is_skipped_witness :
  exists e w3 w' logs,
    generate_tags sample_env (mkBag hollow_path "a") hollow_opened
    = (Raise e, w3)
    /\ (forall vname rest,
           PyStr.split "_" "remus_shadow_2024-1-5-13-7-9-4.bag"
           = "remus" :: vname :: rest ->
           msgs short_rec <> [] -> e = ValueError)
    /\ process_one sample_env (Some "abc") 1 hollow_path 1 hollow_world
       = (Ok 2%Z, w')
    /\ fs w' = fs hollow_opened
    /\ trace w' = (trace hollow_opened ++ logs ++ [EvClose hollow_path])%list
    /\ Forall is_log logs.
Proof.
  apply (remus_without_status_is_skipped sample_env (Some "abc") 1
           hollow_path 1 hollow_world ["data"]
           "remus_shadow_2024-1-5-13-7-9-4.bag" hollow_validated
           (mkBag hollow_path "a") hollow_opened short_rec).
  - discriminate.
  - discriminate.
  - vm_compute. reflexivity.
  - reflexivity.
  - reflexivity.
  - vm_compute. reflexivity.
  - reflexivity.
  - reflexivity.
Defined.

Example remus_without_status_trace :
  trace (snd (process_one sample_env (Some "abc") 1 hollow_path 1
                hollow_world))
  = [ EvLog (progress_line hollow_path 1 1);
      EvLog "-Evaluating filename remus_shadow_2024-1-5-13-7-9-4.bag";
      EvLog ("---Bag remus_shadow_2024-1-5-13-7-9-4.bag has a valid name; "
             ++ "skipping to next file.");
      EvLog "-Finished evaluation.";
      EvOpen hollow_path "a";
      EvLog "-Attempting to tag remus_shadow_2024-1-5-13-7-9-4.bag";
      EvLog (error_line ValueError);
      EvClose hollow_path ].
Proof. vm_compute. reflexivity. Qed.
(** ** Which exceptions end the run *)

Lemma for_each_raise {A S} (x : A) (rest : list A) (s : S)
    (body : A -> S -> M S) w e w' :
  body x s w = (Raise e, w') ->
  for_each (x :: rest) s body w = (Raise e, w').
Proof. intros H. cbn [for_each]. apply bind_raise. exact H. Qed.

Lemma try_except_total {A} (m : M A) (h : exn -> M A) :
  (forall e, total (h e)) ->
  forall w, exists a w', try_except m h w = (Ok a, w').
Proof.
  intros Hh w. unfold try_except.
  destruct (m w) as [[a | e] w1]; [exists a, w1; reflexivity | apply Hh].
Qed.

(** The [try] statement never raises: its handler only logs and closes. *)
Lemma tagging_block_total E bag w :
  exists tagged w',
    try_except
      (tags <- generate_tags E bag ;;
       tag_this_bag E bag tags ;; Bag_close bag ;; ret true)
      (fun e => log (error_line e) ;; Bag_close bag ;; ret false) w
    = (Ok tagged, w').
Proof.
  apply try_except_total. intros e w0. do 2 eexists. reflexivity.
Qed.

Lemma process_one_escapes E csrf net bagpath i w e w' :
  process_one E csrf net bagpath i w = (Raise e, w') ->
  escapes_outside_tagging E csrf bagpath
    (snd (log (progress_line bagpath i net) w)) e w'.
Proof.
  unfold process_one, escapes_outside_tagging.
  set (w0 := snd (log (progress_line bagpath i net) w)).
  assert (Hlog : log (progress_line bagpath i net) w = (Ok tt, w0))
    by reflexivity.
  intros H. rewrite (bind_ok _ _ _ _ _ Hlog) in H. cbv beta in H.
  destruct bagpath as [| x r] eqn:Hbp.
  { left. injection H as <- <-. repeat split. }
  rewrite <- Hbp in *.
  assert (Hne : bagpath <> []) by (rewrite Hbp; discriminate).
  rewrite (bind_ok _ _ _ _ _ (index_last_run bagpath w0 Hne)) in H.
  cbv beta in H.
  apply bind_inv_raise in H as [H | (u & w5 & _ & H)]; [| discriminate H].
  right. split; [exact Hne |].
  destruct (String.eqb_spec (name bagpath) post_folder) as [Heq | Hleaf];
    [discriminate H |].
  split; [exact Hleaf |]. cbn [negb] in H.
  apply bind_inv_raise in H as [H | ([results p'] & w1 & Hren & H)].
  { left. exact H. }
  destruct results; [| discriminate H].
  right. exists p', w1. split; [exact Hren |].
  apply bind_inv_raise in H as [H | (bag & w2 & Hopen & H)].
  { left. exact H. }
  right.
  destruct (tagging_block_total E bag w2) as (tagged & w3 & Htry).
  rewrite (bind_ok _ _ _ _ _ Htry) in H. cbv beta in H.
  destruct tagged; [| discriminate H].
  exists bag, w2, w3. split; [exact Hopen |]. split.
  { unfold try_except in Htry.
    destruct ((tags <- generate_tags E bag ;;
               tag_this_bag E bag tags ;; Bag_close bag ;; ret true) w2)
      as [[a | e0] wx]; [exact Htry | discriminate Htry]. }
  apply bind_inv_raise in H as [H | (status & w4 & Hpost & H)].
  { left. exact H. }
  right.
  destruct (String.eqb_spec status "200") as [-> | Hs]; [| discriminate H].
  exists w4. split; [exact Hpost | exact H].
Qed.

(** None of these exceptions is caught on its way out of the loop body. *)
Lemma process_one_propagates E csrf net bagpath i w e w' :
  escapes_outside_tagging E csrf bagpath
    (snd (log (progress_line bagpath i net) w)) e w' ->
  process_one E csrf net bagpath i w = (Raise e, w').
Proof.
  unfold process_one, escapes_outside_tagging.
  set (w0 := snd (log (progress_line bagpath i net) w)).
  assert (Hlog : log (progress_line bagpath i net) w = (Ok tt, w0))
    by reflexivity.
  intros H. mnext Hlog.
  destruct H as [(-> & -> & ->) | (Hne & Hleaf & H)]; [reflexivity |].
  mnext (index_last_run bagpath w0 Hne).
  apply String.eqb_neq in Hleaf. rewrite Hleaf. cbn [negb].
  apply bind_raise.
  destruct H as [H | (p' & w1 & Hren & H)].
  { apply bind_raise. exact H. }
  mnext Hren.
  destruct H as [H | (bag & w2 & w3 & Hopen & Htag & H)].
  { apply bind_raise. exact H. }
  mnext Hopen.
  assert (Htry :
    try_except
      (tags <- generate_tags E bag ;;
       tag_this_bag E bag tags ;; Bag_close bag ;; ret true)
      (fun e0 => log (error_line e0) ;; Bag_close bag ;; ret false) w2
    = (Ok true, w3)).
  { unfold try_except. rewrite Htag. reflexivity. }
  mnext Htry.
  destruct H as [H | (w4 & Hpost & H)].
  { apply bind_raise. exact H. }
  mnext Hpost. exact H.
Qed.

(** An upload the archive answers with another status than 200 is
    logged, and the loop body ends normally. *)
Lemma process_one_upload_refused E csrf net bagpath i w p' w1 bag w2 w3
    status w4 :
  bagpath <> [] ->
  name bagpath <> post_folder ->
  standard_rename E bagpath (snd (log (progress_line bagpath i net) w))
  = (Ok (true, p'), w1) ->
  Bag_open p' "a" w1 = (Ok bag, w2) ->
  (tags <- generate_tags E bag ;;
   tag_this_bag E bag tags ;; Bag_close bag ;; ret true) w2 = (Ok true, w3) ->
  prep_and_post E p' csrf w3 = (Ok status, w4) ->
  status <> "200" ->
  process_one E csrf net bagpath i w
  = (Ok (i + 1)%Z,
     mkWorld (fs w4)
       (trace w4 ++ [EvLog ("Post request failed with status code "
                            ++ status ++ ".")])).
Proof.
  intros Hne Hleaf Hren Hopen Htag Hpost Hs.
  unfold process_one.
  set (w0 := snd (log (progress_line bagpath i net) w)) in *.
  assert (Hlog : log (progress_line bagpath i net) w = (Ok tt, w0))
    by reflexivity.
  mnext Hlog. mnext (index_last_run bagpath w0 Hne).
  apply String.eqb_neq in Hleaf. rewrite Hleaf. cbn [negb].
  rewrite bind_assoc. mnext Hren. rewrite bind_assoc. mnext Hopen.
  rewrite bind_assoc.
  assert (Htry :
    try_except
      (tags <- generate_tags E bag ;;
       tag_this_bag E bag tags ;; Bag_close bag ;; ret true)
      (fun e0 => log (error_line e0) ;; Bag_close bag ;; ret false) w2
    = (Ok true, w3)).
  { unfold try_except. rewrite Htag. reflexivity. }
  mnext Htry. rewrite bind_assoc. mnext Hpost.
  apply String.eqb_neq in Hs. rewrite Hs. reflexivity.
Qed.

Lemma process_bags_token_failure E w e w' :
  get_csrf_token E w = (Raise e, w') -> process_bags E w = (Raise e, w').
Proof.
  intros H. unfold process_bags. mstep. rewrite H. reflexivity.
Qed.

(** C3, as the code has it.  What the driver turns into a logged
    outcome, going on with the next recording, is an exception raised
    while generating or publishing the tags, and an upload answered with
    another status than 200.  An exception that leaves the loop body was
    raised while validating, identifying or renaming the recording,
    while opening it for tagging, while uploading it, or while moving it
    after the upload; it ends the loop at once.  Failure to obtain the
    token ends the run as well. *)
Theorem errors_that_end_the_run (E : Env) (csrf : option string) (net : nat)
    (bagpath : path) (i : Z) (w : World) :
  (forall p' w1 bag w2 e w3,
      bagpath <> [] ->
      name bagpath <> post_folder ->
      standard_rename E bagpath (snd (log (progress_line bagpath i net) w))
      = (Ok (true, p'), w1) ->
      Bag_open p' "a" w1 = (Ok bag, w2) ->
      (tags <- generate_tags E bag ;; tag_this_bag E bag tags) w2
      = (Raise e, w3) ->
      exists w',
        process_one E csrf net bagpath i w = (Ok (i + 1)%Z, w')
        /\ In (EvLog (error_line e)) (trace w')
        /\ forall rest,
            for_each (bagpath :: rest) i (process_one E csrf net) w
            = for_each rest (i + 1)%Z (process_one E csrf net) w')
  /\
  (forall p' w1 bag w2 w3 status w4,
      bagpath <> [] ->
      name bagpath <> post_folder ->
      standard_rename E bagpath (snd (log (progress_line bagpath i net) w))
      = (Ok (true, p'), w1) ->
      Bag_open p' "a" w1 = (Ok bag, w2) ->
      (tags <- generate_tags E bag ;;
       tag_this_bag E bag tags ;; Bag_close bag ;; ret true) w2
      = (Ok true, w3) ->
      prep_and_post E p' csrf w3 = (Ok status, w4) ->
      status <> "200" ->
      exists w',
        process_one E csrf net bagpath i w = (Ok (i + 1)%Z, w')
        /\ fs w' = fs w4
        /\ In (EvLog ("Post request failed with status code "
                      ++ status ++ ".")) (trace w')
        /\ forall rest,
            for_each (bagpath :: rest) i (process_one E csrf net) w
            = for_each rest (i + 1)%Z (process_one E csrf net) w')
  /\
  (forall e w',
      (process_one E csrf net bagpath i w = (Raise e, w') <->
       escapes_outside_tagging E csrf bagpath
         (snd (log (progress_line bagpath i net) w)) e w')
      /\ (process_one E csrf net bagpath i w = (Raise e, w') ->
          forall rest,
            for_each (bagpath :: rest) i (process_one E csrf net) w
            = (Raise e, w')))
  /\
  (forall w0 e w',
      get_csrf_token E w0 = (Raise e, w') ->
      process_bags E w0 = (Raise e, w')).
Proof.
  split; [| split; [| split]].
  - intros p' w1 bag w2 e w3 Hne Hleaf Hren Hopen Htag.
    pose proof (process_one_tagging_raises E csrf net bagpath i w p' w1 bag
                  w2 e w3 Hne Hleaf Hren Hopen Htag) as Hrun.
    eexists. split; [exact Hrun |]. split.
    + cbn [trace]. apply in_or_app. right. left. reflexivity.
    + intros rest. cbn [for_each]. rewrite (bind_ok _ _ _ _ _ Hrun).
      reflexivity.
  - intros p' w1 bag w2 w3 status w4 Hne Hleaf Hren Hopen Htag Hpost Hs.
    pose proof (process_one_upload_refused E csrf net bagpath i w p' w1 bag
                  w2 w3 status w4 Hne Hleaf Hren Hopen Htag Hpost Hs) as Hrun.
    eexists. split; [exact Hrun |]. split; [reflexivity |]. split.
    + cbn [trace]. apply in_or_app. right. left. reflexivity.
    + intros rest. cbn [for_each]. rewrite (bind_ok _ _ _ _ _ Hrun).
      reflexivity.
  - intros e w'. split.
    + split; [apply process_one_escapes | apply process_one_propagates].
    + intros Hrun rest. apply for_each_raise. exact Hrun.
  - intros w0 e w'. apply process_bags_token_failure.
Qed.

Lemma errors_that_end_the_run_witness :
  (exists w',
      process_one sample_env (Some "abc") 1 hollow_path 1 hollow_world
      = (Ok 2%Z, w')
      /\ In (EvLog (error_line ValueError)) (trace w'))
  /\ escapes_outside_tagging offline_env (Some "abc") named_remus_path
       (snd (log (progress_line named_remus_path 1 2) two_world))
       ConnectionError offline_failed
  /\ for_each [named_remus_path; short_path] 1%Z
       (process_one offline_env (Some "abc") 2) two_world
     = (Raise ConnectionError, offline_failed).
Proof.
  split; [| split].
  - destruct (proj1 (errors_that_end_the_run sample_env (Some "abc") 1
                       hollow_path 1 hollow_world)
                hollow_path hollow_validated (mkBag hollow_path "a")
                hollow_opened ValueError hollow_failed)
      as (w' & Hrun & Hin & _).
    + discriminate.
    + discriminate.
    + vm_compute. reflexivity.
    + vm_compute. reflexivity.
    + vm_compute. reflexivity.
    + exists w'. split; [exact Hrun | exact Hin].
  - apply (proj1 (proj2 (proj2 (errors_that_end_the_run offline_env
                                  (Some "abc") 2 named_remus_path 1
                                  two_world)))
             ConnectionError offline_failed).
    vm_compute. reflexivity.
  - apply (proj2 (proj1 (proj2 (proj2 (errors_that_end_the_run offline_env
                                         (Some "abc") 2 named_remus_path 1
                                         two_world)))
                    ConnectionError offline_failed)).
    vm_compute. reflexivity.
Defined.

(** C3, two runs the driver does not survive: with the token in hand, an
    upload that raises ends the run before the second recording is
    looked at; so does a first recording that cannot be opened. *)
Lemma upload_error_ends_run :
  fst (get_csrf_token offline_env two_world) = Ok (Some "abc")
  /\ glob offline_env (cwd offline_env) (fs two_world)
     = [named_remus_path; short_path]
  /\ fst (process_bags offline_env two_world) = Raise ConnectionError
  /\ existsb (touches short_path)
       (trace (snd (process_bags offline_env two_world))) = false
  /\ fst (get_csrf_token sample_env broken_world) = Ok (Some "abc")
  /\ glob sample_env (cwd sample_env) (fs broken_world)
     = [broken_path; short_path]
  /\ fst (process_bags sample_env broken_world) = Raise ROSBagException
  /\ existsb (touches short_path)
       (trace (snd (process_bags sample_env broken_world))) = false.
Proof. repeat split; vm_compute; reflexivity. Qed.
(** ** The guard against recordings already archived *)

Lemma glob_names E thisdir fs0 p :
  In p (glob E thisdir fs0) -> PyStr.endswith (name p) ".bag" = true.
Proof.
  unfold glob. intros H. apply filter_In in H as [_ H].
  apply andb_true_iff in H as [H _]. exact H.
Qed.

(** The guard compares the last part of the path, the file name, with
    ["uploaded"]: no file the scan finds can meet it. *)
Lemma archive_guard_never_fires E thisdir fs0 p :
  In p (glob E thisdir fs0) -> negb (name p =? post_folder) = true.
Proof.
  intros H. apply glob_names in H.
  destruct (String.eqb_spec (name p) post_folder) as [Heq | Hne];
    [| reflexivity].
  rewrite Heq in H. discriminate H.
Qed.

(** C1.  A second run is not idle.  The first run archived its only
    recording into ["uploaded"]; the recursive scan of the second run
    finds it there, the guard (which looks at the file name, never at
    the directory) lets it through, and the recording is tagged once
    more, uploaded once more and moved into ["uploaded/uploaded"]. *)
Theorem second_run_reprocesses_archive :
  map fst (fs archived_world) = [archived_path]
  /\ nth_error archived_path 3 = Some post_folder
  /\ fst (process_bags sample_env archived_world) = Ok tt
  /\ List.length
       (filter is_write (trace (snd (process_bags sample_env archived_world))))
     = 1
  /\ List.length
       (filter is_post (trace (snd (process_bags sample_env archived_world))))
     = 1
  /\ filter is_rename (trace (snd (process_bags sample_env archived_world)))
     = [EvRename archived_path rearchived_path]
  /\ map fst (fs (snd (process_bags sample_env archived_world)))
     = [rearchived_path].
Proof. repeat split; vm_compute; reflexivity. Qed.

(** A publishing failure: the operating system refuses the write. *)
Example write_fault_is_contained :
  let E := mkEnv ["/"; "data"] true (fun _ => sample_localtime)
             sample_float_repr (fun _ => Some OSError) (fun _ _ => None)
             (Ok (Some sample_script)) (fun _ _ => Ok 200%Z) in
  fst (process_bags E two_world) = Ok tt
  /\ filter (fun ev => is_write ev || is_post ev || is_rename ev)
       (trace (snd (process_bags E two_world))) = []
  /\ fs (snd (process_bags E two_world)) = fs two_world.
Proof. repeat split; vm_compute; reflexivity. Qed.

(** * Further properties of the code *)

(** ** Characters of strings *)

Lemma all_chars_app p a b :
  all_chars p (a ++ b) = all_chars p a && all_chars p b.
Proof.
  induction a as [| c a IH]; [reflexivity |].
  cbn [append all_chars]. rewrite IH. apply andb_assoc.
Qed.

Lemma all_chars_weaken (p q : ascii -> bool) s :
  (forall c, p c = true -> q c = true) ->
  all_chars p s = true -> all_chars q s = true.
Proof.
  intros Hpq. induction s as [| c s IH]; [reflexivity |].
  cbn [all_chars]. intros H. apply andb_true_iff in H as [Hc Hs].
  rewrite (Hpq c Hc), (IH Hs). reflexivity.
Qed.

Lemma occurs_all_chars c s :
  occurs c s = false <-> all_chars (fun d => negb (Ascii.eqb d c)) s = true.
Proof.
  induction s as [| d s IH]; [split; reflexivity |].
  cbn [occurs all_chars]. rewrite orb_false_iff, andb_true_iff, IH.
  rewrite negb_true_iff. reflexivity.
Qed.

Lemma occurs_app c a b : occurs c (a ++ b) = occurs c a || occurs c b.
Proof.
  induction a as [| d a IH]; [reflexivity |].
  cbn [append occurs]. rewrite IH. apply orb_assoc.
Qed.

Lemma last_char_app a b :
  b <> "" -> last_char (a ++ b) = last_char b.
Proof.
  intros Hb. induction a as [| c a IH]; [reflexivity |].
  cbn [append]. change (last_char (String c (a ++ b)))
    with (match a ++ b with "" => Some c | _ => last_char (a ++ b) end).
  destruct (a ++ b) eqn:Hab.
  - destruct a; [cbn in Hab; congruence | discriminate Hab].
  - exact IH.
Qed.

Lemma last_char_all p s c :
  all_chars p s = true -> last_char s = Some c -> p c = true.
Proof.
  induction s as [| d s IH]; [discriminate |].
  cbn [all_chars]. intros H Hl. apply andb_true_iff in H as [Hd Hs].
  destruct s as [| d' s'].
  - injection Hl as <-. exact Hd.
  - apply IH; [exact Hs | exact Hl].
Qed.

Lemma rstrip_with_id p s :
  (forall c, last_char s = Some c -> p c = false) ->
  PyStr.rstrip_with p s = s.
Proof.
  induction s as [| d s IH]; [reflexivity |].
  intros H. cbn [PyStr.rstrip_with].
  destruct s as [| d' s'].
  - cbn. rewrite (H d eq_refl). reflexivity.
  - rewrite IH by exact H. reflexivity.
Qed.

Lemma all_chars_rstrip p q s :
  all_chars p s = true -> all_chars p (PyStr.rstrip_with q s) = true.
Proof.
  induction s as [| d s IH]; [reflexivity |].
  cbn [all_chars PyStr.rstrip_with]. intros H.
  apply andb_true_iff in H as [Hd Hs]. specialize (IH Hs).
  destruct (PyStr.rstrip_with q s) as [| e r'].
  - destruct (q d); cbn [all_chars]; [reflexivity |].
    rewrite Hd. reflexivity.
  - cbn [all_chars] in *. rewrite Hd. exact IH.
Qed.

(** ** Decimal numerals *)

Lemma uint_digits d : all_chars is_digit (NilEmpty.string_of_uint d) = true.
Proof. induction d; cbn [NilEmpty.string_of_uint all_chars]; try rewrite IHd; reflexivity. Qed.

Lemma of_Z_chars z : all_chars is_digit_or_dash (PyStr.of_Z z) = true.
Proof.
  assert (Hu : forall d, all_chars is_digit_or_dash (NilZero.string_of_uint d) = true).
  { intros d. destruct d; try reflexivity;
      apply (all_chars_weaken is_digit); try apply uint_digits;
      intros c Hc; unfold is_digit_or_dash; rewrite Hc; reflexivity. }
  unfold PyStr.of_Z. destruct (Z.to_int z) as [d | d]; cbn [NilZero.string_of_int].
  - apply Hu.
  - cbn [all_chars]. rewrite Hu. reflexivity.
Qed.

Lemma of_Z_nonneg_digits z :
  (0 <= z)%Z ->
  PyStr.of_Z z <> "" /\ all_chars is_digit (PyStr.of_Z z) = true.
Proof.
  intros Hz. unfold PyStr.of_Z.
  destruct z as [| p | p]; [split; [discriminate | reflexivity] | | lia].
  cbn [Z.to_int NilZero.string_of_int].
  assert (Hn : Pos.to_uint p <> Decimal.Nil) by apply DecimalPos.Unsigned.to_uint_nonnil.
  unfold NilZero.string_of_uint.
  destruct (Pos.to_uint p) eqn:Hp; try congruence;
    (split; [discriminate | rewrite <- Hp; apply uint_digits]).
Qed.

Lemma of_Z_inj z z' : PyStr.of_Z z = PyStr.of_Z z' -> z = z'.
Proof.
  assert (Hnn : forall x, Z.to_int x <> Decimal.Pos Decimal.Nil
                          /\ Z.to_int x <> Decimal.Neg Decimal.Nil).
  { intros x. destruct x as [| p | p]; cbn [Z.to_int]; split; try discriminate;
      intros H; injection H as H;
      exact (DecimalPos.Unsigned.to_uint_nonnil p H). }
  unfold PyStr.of_Z. intros H.
  apply DecimalZ.to_int_inj.
  assert (Hs : Some (Z.to_int z) = Some (Z.to_int z')).
  { rewrite <- (NilZero.isi (Z.to_int z)) by apply Hnn.
    rewrite <- (NilZero.isi (Z.to_int z')) by apply Hnn.
    rewrite H. reflexivity. }
  injection Hs as Hs. exact Hs.
Qed.

(** ** The validator, both ways *)

Lemma valid_name_catalog filename :
  valid_name filename = true <-> catalog_valid filename.
Proof.
  unfold valid_name, catalog_valid.
  set (components := PyStr.split "_" filename). cbv zeta. split.
  - intros H. apply andb_true_iff in H as [Hlen H].
    apply andb_true_iff in Hlen as [H2 H5].
    apply Nat.ltb_lt in H2. apply Nat.ltb_lt in H5.
    split; [lia |].
    destruct (nth_error components 0) as [c0 |]; [| discriminate H].
    destruct (nth_error components 1) as [c1 |]; [| discriminate H].
    destruct (dict_get c0 vehicle_info) as [[sg names] |] eqn:Hget;
      [| discriminate H].
    exists c0, sg, names, c1.
    split; [reflexivity |]. split; [exact Hget |]. split; [reflexivity |].
    apply str_mem_In. exact H.
  - intros [Hlen (t & sg & names & n & H0 & Hget & H1 & Hin)].
    apply andb_true_iff. split.
    + apply andb_true_iff. split; apply Nat.ltb_lt; lia.
    + rewrite H0, H1, Hget. apply str_mem_In. exact Hin.
Qed.

(** X1.  For every file name, the empty one included, the validator
    returns (no index or key is ever missing), writes one log line and
    touches no file; and it answers "no rename needed" exactly for the
    names of three or four segments whose first segment is a type of the
    catalog and whose second segment is a name of that very type. *)
Theorem is_rename_necessary_exact (filename : string) (w : World) :
  exists needed txt,
    is_rename_necessary filename w
    = (Ok needed, mkWorld (fs w) (trace w ++ [EvLog txt]))
    /\ (needed = false <-> catalog_valid filename).
Proof.
  destruct (is_rename_necessary_run filename w) as [txt Hrun].
  exists (negb (valid_name filename)), txt. split; [exact Hrun |].
  rewrite <- valid_name_catalog. apply negb_false_iff.
Qed.

Example cross_type_name_is_rejected :
  fst (is_rename_necessary "remus_sugar_2024-1-5-13-7-9-4.bag" (mkWorld [] []))
  = Ok true.
Proof. reflexivity. Qed.

(** ** The shape of the timestamp token *)

Lemma date_loop_chars vals i acc :
  all_chars is_digit_or_dash acc = true ->
  all_chars is_digit_or_dash (date_loop i vals acc) = true.
Proof.
  revert i acc. induction vals as [| v r IH]; intros i acc Hacc; [exact Hacc |].
  cbn [date_loop].
  assert (Hstep : all_chars is_digit_or_dash (acc ++ PyStr.of_Z v ++ "-") = true).
  { rewrite !all_chars_app, Hacc, of_Z_chars. reflexivity. }
  destruct (i =? 6)%nat; [exact Hstep | apply IH; exact Hstep].
Qed.

Lemma date_string_chars E t :
  all_chars is_digit_or_dash (date_string E t) = true.
Proof.
  unfold date_string. apply all_chars_rstrip. apply date_loop_chars. reflexivity.
Qed.

Lemma digit_or_dash_free (c : ascii) s :
  is_digit_or_dash c = false ->
  all_chars is_digit_or_dash s = true -> occurs c s = false.
Proof.
  intros Hc Hs. apply occurs_all_chars.
  apply (all_chars_weaken is_digit_or_dash); [| exact Hs].
  intros d Hd. apply negb_true_iff. apply Ascii.eqb_neq. intros ->. congruence.
Qed.

Lemma date_string_join E t :
  (0 <= tm_wday (localtime E t))%Z ->
  date_string E t
  = PyStr.join "-" (map PyStr.of_Z (printed_fields (localtime E t))).
Proof.
  intros Hwd. rewrite date_string_fields. cbv zeta.
  set (lt := localtime E t) in *.
  unfold printed_fields. cbn [map PyStr.join].
  set (J := PyStr.of_Z (tm_year lt) ++ "-" ++ PyStr.of_Z (tm_mon lt) ++ "-" ++
            PyStr.of_Z (tm_mday lt) ++ "-" ++ PyStr.of_Z (tm_hour lt) ++ "-" ++
            PyStr.of_Z (tm_min lt) ++ "-" ++ PyStr.of_Z (tm_sec lt) ++ "-" ++
            PyStr.of_Z (tm_wday lt)).
  replace (PyStr.of_Z (tm_year lt) ++ "-" ++ PyStr.of_Z (tm_mon lt) ++ "-" ++
           PyStr.of_Z (tm_mday lt) ++ "-" ++ PyStr.of_Z (tm_hour lt) ++ "-" ++
           PyStr.of_Z (tm_min lt) ++ "-" ++ PyStr.of_Z (tm_sec lt) ++ "-" ++
           PyStr.of_Z (tm_wday lt) ++ "-")
    with (J ++ "-").
  2:{ unfold J. rewrite !append_assoc. reflexivity. }
  rewrite (rstrip_with_snoc (Ascii.eqb "-") J "-" eq_refl).
  apply rstrip_with_id. intros c Hc.
  destruct (of_Z_nonneg_digits _ Hwd) as [Hne Hdig].
  unfold J in Hc.
  rewrite <- !append_assoc in Hc.
  rewrite last_char_app in Hc by exact Hne.
  pose proof (last_char_all _ _ _ Hdig Hc) as Hd.
  apply Ascii.eqb_neq. intros Heq. subst c. discriminate Hd.
Qed.

(** X2.  On a recording that holds a record, [identify_date] returns
    and changes nothing.  Its token is made of digits and dashes only,
    so it holds neither the separator of the file name nor a slash; and
    when the day of the week is not negative (it never is), the token is
    the seven fields year, month, day, hour, minute, second and day of
    the week of the local start time, in decimal without padding,
    joined by dashes. *)
Theorem identify_date_token (E : Env) (bag : Bag) (w : World) (f : BagFile)
    (m : Msg) (r : list Msg) :
  fs_lookup (filename bag) (fs w) = Some f ->
  msgs f = m :: r ->
  exists token,
    identify_date E bag w = (Ok token, w)
    /\ all_chars is_digit_or_dash token = true
    /\ occurs "_" token = false
    /\ occurs "/" token = false
    /\ ((0 <= tm_wday (localtime E (earliest m r)))%Z ->
        token = PyStr.join "-"
                  (map PyStr.of_Z
                     (printed_fields (localtime E (earliest m r))))).
Proof.
  intros Hf Hm. exists (date_string E (earliest m r)).
  split; [exact (identify_date_run E bag w f m r Hf Hm) |].
  pose proof (date_string_chars E (earliest m r)) as Hc.
  split; [exact Hc |].
  split; [apply digit_or_dash_free; [reflexivity | exact Hc] |].
  split; [apply digit_or_dash_free; [reflexivity | exact Hc] |].
  apply date_string_join.
Qed.

Lemma identify_date_token_witness :
  exists token,
    identify_date sample_env (mkBag remus_path "r") remus_world
    = (Ok token, remus_world)
    /\ occurs "_" token = false
    /\ token = "2024-1-5-13-7-9-4".
Proof.
  destruct (identify_date_token sample_env (mkBag remus_path "r") remus_world
              remus_rec
              (mkMsg "/status" "ros_remus/Status"
                 (StatusMsg true (1234567 # 1000000) 3) (mkTime 10 500000000))
              [mkMsg "/status" "ros_remus/Status"
                 (StatusMsg true (25 # 1000) 4) (mkTime 12 700000000)])
    as (token & Hrun & _ & Hus & _ & Hjoin).
  - reflexivity.
  - reflexivity.
  - exists token. split; [exact Hrun |]. split; [exact Hus |].
    apply Hjoin. vm_compute. discriminate.
Defined.

(** ** Splitting file names *)

Lemma split_nonempty sep s : PyStr.split sep s <> [].
Proof.
  destruct s as [| c r]; cbn [PyStr.split]; [discriminate |].
  destruct (Ascii.eqb c sep); [discriminate |].
  destruct (PyStr.split sep r); discriminate.
Qed.

Lemma split_none sep a : occurs sep a = false -> PyStr.split sep a = [a].
Proof.
  induction a as [| c a IH]; intros H; [reflexivity |].
  cbn [occurs] in H. apply orb_false_iff in H as [Hc Ha].
  cbn [PyStr.split]. rewrite Hc, (IH Ha). reflexivity.
Qed.

Lemma split_app sep a b :
  occurs sep a = false ->
  PyStr.split sep (a ++ String sep b) = a :: PyStr.split sep b.
Proof.
  induction a as [| c a IH]; intros H.
  - cbn [append PyStr.split]. rewrite Ascii.eqb_refl. reflexivity.
  - cbn [occurs] in H. apply orb_false_iff in H as [Hc Ha].
    cbn [append PyStr.split]. rewrite Hc, (IH Ha). reflexivity.
Qed.

(** ** What the source identifier can answer *)

Lemma type_of_name_cases c t :
  type_of_name c = Some t ->
  occurs "_" c = false /\
  exists signal names,
    dict_get t vehicle_info = Some (signal, names) /\ In c names /\
    occurs "_" t = false.
Proof.
  unfold type_of_name, vehicle_info. cbn [fold_left fst snd].
  destruct (str_mem c ["sugar"; "skipper"; "shrew"]) eqn:Hb.
  - intros H. injection H as <-. apply str_mem_In in Hb. split.
    + destruct Hb as [<- | [<- | [<- | []]]]; reflexivity.
    + do 2 eexists. split; [reflexivity |]. split; [exact Hb | reflexivity].
  - destruct (str_mem c ["shadow"; "casper"; "bullwinkle"]) eqn:Hr;
      [| discriminate].
    intros H. injection H as <-. apply str_mem_In in Hr. split.
    + destruct Hr as [<- | [<- | [<- | []]]]; reflexivity.
    + do 2 eexists. split; [reflexivity |]. split; [exact Hr | reflexivity].
Qed.

Lemma type_of_signal_cases tys t :
  type_of_signal tys = Some t -> t = "remus" \/ t = "buoy".
Proof.
  unfold type_of_signal, vehicle_info. cbn [fold_left fst snd].
  destruct (str_mem "ros_gwb/ScheduleStatus" tys);
    [intros H; injection H as <-; right; reflexivity |].
  destruct (str_mem "ros_remus/Status" tys);
    [intros H; injection H as <-; left; reflexivity | discriminate].
Qed.

(** The three shapes of an answer of [identify_source]. *)
Lemma identify_source_answer bag w source status w' :
  identify_source bag w = (Ok (source, status), w') ->
  (status = 1%Z /\
   exists c t, In c bag /\ type_of_name c = Some t /\ source = t ++ "_" ++ c)
  \/ (status = 2%Z /\
      exists t, (t = "remus" \/ t = "buoy") /\ source = t ++ "_unknownname")
  \/ (status = 0%Z /\ source = "unknowntype_unknownname").
Proof.
  unfold identify_source.
  rewrite (bind_ok _ _ _ _ _ (log_run _ w)).
  destruct (Exists_dec known_name bag known_name_dec) as [Hex | Hno].
  - apply Exists_exists in Hex.
    destruct (last_known_name bag Hex) as (pre & c & post & Hbag & Hk & Hpost).
    destruct (type_of_name c) as [t |] eqn:Ht;
      [| apply known_name_type in Hk; congruence].
    assert (Hs : scan_parts bag (None, 0%Z) = (Some (t ++ "_" ++ c), 1%Z))
      by (rewrite Hbag; apply scan_parts_last; assumption).
    rewrite Hs. mstep. cbn [Z.eqb]. mstep.
    intros H. injection H as <- <- _. left. split; [reflexivity |].
    exists c, t. split; [| split; [exact Ht | reflexivity]].
    rewrite Hbag. apply in_or_app. right. left. reflexivity.
  - assert (Hs : scan_parts bag (None, 0%Z) = (None, 0%Z)).
    { apply scan_parts_none. intros c Hc Hk. apply Hno.
      apply Exists_exists. exists c. split; assumption. }
    rewrite Hs. cbn [snd Z.eqb]. intros H.
    apply bind_inv_ok in H as (st & w1 & Hst & H).
    apply bind_inv_ok in Hst as (u & w2 & _ & Hst).
    apply bind_inv_ok in Hst as (b & w3 & _ & Hst).
    apply bind_inv_ok in Hst as (tys & w4 & _ & Hst).
    rewrite scan_types_spec in Hst.
    destruct (type_of_signal tys) as [t |] eqn:Ht; injection Hst as <- <-;
      revert H; mstep; intros H; injection H as <- <- _.
    + right; left. split; [reflexivity |]. exists t.
      split; [exact (type_of_signal_cases tys t Ht) | reflexivity].
    + right; right. split; reflexivity.
Qed.

(** ** The renamer and the validator agree *)

Lemma built_name_valid t c date :
  type_of_name c = Some t ->
  occurs "_" date = false ->
  valid_name ((t ++ "_" ++ c) ++ "_" ++ date ++ ".bag") = true.
Proof.
  intros Ht Hd.
  destruct (type_of_name_cases c t Ht) as (Hc & sg & names & Hget & Hin & Htu).
  unfold valid_name.
  assert (Hsplit : PyStr.split "_" ((t ++ "_" ++ c) ++ "_" ++ date ++ ".bag")
                   = [t; c; date ++ ".bag"]).
  { replace ((t ++ "_" ++ c) ++ "_" ++ date ++ ".bag")
      with (t ++ String "_" (c ++ String "_" (date ++ ".bag")))
      by (rewrite !append_assoc; reflexivity).
    rewrite split_app by exact Htu.
    rewrite split_app by exact Hc.
    rewrite split_none; [reflexivity |].
    rewrite occurs_app, Hd. reflexivity. }
  rewrite Hsplit. cbn [List.length nth_error Nat.ltb Nat.leb andb].
  rewrite Hget. apply str_mem_In. exact Hin.
Qed.

Lemma placeholder_name_invalid t rest :
  t = "remus" \/ t = "buoy" ->
  valid_name ((t ++ "_unknownname") ++ "_" ++ rest) = false.
Proof.
  intros Ht. unfold valid_name.
  assert (Hsplit : PyStr.split "_" ((t ++ "_unknownname") ++ "_" ++ rest)
                   = t :: "unknownname" :: PyStr.split "_" rest).
  { replace ((t ++ "_unknownname") ++ "_" ++ rest)
      with (t ++ String "_" ("unknownname" ++ String "_" rest))
      by (rewrite !append_assoc; reflexivity).
    rewrite split_app by (destruct Ht as [-> | ->]; reflexivity).
    rewrite split_app by reflexivity. reflexivity. }
  rewrite Hsplit. cbn [nth_error].
  destruct Ht as [-> | ->]; cbn [dict_get vehicle_info String.eqb Ascii.eqb
                                   Bool.eqb snd str_mem existsb];
    apply andb_false_r.
Qed.

Lemma unknown_name_invalid rest :
  valid_name ("unknowntype_unknownname" ++ "_" ++ rest) = false.
Proof.
  unfold valid_name.
  assert (Hsplit : PyStr.split "_" ("unknowntype_unknownname" ++ "_" ++ rest)
                   = "unknowntype" :: "unknownname" :: PyStr.split "_" rest).
  { change ("unknowntype_unknownname" ++ "_" ++ rest)
      with ("unknowntype" ++ String "_" ("unknownname" ++ String "_" rest)).
    rewrite split_app by reflexivity.
    rewrite split_app by reflexivity. reflexivity. }
  rewrite Hsplit. cbn [nth_error]. apply andb_false_r.
Qed.

Lemma identify_date_inv E b w date w' :
  identify_date E b w = (Ok date, w') -> exists t, date = date_string E t.
Proof.
  unfold identify_date. intros H.
  apply bind_inv_ok in H as (t & w1 & _ & H). injection H as <- _.
  exists t. reflexivity.
Qed.

Lemma standard_rename_valid_name_run E bag w :
  valid_name (name bag) = true ->
  exists w', standard_rename E bag w = (Ok (true, bag), w') /\ fs w' = fs w.
Proof.
  intros Hv. unfold standard_rename.
  mnext (log_run ("-Evaluating filename " ++ name bag) w).
  match goal with
  | |- context [bind (is_rename_necessary ?n) _ ?w0] =>
      destruct (is_rename_necessary_run n w0) as [txt Hval]
  end.
  mnext Hval. rewrite Hv. cbn [negb]. eexists. split; reflexivity.
Qed.

(** X3.  The verdict of [standard_rename] and the validator agree on the
    name the recording leaves with: it is declared eligible exactly when
    [is_rename_necessary] accepts its new name.  So an eligible
    recording always carries a name whose first two segments are a type
    and a name of the catalog, and running [standard_rename] on it again
    renames nothing; a recording named with a placeholder is rejected by
    the validator again. *)
Theorem standard_rename_verdict_is_validity (E : Env) (bag : path)
    (w : World) (to_upload : bool) (newpath : path) (w' : World) :
  standard_rename E bag w = (Ok (to_upload, newpath), w') ->
  (forall u, fst (is_rename_necessary (name newpath) u)
             = Ok (negb to_upload))
  /\ (to_upload = true ->
      exists w'',
        standard_rename E newpath w' = (Ok (true, newpath), w'')
        /\ fs w'' = fs w').
Proof.
  intros Hrun.
  assert (Hv : to_upload = valid_name (name newpath)).
  { unfold standard_rename in Hrun.
    rewrite (bind_ok _ _ _ _ _ (log_run _ w)) in Hrun.
    match type of Hrun with
    | context [bind (is_rename_necessary ?n) _ ?w0] =>
        destruct (is_rename_necessary_run n w0) as [txt Hval]
    end.
    rewrite (bind_ok _ _ _ _ _ Hval) in Hrun. cbv beta in Hrun.
    apply bind_inv_ok in Hrun as ([tu np] & w3 & Hbody & H).
    revert H. mstep. intros H. injection H as -> -> _.
    destruct (valid_name (name bag)) eqn:Hvalid; cbn [negb] in Hbody.
    - injection Hbody as <- <- _. symmetry. exact Hvalid.
    - apply bind_inv_ok in Hbody as ([source status] & w2 & Hsrc & Hbody).
      apply bind_inv_ok in Hbody as (b & w4 & _ & Hbody).
      apply bind_inv_ok in Hbody as (date & w5 & Hdate & Hbody).
      apply bind_inv_ok in Hbody as (tu & w6 & Hverdict & Hbody).
      apply bind_inv_ok in Hbody as (u & w7 & _ & Hbody).
      revert Hbody. mstep. intros Hbody. injection Hbody as <- <- _.
      unfold child. rewrite name_snoc.
      destruct (identify_date_inv E b w4 date w5 Hdate) as (t0 & ->).
      assert (Hus : occurs "_" (date_string E t0) = false)
        by (apply digit_or_dash_free; [reflexivity | apply date_string_chars]).
      destruct (identify_source_answer _ _ _ _ _ Hsrc)
        as [(-> & c & t & _ & Ht & ->)
           | [(-> & t & Ht & ->) | (-> & ->)]];
        revert Hverdict; cbn [Z.eqb]; mstep; intros Hv; injection Hv as <- _.
      + symmetry. apply built_name_valid; assumption.
      + symmetry. apply placeholder_name_invalid. exact Ht.
      + symmetry. apply unknown_name_invalid. }
  split.
  - intros u. destruct (is_rename_necessary_run (name newpath) u) as [txt Hr].
    rewrite Hr, <- Hv. reflexivity.
  - intros ->. apply standard_rename_valid_name_run. symmetry. exact Hv.
Qed.

Lemma standard_rename_verdict_is_validity_witness :
  exists w',
    standard_rename sample_env remus_path remus_world
    = (Ok (true, named_remus_path), w')
    /\ fst (is_rename_necessary (name named_remus_path) w') = Ok false
    /\ exists w'',
        standard_rename sample_env named_remus_path w'
        = (Ok (true, named_remus_path), w'')
        /\ fs w'' = fs w'.
Proof.
  exists (snd (standard_rename sample_env remus_path remus_world)).
  assert (Hrun : standard_rename sample_env remus_path remus_world
                 = (Ok (true, named_remus_path),
                    snd (standard_rename sample_env remus_path remus_world)))
    by (vm_compute; reflexivity).
  destruct (standard_rename_verdict_is_validity sample_env remus_path
              remus_world true named_remus_path _ Hrun) as [Hv Hagain].
  split; [exact Hrun |]. split; [exact (Hv _) |]. apply Hagain. reflexivity.
Defined.

Example placeholder_name_is_rejected_again :
  fst (standard_rename sample_env buoy_path buoy_world)
  = Ok (false, ["/"; "data"; "buoy_unknownname_2024-1-5-13-7-9-4.bag"])
  /\ fst (is_rename_necessary "buoy_unknownname_2024-1-5-13-7-9-4.bag"
            (mkWorld [] []))
     = Ok true.
Proof. split; vm_compute; reflexivity. Qed.

(** ** The file system *)

Lemma path_eqb_refl p : path_eqb p p = true.
Proof. unfold path_eqb. destruct (list_eq_dec string_dec p p); congruence. Qed.

Lemma path_eqb_neq p q : p <> q -> path_eqb p q = false.
Proof. unfold path_eqb. destruct (list_eq_dec string_dec p q); congruence. Qed.

Lemma path_eqb_eq p q : path_eqb p q = true -> p = q.
Proof. unfold path_eqb. destruct (list_eq_dec string_dec p q); congruence. Qed.

Lemma fs_lookup_app p (a b : FS) :
  fs_lookup p (a ++ b)%list
  = match fs_lookup p a with Some f => Some f | None => fs_lookup p b end.
Proof.
  induction a as [| [q g] a IH]; [reflexivity |].
  cbn [app fs_lookup]. destruct (path_eqb p q); [reflexivity | exact IH].
Qed.

Lemma fs_lookup_remove_same p (X : FS) : fs_lookup p (fs_remove p X) = None.
Proof.
  induction X as [| [q g] X IH]; [reflexivity |].
  unfold fs_remove in *. cbn [filter fst].
  destruct (path_eqb p q) eqn:Hpq; cbn [negb]; [exact IH |].
  cbn [fs_lookup]. rewrite Hpq. exact IH.
Qed.

Lemma fs_lookup_remove_other p q (X : FS) :
  q <> p -> fs_lookup q (fs_remove p X) = fs_lookup q X.
Proof.
  intros Hne. induction X as [| [r g] X IH]; [reflexivity |].
  unfold fs_remove in *. cbn [filter fst fs_lookup].
  destruct (path_eqb p r) eqn:Hpr; cbn [negb].
  - apply path_eqb_eq in Hpr. subst r.
    rewrite (path_eqb_neq q p Hne). exact IH.
  - cbn [fs_lookup]. destruct (path_eqb q r); [reflexivity | exact IH].
Qed.

(** Looking a path up after a rename. *)
Lemma fs_lookup_renamed q src dst f (X : FS) :
  fs_lookup q (fs_remove dst (fs_remove src X) ++ [(dst, f)])%list
  = if path_eqb q dst then Some f
    else if path_eqb q src then None
    else fs_lookup q X.
Proof.
  rewrite fs_lookup_app. cbn [fs_lookup].
  destruct (path_eqb q dst) eqn:Hd.
  - apply path_eqb_eq in Hd. subst q. rewrite fs_lookup_remove_same. reflexivity.
  - assert (Hqd : q <> dst) by (intros ->; rewrite path_eqb_refl in Hd; discriminate).
    rewrite (fs_lookup_remove_other dst q _ Hqd).
    destruct (path_eqb q src) eqn:Hs.
    + apply path_eqb_eq in Hs. subst q. rewrite fs_lookup_remove_same. reflexivity.
    + assert (Hqs : q <> src) by (intros ->; rewrite path_eqb_refl in Hs; discriminate).
      rewrite (fs_lookup_remove_other src q _ Hqs).
      destruct (fs_lookup q X); reflexivity.
Qed.

Lemma fs_lookup_update p q g (X : FS) :
  fs_lookup q (fs_update p g X)
  = if path_eqb q p then
      match fs_lookup p X with Some _ => Some g | None => None end
    else fs_lookup q X.
Proof.
  induction X as [| [r h] X IH].
  - cbn. destruct (path_eqb q p); reflexivity.
  - cbn [fs_update fs_lookup].
    destruct (path_eqb p r) eqn:Hpr.
    + apply path_eqb_eq in Hpr. subst r. cbn [fs_lookup].
      destruct (path_eqb q p); reflexivity.
    + cbn [fs_lookup]. destruct (path_eqb q r) eqn:Hqr.
      * apply path_eqb_eq in Hqr. subst r.
        destruct (path_eqb q p) eqn:Hqp; [| reflexivity].
        apply path_eqb_eq in Hqp. subst q. rewrite path_eqb_refl in Hpr.
        discriminate.
      * exact IH.
Qed.

Lemma path_rename_inv E src dst w w' :
  path_rename E src dst w = (Ok tt, w') ->
  exists f,
    fs_lookup src (fs w) = Some f
    /\ fs w' = (fs_remove dst (fs_remove src (fs w)) ++ [(dst, f)])%list
    /\ trace w' = (trace w ++ [EvRename src dst])%list.
Proof.
  unfold path_rename. destruct (rename_fault E src dst); [discriminate |].
  mstep. destruct (fs_lookup src (fs w)) as [f |]; [| discriminate].
  intros H. injection H as <-. exists f. repeat split.
Qed.

(** ** Computations that leave the files alone *)

Lemma keeps_fs_quiet {A} (m : M A) : quiet m -> keeps_fs m.
Proof. intros Hq w r w' H. exact (proj1 (Hq w r w' H)). Qed.

Lemma keeps_fs_bind {A B} (m : M A) (f : A -> M B) :
  keeps_fs m -> (forall a, keeps_fs (f a)) -> keeps_fs (bind m f).
Proof.
  intros Hm Hf w r w'. unfold bind.
  destruct (m w) as [[a | e] w1] eqn:Hrun; intros H.
  - rewrite (Hf a _ _ _ H). exact (Hm _ _ _ Hrun).
  - injection H as _ <-. exact (Hm _ _ _ Hrun).
Qed.

Lemma keeps_fs_emit ev : keeps_fs (emit ev).
Proof. intros w r w' H. injection H as _ <-. reflexivity. Qed.

Lemma keeps_fs_Bag_open_read p : keeps_fs (Bag_open p "r").
Proof.
  intros w r w'. unfold Bag_open. mstep.
  destruct (fs_lookup p (fs w)) as [f |].
  - destruct (readable f); intros H; injection H as _ <-; reflexivity.
  - cbn. intros H; injection H as _ <-; reflexivity.
Qed.

Lemma keeps_fs_get_msg_types b : keeps_fs (get_msg_types b).
Proof.
  apply keeps_fs_quiet. unfold get_msg_types.
  apply quiet_bind; [apply quiet_bag_file | intros f; apply quiet_ret].
Qed.

Lemma keeps_fs_identify_source bag : keeps_fs (identify_source bag).
Proof.
  unfold identify_source.
  apply keeps_fs_bind; [apply keeps_fs_quiet, quiet_log | intros _].
  apply keeps_fs_bind.
  - destruct (snd (scan_parts bag (None, 0%Z)) =? 0)%Z.
    + apply keeps_fs_bind; [apply keeps_fs_quiet, quiet_log | intros _].
      apply keeps_fs_bind; [apply keeps_fs_Bag_open_read | intros b].
      apply keeps_fs_bind; [apply keeps_fs_get_msg_types | intros tys].
      apply keeps_fs_quiet, quiet_ret.
    + apply keeps_fs_quiet, quiet_ret.
  - intros st. apply keeps_fs_bind.
    + destruct (snd st =? 0)%Z.
      * apply keeps_fs_quiet. apply quiet_bind; [apply quiet_log |].
        intros _. apply quiet_ret.
      * apply keeps_fs_quiet, quiet_ret.
    + intros st'. destruct (fst st');
        [apply keeps_fs_quiet, quiet_ret | apply keeps_fs_quiet, quiet_raise].
Qed.

(** X4.  What renaming does to the files.  When [standard_rename]
    returns, the recording is found under the path it returns, with the
    content it had and in the directory it was in; if the path changed,
    nothing is left under the old one; and every file under a third path
    is what it was.  (A file that already had the new name is replaced.) *)
Theorem standard_rename_keeps_content (E : Env) (bag : path) (w : World)
    (to_upload : bool) (newpath : path) (w' : World) (f : BagFile) :
  standard_rename E bag w = (Ok (to_upload, newpath), w') ->
  fs_lookup bag (fs w) = Some f ->
  fs_lookup newpath (fs w') = Some f
  /\ parent newpath = parent bag
  /\ (newpath <> bag -> fs_lookup bag (fs w') = None)
  /\ (forall q, q <> bag -> q <> newpath ->
                fs_lookup q (fs w') = fs_lookup q (fs w)).
Proof.
  intros Hrun Hf. unfold standard_rename in Hrun.
  rewrite (bind_ok _ _ _ _ _ (log_run _ w)) in Hrun.
  match type of Hrun with
  | context [bind (is_rename_necessary ?n) _ ?w0] =>
      destruct (is_rename_necessary_run n w0) as [txt Hval]
  end.
  rewrite (bind_ok _ _ _ _ _ Hval) in Hrun. cbv beta in Hrun.
  cbn [fs trace] in Hrun.
  apply bind_inv_ok in Hrun as ([tu np] & w3 & Hbody & H).
  revert H. mstep. intros H. injection H as -> -> <-. cbn [fs].
  destruct (negb (valid_name (name bag))).
  - apply bind_inv_ok in Hbody as ([source status] & w2 & Hsrc & Hbody).
    pose proof (keeps_fs_identify_source _ _ _ _ Hsrc) as F2. cbn [fs] in F2.
    apply bind_inv_ok in Hbody as (b & w4 & Hopen & Hbody).
    pose proof (keeps_fs_Bag_open_read _ _ _ _ Hopen) as F4.
    apply bind_inv_ok in Hbody as (date & w5 & Hdate & Hbody).
    pose proof (keeps_fs_quiet _ (quiet_identify_date E b) _ _ _ Hdate) as F5.
    apply bind_inv_ok in Hbody as (tu & w6 & Hverdict & Hbody).
    assert (F6 : fs w6 = fs w5).
    { revert Hverdict.
      destruct (status =? 0)%Z; [| destruct (status =? 1)%Z;
                                    [| destruct (status =? 2)%Z]];
        mstep; intros Hv; injection Hv as _ <-; reflexivity. }
    apply bind_inv_ok in Hbody as ([] & w7 & Hren & Hbody).
    revert Hbody. mstep. intros Hbody. injection Hbody as <- <- <-.
    destruct (path_rename_inv _ _ _ _ _ Hren) as (g & Hg & F7 & _).
    assert (Heq : fs w6 = fs w) by congruence.
    rewrite Heq in Hg, F7. rewrite Hf in Hg. injection Hg as <-.
    rewrite F7. split; [| split; [| split]].
    + rewrite fs_lookup_renamed, path_eqb_refl. reflexivity.
    + unfold child, parent. apply removelast_last.
    + intros Hne. rewrite fs_lookup_renamed.
      match goal with
      | |- context [path_eqb bag ?d] =>
          destruct (path_eqb bag d) eqn:Hd;
            [apply path_eqb_eq in Hd; symmetry in Hd; contradiction |]
      end.
      rewrite path_eqb_refl. reflexivity.
    + intros q Hqb Hqn. rewrite fs_lookup_renamed.
      match goal with
      | |- context [path_eqb q ?d] =>
          destruct (path_eqb q d) eqn:Hd;
            [apply path_eqb_eq in Hd; contradiction |]
      end.
      rewrite (path_eqb_neq q _ Hqb). reflexivity.
  - injection Hbody as <- <- <-. cbn [fs].
    split; [exact Hf |]. split; [reflexivity |].
    split; [congruence |]. reflexivity.
Qed.

Lemma standard_rename_keeps_content_witness :
  exists w',
    standard_rename sample_env remus_path remus_world
    = (Ok (true, named_remus_path), w')
    /\ fs_lookup named_remus_path (fs w') = Some remus_rec
    /\ parent named_remus_path = parent remus_path
    /\ fs_lookup remus_path (fs w') = None.
Proof.
  exists (snd (standard_rename sample_env remus_path remus_world)).
  assert (Hrun : standard_rename sample_env remus_path remus_world
                 = (Ok (true, named_remus_path),
                    snd (standard_rename sample_env remus_path remus_world)))
    by (vm_compute; reflexivity).
  destruct (standard_rename_keeps_content sample_env remus_path remus_world
              true named_remus_path _ remus_rec Hrun eq_refl)
    as (H1 & H2 & H3 & _).
  split; [exact Hrun |]. split; [exact H1 |]. split; [exact H2 |].
  apply H3. discriminate.
Defined.

(** ** The source identifier and the recording *)

(** X5.  [identify_source] reads the recording only when the path does
    not settle the matter.  With a known vehicle name among the parts of
    the path it logs one line and never opens the recording, which may
    then be missing or unreadable.  Without one it opens the recording:
    a missing file raises [OSError], an unreadable one
    [ROSBagException], and a readable one is opened for reading and
    left as it was. *)
Theorem identify_source_reads_when_needed (bag : path) (w : World) :
  ((exists c, In c bag /\ known_name c) ->
   exists source txt,
     identify_source bag w
     = (Ok (source, 1%Z), mkWorld (fs w) (trace w ++ [EvLog txt])))
  /\
  ((forall c, In c bag -> ~ known_name c) ->
   (fs_lookup bag (fs w) = None ->
    fst (identify_source bag w) = Raise OSError)
   /\ (forall f, fs_lookup bag (fs w) = Some f -> readable f = false ->
                 fst (identify_source bag w) = Raise ROSBagException)
   /\ (forall f, fs_lookup bag (fs w) = Some f -> readable f = true ->
                 In (EvOpen bag "r") (trace (snd (identify_source bag w)))
                 /\ fs (snd (identify_source bag w)) = fs w)).
Proof.
  split.
  - intros Hex.
    destruct (last_known_name bag Hex) as (pre & c & post & Hbag & Hk & Hpost).
    destruct (type_of_name c) as [t |] eqn:Ht;
      [| apply known_name_type in Hk; congruence].
    do 2 eexists.
    exact (identify_source_by_directory bag w pre c post t Hbag Ht Hpost).
  - intros Hno.
    assert (Hs : scan_parts bag (None, 0%Z) = (None, 0%Z))
      by (apply scan_parts_none; exact Hno).
    split; [| split].
    + intros Hf. unfold identify_source, Bag_open. rewrite Hs. mstep.
      cbn [Z.eqb]. mstep. rewrite Hf. reflexivity.
    + intros f Hf Hr. unfold identify_source, Bag_open. rewrite Hs. mstep.
      cbn [Z.eqb]. mstep. rewrite Hf, Hr. reflexivity.
    + intros f Hf Hr. split.
      * unfold identify_source, Bag_open, get_msg_types, bag_file.
        rewrite Hs. mstep. cbn [Z.eqb]. mstep. rewrite Hf, Hr. mstep.
        rewrite Hf. rewrite scan_types_spec.
        destruct (type_of_signal (map msg_type (msgs f))); cbn [snd Z.eqb fst];
          cbn [fst snd trace];
          first [ solve [apply in_or_app; right; left; reflexivity]
                | solve [apply in_or_app; left; apply in_or_app; right; left;
                         reflexivity] ].
      * destruct (identify_source bag w) as [r w'] eqn:Hrun.
        exact (keeps_fs_identify_source bag w r w' Hrun).
Qed.

Lemma identify_source_reads_when_needed_witness :
  (exists source txt,
      identify_source remus_path (mkWorld [] [])
      = (Ok (source, 1%Z), mkWorld [] ([] ++ [EvLog txt])))
  /\ fst (identify_source buoy_path (mkWorld [] [])) = Raise OSError
  /\ fst (identify_source broken_path broken_world) = Raise ROSBagException
  /\ In (EvOpen buoy_path "r") (trace (snd (identify_source buoy_path buoy_world))).
Proof.
  assert (Hno : forall n c, In c ["/"; "data"; n] ->
                            type_of_name n = None -> ~ known_name c).
  { intros n c [<- | [<- | [<- | []]]] Hn Hk;
      apply known_name_type in Hk; apply Hk;
      [reflexivity | reflexivity | exact Hn]. }
  split; [| split; [| split]].
  - apply (proj1 (identify_source_reads_when_needed remus_path (mkWorld [] []))).
    exists "shadow". split; [simpl; auto |].
    apply known_name_type. discriminate.
  - apply (proj2 (identify_source_reads_when_needed buoy_path (mkWorld [] []))).
    + intros c Hc. apply (Hno "rec2.bag" c Hc). reflexivity.
    + reflexivity.
  - apply (proj1 (proj2 (proj2 (identify_source_reads_when_needed broken_path
                                  broken_world)
                           (fun c Hc => Hno "rec0.bag" c Hc eq_refl)))
             (mkBagFile false [])); reflexivity.
  - apply (proj2 (proj2 (proj2 (identify_source_reads_when_needed buoy_path
                                  buoy_world)
                           (fun c Hc => Hno "rec2.bag" c Hc eq_refl)))
             buoy_rec); reflexivity.
Defined.

(** ** More on the tag generator *)




(** X6.  The tags of a recording that is not a remus.  For a recording
    with a record, whose file name has at least two segments and whose
    first segment is not ["remus"], [generate_tags] returns exactly four
    tags, in this order: the first segment under ["vehicle"], the second
    under ["name"], the timestamp token under ["date/time"] and its
    first four characters under ["year"].  A buoy adds nothing, and
    neither does a type the code does not know. *)
Theorem generate_tags_universal (E : Env) (bag : Bag) (w : World)
    (dirs : list string) (nm vehicle vname : string) (rest : list string)
    (f : BagFile) (m : Msg) (r : list Msg) :
  filename bag = "/" :: dirs ++ [nm] ->
  occurs "/" nm = false ->
  PyStr.split "_" nm = vehicle :: vname :: rest ->
  fs_lookup (filename bag) (fs w) = Some f ->
  msgs f = m :: r ->
  vehicle <> "remus" ->
  fst (generate_tags E bag w)
  = Ok [ ("vehicle", PStr vehicle); ("name", PStr vname);
         ("date/time", PStr (date_string E (earliest m r)));
         ("year", PStr (PyStr.slice 0 4 (date_string E (earliest m r)))) ].
Proof.
  intros Hp Hs Hsplit Hf Hm Hne.
  destruct (generate_tags_run E bag w dirs nm vehicle vname rest f m r
              Hp Hs Hsplit Hf Hm) as [Hrun _].
  rewrite (Hrun Hne). reflexivity.
Qed.

Lemma generate_tags_universal_witness :
  fst (generate_tags sample_env (mkBag short_path "a") short_world)
  = Ok [ ("vehicle", PStr "buoy"); ("name", PStr "sugar");
         ("date/time", PStr "2024-1-5-13-7-9-4"); ("year", PStr "2024") ].
Proof.
  apply (generate_tags_universal sample_env (mkBag short_path "a") short_world
           ["data"] "buoy_sugar_2024-1-5-13-7-9-4.bag" "buoy" "sugar"
           ["2024-1-5-13-7-9-4.bag"] short_rec
           (mkMsg "/schedule" "ros_gwb/ScheduleStatus" OtherMsg
              (mkTime 10 500000000)) []);
    try reflexivity.
  discriminate.
Defined.







(** X8.  [generate_tags] only reads.  Whether it returns tags or
    raises, the files are what they were and the trace has grown by log
    lines alone: no record is written, nothing is opened, closed,
    renamed or sent. *)
Theorem generate_tags_only_reads (E : Env) (bag : Bag) (w : World) :
  fs (snd (generate_tags E bag w)) = fs w
  /\ exists logs,
      trace (snd (generate_tags E bag w)) = (trace w ++ logs)%list
      /\ Forall is_log logs.
Proof.
  destruct (generate_tags E bag w) as [r w'] eqn:Hrun.
  exact (quiet_generate_tags E bag w r w' Hrun).
Qed.

(** The loop over the samples stops at the first message that is not a
    status sample. *)
Lemma collect_samples_raises samples dl mm w :
  ~ Forall is_status samples ->
  fst (for_each samples (dl, mm)
         (fun m (acc : list Q * list Z) =>
            d <- msg_depth m ;;
            k <- msg_mission_mode m ;;
            ret ((fst acc ++ [py_round2 d])%list, (snd acc ++ [k])%list)) w)
  = Raise AttributeError.
Proof.
  revert dl mm. induction samples as [| m r IH]; intros dl mm Hno.
  - exfalso. apply Hno. constructor.
  - cbn [for_each]. unfold msg_depth at 1, msg_mission_mode at 1.
    destruct (body m) as [i d k | s |] eqn:Hb; try reflexivity.
    mstep. apply IH. intros Hall. apply Hno. constructor; [| exact Hall].
    exists i, d, k. exact Hb.
Qed.

(** X9.  When [generate_tags] raises.  A file name without ["_"] has no
    second segment: [IndexError].  A recording without any record has
    no start time: [ROSBagException].  A remus whose status channel
    carries a message that is not a status sample: [AttributeError]. *)
Theorem generate_tags_errors (E : Env) (bag : Bag) (w : World)
    (dirs : list string) (nm : string) :
  filename bag = "/" :: dirs ++ [nm] ->
  occurs "/" nm = false ->
  (occurs "_" nm = false -> fst (generate_tags E bag w) = Raise IndexError)
  /\
  (forall f vehicle vname rest,
      PyStr.split "_" nm = vehicle :: vname :: rest ->
      fs_lookup (filename bag) (fs w) = Some f ->
      (msgs f = [] -> fst (generate_tags E bag w) = Raise ROSBagException)
      /\ (vehicle = "remus" -> ~ Forall is_status (status_samples f) ->
          fst (generate_tags E bag w) = Raise AttributeError)).
Proof.
  intros Hp Hs.
  set (w' := snd (log ("-Attempting to tag " ++ nm) w)).
  assert (Hlog : log ("-Attempting to tag " ++ nm) w = (Ok tt, w'))
    by reflexivity.
  assert (Hname : index (PyStr.rsplit1 "/" (path_str (filename bag))) 1 w
                  = (Ok nm, w)).
  { unfold index. rewrite Hp, (bagname_of_path dirs nm Hs). reflexivity. }
  split.
  - intros Hus. unfold generate_tags. mnext Hname. mnext Hlog.
    rewrite (split_none "_" nm Hus). reflexivity.
  - intros f vehicle vname rest Hsplit Hf.
    assert (Hf' : fs_lookup (filename bag) (fs w') = Some f) by exact Hf.
    split.
    + intros Hm. unfold generate_tags. mnext Hname. mnext Hlog.
      rewrite Hsplit. mnext_refl. mnext_refl.
      unfold identify_date, get_start_time.
      rewrite bind_assoc. rewrite bind_assoc.
      mnext (bag_file_run bag w' f Hf'). rewrite Hm. reflexivity.
    + intros -> Hbad.
      destruct (msgs f) as [| m r] eqn:Hm.
      { exfalso. apply Hbad. unfold status_samples. rewrite Hm. constructor. }
      unfold generate_tags. mnext Hname. mnext Hlog.
      rewrite Hsplit. mnext_refl. mnext_refl.
      mnext (identify_date_run E bag w' f m r Hf' Hm).
      mnext_refl. mnext_refl. mnext_refl.
      cbn [py_eq_str]. rewrite String.eqb_refl.
      mnext (read_messages_run bag w' f "/status" Hf').
      fold (status_samples f).
      destruct (status_samples f) as [| s0 ss] eqn:Hsamp.
      { exfalso. apply Hbad. constructor. }
      unfold msg_in_mission at 1.
      destruct (body s0) as [i0 d0 k0 | s |] eqn:Hb0; try reflexivity.
      mnext_refl.
      mnext (read_messages_run bag w' f "/status" Hf').
      fold (status_samples f). rewrite Hsamp.
      match goal with
      | |- context [for_each ?l ?a ?b] =>
          pose proof (collect_samples_raises l [] [] w' Hbad) as Hloop;
          destruct (for_each l a b w') as [[x | e] wx] eqn:Hfe
      end.
      * discriminate Hloop.
      * cbn [fst] in Hloop. injection Hloop as ->.
        rewrite (bind_raise _ _ _ _ _ Hfe). reflexivity.
Qed.

Lemma generate_tags_errors_witness :
  fst (generate_tags sample_env (mkBag ["/"; "data"; "rec2.bag"] "a")
         buoy_world) = Raise IndexError
  /\ fst (generate_tags sample_env (mkBag broken_path "a")
            (mkWorld [(broken_path, mkBagFile true [])] []))
     = Raise IndexError
  /\ fst (generate_tags sample_env (mkBag hollow_path "a")
            (mkWorld [(hollow_path, mkBagFile true [])] []))
     = Raise ROSBagException
  /\ fst (generate_tags sample_env (mkBag hollow_path "a")
            (mkWorld
               [(hollow_path,
                 mkBagFile true
                   [mkMsg "/status" "std_msgs/String" (StringMsg "up")
                      (mkTime 3 0)])] []))
     = Raise AttributeError.
Proof.
  split; [| split; [| split]].
  - apply (proj1 (generate_tags_errors sample_env
                    (mkBag ["/"; "data"; "rec2.bag"] "a") buoy_world
                    ["data"] "rec2.bag" eq_refl eq_refl)).
    reflexivity.
  - apply (proj1 (generate_tags_errors sample_env (mkBag broken_path "a")
                    (mkWorld [(broken_path, mkBagFile true [])] [])
                    ["data"] "rec0.bag" eq_refl eq_refl)).
    reflexivity.
  - apply (proj1 (proj2 (generate_tags_errors sample_env
                           (mkBag hollow_path "a")
                           (mkWorld [(hollow_path, mkBagFile true [])] [])
                           ["data"] "remus_shadow_2024-1-5-13-7-9-4.bag"
                           eq_refl eq_refl)
                    (mkBagFile true []) "remus" "shadow"
                    ["2024-1-5-13-7-9-4.bag"] eq_refl eq_refl)).
    reflexivity.
  - apply (proj2 (proj2 (generate_tags_errors sample_env
                           (mkBag hollow_path "a")
                           (mkWorld
                              [(hollow_path,
                                mkBagFile true
                                  [mkMsg "/status" "std_msgs/String"
                                     (StringMsg "up") (mkTime 3 0)])] [])
                           ["data"] "remus_shadow_2024-1-5-13-7-9-4.bag"
                           eq_refl eq_refl)
                    _ "remus" "shadow"
                    ["2024-1-5-13-7-9-4.bag"] eq_refl eq_refl)).
    + reflexivity.
    + intros H. inversion H as [| ? ? (i & d & k & Hb) _]. discriminate Hb.
Defined.


(** ** More on the tag publisher *)

Lemma to_sec_whole z : (to_sec (mkTime z 0) == inject_Z z)%Q.
Proof. unfold to_sec. cbn [secs nsecs]. field. Qed.

(** What [get_end_time] gives is the end of a recording that holds a
    record. *)
Lemma get_end_time_inv bag w f e :
  fs_lookup (filename bag) (fs w) = Some f ->
  fst (get_end_time bag w) = Ok e ->
  exists m r, msgs f = m :: r /\ e = latest m r.
Proof.
  intros Hf He. destruct (msgs f) as [| m r] eqn:Hm.
  - exfalso. revert He. unfold get_end_time.
    rewrite (bind_ok _ _ _ _ _ (bag_file_run bag w f Hf)), Hm.
    discriminate.
  - rewrite (get_end_time_run bag w f m r Hf Hm) in He.
    injection He as <-. exists m, r. split; reflexivity.
Qed.

(** X10.  What [tag_this_bag] writes.  On a recording for which
    [get_end_time] gives an end time that is not negative, and whose
    medium takes the write, it returns and leaves the recording with its
    old records, in order, followed by one new record: on ["/metadata"],
    of type [std_msgs/String], whose text is the [key:value] lines of
    the tags in the order of the dictionary, separated by line feeds,
    trailing white space removed; its time is the whole seconds of the
    end time [get_end_time] gave, with no nanoseconds, so it is not
    after that end time and less than a second before it.  No other
    file changes. *)
Theorem tag_this_bag_appends_one_record (E : Env) (bag : Bag)
    (tags : dict pyval) (w : World) (f : BagFile) (e : Q) :
  fs_lookup (filename bag) (fs w) = Some f ->
  fst (get_end_time bag w) = Ok e ->
  write_fault E (filename bag) = None ->
  (0 <= Qfloor e)%Z ->
  exists w' record,
    tag_this_bag E bag tags w = (Ok tt, w')
    /\ fs_lookup (filename bag) (fs w')
       = Some (mkBagFile (readable f) (msgs f ++ [record])%list)
    /\ topic record = "/metadata"
    /\ msg_type record = "std_msgs/String"
    /\ body record
       = StringMsg (PyStr.rstrip (PyStr.join LF (map (tag_line E) tags)))
    /\ stamp record = mkTime (Qfloor e) 0
    /\ (to_sec (stamp record) <= e)%Q
    /\ (e - 1 < to_sec (stamp record))%Q
    /\ (forall q, q <> filename bag ->
                  fs_lookup q (fs w') = fs_lookup q (fs w)).
Proof.
  intros Hf He Hw Hpos.
  destruct (get_end_time_inv bag w f e Hf He) as (m & r & Hm & ->).
  destruct (tag_this_bag_run E bag tags w f m r Hf Hm Hw Hpos)
    as (w' & Hrun & Hfs & _).
  exists w', (metadata_record E tags (latest m r)).
  split; [exact Hrun |]. rewrite Hfs. split.
  - rewrite fs_lookup_update, path_eqb_refl, Hf. reflexivity.
  - split; [reflexivity |]. split; [reflexivity |]. split.
    + unfold metadata_record. cbn [body]. rewrite metadata_text. reflexivity.
    + split; [reflexivity |].
      unfold metadata_record. cbn [stamp]. rewrite to_sec_whole.
      pose proof (Qfloor_le (latest m r)) as Hlo.
      pose proof (Qlt_floor (latest m r)) as Hhi.
      rewrite inject_Z_plus in Hhi. change (inject_Z 1) with 1%Q in Hhi.
      split; [exact Hlo |]. split; [lra |]. intros q Hq.
      rewrite fs_lookup_update, (path_eqb_neq q _ Hq). reflexivity.
Qed.

Lemma tag_this_bag_appends_one_record_witness :
  exists w' record,
    tag_this_bag sample_env (mkBag short_path "a") short_tags short_world
    = (Ok tt, w')
    /\ fs_lookup short_path (fs w')
       = Some (mkBagFile true (msgs short_rec ++ [record])%list)
    /\ topic record = "/metadata"
    /\ body record = StringMsg ("vehicle:buoy" ++ LF ++ "name:sugar")
    /\ stamp record = mkTime 10 0.
Proof.
  destruct (tag_this_bag_appends_one_record sample_env (mkBag short_path "a")
              short_tags short_world short_rec (to_sec (mkTime 10 500000000)))
    as (w' & record & Hrun & Hfs & Htopic & _ & Hbody & Hstamp & _).
  - reflexivity.
  - reflexivity.
  - reflexivity.
  - vm_compute. discriminate.
  - exists w', record. split; [exact Hrun |]. split; [exact Hfs |].
    split; [exact Htopic |]. split; [exact Hbody | exact Hstamp].
Defined.

(** X12.  Publishing fails whole.  Whenever [tag_this_bag] raises, no
    record has been written: the files are what they were and the trace
    has grown by log lines alone.  It raises when the recording holds
    no record, and when the medium refuses the write. *)
Theorem tag_this_bag_fails_whole (E : Env) (bag : Bag) (tags : dict pyval)
    (w : World) :
  (forall e w',
      tag_this_bag E bag tags w = (Raise e, w') ->
      fs w' = fs w
      /\ exists logs, trace w' = (trace w ++ logs)%list /\ Forall is_log logs)
  /\
  (forall f,
      fs_lookup (filename bag) (fs w) = Some f -> msgs f = [] ->
      fst (tag_this_bag E bag tags w) = Raise ROSBagException)
  /\
  (forall f m r e,
      fs_lookup (filename bag) (fs w) = Some f -> msgs f = m :: r ->
      (0 <= Qfloor (latest m r))%Z ->
      write_fault E (filename bag) = Some e ->
      fst (tag_this_bag E bag tags w) = Raise e).
Proof.
  split; [| split].
  - intros e w' H. exact (quiet_on_raise_tag_this_bag E bag tags w e w' H).
  - intros f Hf Hm. unfold tag_this_bag.
    match goal with |- context [log ?t] => set (l1 := t) end.
    assert (Hlog : log l1 w = (Ok tt, snd (log l1 w))) by reflexivity.
    mnext Hlog. unfold get_end_time. rewrite bind_assoc.
    erewrite bind_ok; [| apply (bag_file_run bag _ f); exact Hf].
    cbv beta. rewrite Hm. reflexivity.
  - intros f m r e Hf Hm Hpos Hfault. unfold tag_this_bag.
    match goal with |- context [log ?t] => set (l1 := t) end.
    set (w1 := snd (log l1 w)).
    assert (Hlog : log l1 w = (Ok tt, w1)) by reflexivity.
    assert (Hf1 : fs_lookup (filename bag) (fs w1) = Some f) by exact Hf.
    mnext Hlog.
    mnext (get_end_time_run bag w1 f m r Hf1 Hm).
    unfold divmod1. cbv beta iota.
    mnext (metadata_time (latest m r) Hpos w1).
    unfold Bag_write. rewrite Hfault. reflexivity.
Qed.

Lemma tag_this_bag_fails_whole_witness :
  exists w',
    tag_this_bag readonly_env (mkBag short_path "a") short_tags short_world
    = (Raise OSError, w')
    /\ fs w' = fs short_world
    /\ exists logs,
        trace w' = (trace short_world ++ logs)%list /\ Forall is_log logs.
Proof.
  exists (snd (tag_this_bag readonly_env (mkBag short_path "a") short_tags
                 short_world)).
  assert (Hrun : tag_this_bag readonly_env (mkBag short_path "a") short_tags
                   short_world
                 = (Raise OSError,
                    snd (tag_this_bag readonly_env (mkBag short_path "a")
                           short_tags short_world)))
    by (vm_compute; reflexivity).
  split; [exact Hrun |].
  exact (proj1 (tag_this_bag_fails_whole readonly_env (mkBag short_path "a")
                  short_tags short_world) OSError _ Hrun).
Defined.

(** ** More on the upload and the driver *)

Lemma prep_and_post_world E filepath csrf w f :
  fs_lookup filepath (fs w) = Some f ->
  snd (prep_and_post E filepath csrf w)
  = mkWorld (fs w) (trace w ++ [EvPost filepath csrf]).
Proof.
  intros Hf. unfold prep_and_post. mstep. rewrite Hf. mstep.
  destruct (http_post E (name filepath) csrf); reflexivity.
Qed.

(** X13.  [prep_and_post].  A file that is not there raises [OSError]
    before anything is sent.  Otherwise one request is sent and no file
    changes; an exception of the transport is passed on; and the status
    comes back as decimal text, which is ["200"] for the status 200 and
    for no other. *)
Theorem prep_and_post_behaviour (E : Env) (filepath : path)
    (csrf : option string) (w : World) :
  (fs_lookup filepath (fs w) = None ->
   prep_and_post E filepath csrf w = (Raise OSError, w))
  /\
  (forall f,
      fs_lookup filepath (fs w) = Some f ->
      snd (prep_and_post E filepath csrf w)
      = mkWorld (fs w) (trace w ++ [EvPost filepath csrf])
      /\ (forall code,
             http_post E (name filepath) csrf = Ok code ->
             fst (prep_and_post E filepath csrf w) = Ok (PyStr.of_Z code)
             /\ (PyStr.of_Z code = "200" <-> code = 200%Z))
      /\ (forall e,
             http_post E (name filepath) csrf = Raise e ->
             fst (prep_and_post E filepath csrf w) = Raise e)).
Proof.
  split.
  - intros Hf. unfold prep_and_post. mstep. rewrite Hf. reflexivity.
  - intros f Hf. unfold prep_and_post. mstep. rewrite Hf. mstep.
    split; [| split].
    + destruct (http_post E (name filepath) csrf); reflexivity.
    + intros code ->. split; [reflexivity |]. split.
      * intros H. apply of_Z_inj. rewrite H. reflexivity.
      * intros ->. reflexivity.
    + intros e ->. reflexivity.
Qed.

Lemma prep_and_post_behaviour_witness :
  prep_and_post sample_env short_path (Some "abc") (mkWorld [] [])
  = (Raise OSError, mkWorld [] [])
  /\ fst (prep_and_post sample_env short_path (Some "abc") short_world)
     = Ok (PyStr.of_Z 200)
  /\ fst (prep_and_post offline_env short_path (Some "abc") short_world)
     = Raise ConnectionError.
Proof.
  split; [| split].
  - apply (proj1 (prep_and_post_behaviour sample_env short_path (Some "abc")
                    (mkWorld [] []))).
    reflexivity.
  - apply (proj1 (proj2 (proj2 (prep_and_post_behaviour sample_env short_path
                                  (Some "abc") short_world)
                           short_rec eq_refl))
             200%Z eq_refl).
  - apply (proj2 (proj2 (proj2 (prep_and_post_behaviour offline_env short_path
                                  (Some "abc") short_world)
                           short_rec eq_refl))
             ConnectionError eq_refl).
Defined.

Lemma process_one_enter E csrf net bagpath i w :
  bagpath <> [] ->
  name bagpath <> post_folder ->
  process_one E csrf net bagpath i w
  = bind
      ('(rename_results, bagpath) <- standard_rename E bagpath ;;
       if rename_results : bool then
         bag <- Bag_open bagpath "a" ;;
         tagged <-
           try_except
             (tags <- generate_tags E bag ;;
              tag_this_bag E bag tags ;;
              Bag_close bag ;;
              ret true)
             (fun e => log (error_line e) ;; Bag_close bag ;; ret false) ;;
         if tagged : bool then
           post_status <- prep_and_post E bagpath csrf ;;
           if String.eqb post_status "200" then
             log "Successful file upload. Moving file to subdirectory." ;;
             path_mkdir (child (parent bagpath) post_folder) ;;
             path_rename E bagpath
               (child (child (parent bagpath) post_folder) (name bagpath))
           else
             log ("Post request failed with status code " ++ post_status
                  ++ ".")
         else ret tt
       else
         log ("Bag " ++ name bagpath ++ " does not have enough metadata "
              ++ "to be uploaded safely. Skipping bag without upload."))
      (fun _ => ret (i + 1)%Z)
      (snd (log (progress_line bagpath i net) w)).
Proof.
  intros Hne Hleaf. unfold process_one.
  set (w0 := snd (log (progress_line bagpath i net) w)).
  assert (Hlog : log (progress_line bagpath i net) w = (Ok tt, w0))
    by reflexivity.
  mnext Hlog. mnext (index_last_run bagpath w0 Hne).
  apply String.eqb_neq in Hleaf. rewrite Hleaf. reflexivity.
Qed.

(** X14.  A recording that is not eligible is left alone.  When
    [standard_rename] answers "do not upload", the loop body adds one
    log line and ends: the recording is not opened for tagging, nothing
    is written into it, nothing is sent, and it stays where the renaming
    put it. *)
Theorem ineligible_recording_is_left_alone (E : Env) (csrf : option string)
    (net : nat) (bagpath : path) (i : Z) (w : World) (p' : path)
    (w1 : World) :
  bagpath <> [] ->
  name bagpath <> post_folder ->
  standard_rename E bagpath (snd (log (progress_line bagpath i net) w))
  = (Ok (false, p'), w1) ->
  process_one E csrf net bagpath i w
  = (Ok (i + 1)%Z,
     mkWorld (fs w1)
       (trace w1 ++
        [EvLog ("Bag " ++ name p' ++ " does not have enough metadata "
                ++ "to be uploaded safely. Skipping bag without upload.")])).
Proof.
  intros Hne Hleaf Hren.
  rewrite (process_one_enter E csrf net bagpath i w Hne Hleaf).
  rewrite bind_assoc. mnext Hren. reflexivity.
Qed.

Lemma ineligible_recording_is_left_alone_witness :
  exists w1,
    process_one sample_env (Some "abc") 1 buoy_path 1 buoy_world
    = (Ok 2%Z,
       mkWorld (fs w1)
         (trace w1 ++
          [EvLog ("Bag buoy_unknownname_2024-1-5-13-7-9-4.bag does not have "
                  ++ "enough metadata "
                  ++ "to be uploaded safely. Skipping bag without upload.")]))
    /\ map fst (fs w1)
       = [["/"; "data"; "buoy_unknownname_2024-1-5-13-7-9-4.bag"]].
Proof.
  exists (snd (standard_rename sample_env buoy_path
                 (snd (log (progress_line buoy_path 1 1) buoy_world)))).
  split; [| vm_compute; reflexivity].
  apply (ineligible_recording_is_left_alone sample_env (Some "abc") 1
           buoy_path 1 buoy_world
           ["/"; "data"; "buoy_unknownname_2024-1-5-13-7-9-4.bag"]).
  - discriminate.
  - discriminate.
  - vm_compute. reflexivity.
Defined.

Lemma relocation_target_differs (p : path) :
  p <> child (child (parent p) post_folder) (name p).
Proof.
  intros H. apply (f_equal (@List.length string)) in H.
  unfold child, parent in H. rewrite !length_app in H. cbn [List.length] in H.
  destruct p as [| x r]; [discriminate H |].
  assert (Hl : List.length (removelast (x :: r)) = List.length r).
  { destruct (exists_last (l := x :: r)) as (l & a & Hla); [discriminate |].
    rewrite Hla, removelast_last.
    apply (f_equal (@List.length string)) in Hla.
    rewrite length_app in Hla. cbn [List.length] in Hla. lia. }
  rewrite Hl in H. cbn [List.length] in H. lia.
Qed.

(** X15.  An accepted upload moves the recording.  When the archive
    answers 200, no file stands in the way of the directory
    ["uploaded"] and the move is permitted, the loop body ends normally
    with the recording under [uploaded/<its name>] next to where it
    was, holding what it held when it was sent; nothing is left under
    the old path, and every other file is untouched. *)
Theorem accepted_upload_relocates (E : Env) (csrf : option string)
    (net : nat) (bagpath : path) (i : Z) (w : World) (p' : path)
    (w1 : World) (bag : Bag) (w2 w3 w4 : World) (g : BagFile) :
  bagpath <> [] ->
  name bagpath <> post_folder ->
  standard_rename E bagpath (snd (log (progress_line bagpath i net) w))
  = (Ok (true, p'), w1) ->
  Bag_open p' "a" w1 = (Ok bag, w2) ->
  (tags <- generate_tags E bag ;;
   tag_this_bag E bag tags ;; Bag_close bag ;; ret true) w2 = (Ok true, w3) ->
  prep_and_post E p' csrf w3 = (Ok "200", w4) ->
  fs_lookup p' (fs w3) = Some g ->
  fs_lookup (child (parent p') post_folder) (fs w3) = None ->
  rename_fault E p' (child (child (parent p') post_folder) (name p')) = None ->
  exists w',
    process_one E csrf net bagpath i w = (Ok (i + 1)%Z, w')
    /\ fs_lookup (child (child (parent p') post_folder) (name p')) (fs w')
       = Some g
    /\ fs_lookup p' (fs w') = None
    /\ (forall q,
           q <> p' ->
           q <> child (child (parent p') post_folder) (name p') ->
           fs_lookup q (fs w') = fs_lookup q (fs w3))
    /\ In (EvRename p' (child (child (parent p') post_folder) (name p')))
         (trace w').
Proof.
  intros Hne Hleaf Hren Hopen Htag Hpost Hg Hdir Hfault.
  set (dst := child (child (parent p') post_folder) (name p')) in *.
  assert (Hw4 : w4 = mkWorld (fs w3) (trace w3 ++ [EvPost p' csrf])).
  { pose proof (prep_and_post_world E p' csrf w3 g Hg) as Hw.
    rewrite Hpost in Hw. exact Hw. }
  rewrite (process_one_enter E csrf net bagpath i w Hne Hleaf).
  rewrite bind_assoc. mnext Hren. rewrite bind_assoc. mnext Hopen.
  rewrite bind_assoc.
  assert (Htry :
    try_except
      (tags <- generate_tags E bag ;;
       tag_this_bag E bag tags ;; Bag_close bag ;; ret true)
      (fun e0 => log (error_line e0) ;; Bag_close bag ;; ret false) w2
    = (Ok true, w3)).
  { unfold try_except. rewrite Htag. reflexivity. }
  mnext Htry. rewrite bind_assoc. mnext Hpost. cbn [String.eqb Ascii.eqb Bool.eqb].
  subst w4. unfold path_mkdir, path_rename. fold dst. rewrite Hfault.
  mstep. rewrite Hdir. mstep. rewrite Hg.
  eexists. split; [reflexivity |]. cbn [fs trace].
  split; [| split; [| split]].
  - rewrite fs_lookup_renamed, path_eqb_refl. reflexivity.
  - rewrite fs_lookup_renamed.
    rewrite (path_eqb_neq p' dst (relocation_target_differs p')).
    rewrite path_eqb_refl. reflexivity.
  - intros q Hq1 Hq2. rewrite fs_lookup_renamed.
    rewrite (path_eqb_neq q dst Hq2), (path_eqb_neq q p' Hq1). reflexivity.
  - apply in_or_app. right. left. reflexivity.
Qed.

Lemma accepted_upload_relocates_witness :
  exists w' g,
    process_one sample_env (Some "abc") 1 named_remus_path 1 named_remus_world
    = (Ok 2%Z, w')
    /\ fs_lookup named_remus_path (fs sent_tagged) = Some g
    /\ fs_lookup archived_path (fs w') = Some g
    /\ fs_lookup named_remus_path (fs w') = None.
Proof.
  destruct (fs_lookup named_remus_path (fs sent_tagged)) as [g |] eqn:Hg;
    [| vm_compute in Hg; discriminate Hg].
  destruct (accepted_upload_relocates sample_env (Some "abc") 1
              named_remus_path 1 named_remus_world named_remus_path
              sent_validated (mkBag named_remus_path "a") sent_opened
              sent_tagged sent_posted g)
    as (w' & Hrun & Hnew & Hold & _).
  - discriminate.
  - discriminate.
  - vm_compute. reflexivity.
  - vm_compute. reflexivity.
  - vm_compute. reflexivity.
  - vm_compute. reflexivity.
  - exact Hg.
  - vm_compute. reflexivity.
  - reflexivity.
  - exists w', g. split; [exact Hrun |]. split; [reflexivity |].
    split; [exact Hnew | exact Hold].
Defined.

(** ** The token *)

Lemma quiet_token_loop (pieces : list (nat * string)) n acc :
  quiet
    (for_each pieces acc
       (fun it csrf =>
          let '(i, str) := it in
          log ("Step " ++ PyStr.of_Z (Z.of_nat i) ++ " of "
               ++ PyStr.of_Z (Z.of_nat n - 1)) ;;
          if PyStr.contains "csrfToken" str then
            ret (Some (PyStr.slice (Z.to_nat (PyStr.find DQUOTE str + 1))
                         (String.length str - 1) str))
          else ret csrf)).
Proof.
  apply quiet_for_each. intros [i str] s.
  apply quiet_bind; [apply quiet_log | intros _].
  destruct (PyStr.contains "csrfToken" str); apply quiet_ret.
Qed.

Lemma for_each_pure {A S} (l : list A) (body : A -> S -> M S)
      (f : A -> S -> S) :
  (forall x s w, fst (body x s w) = Ok (f x s)) ->
  forall s w,
    fst (for_each l s body w) = Ok (fold_left (fun s x => f x s) l s).
Proof.
  intros Hb. induction l as [| x r IH]; intros s w; [reflexivity |].
  cbn [for_each fold_left]. specialize (Hb x s w).
  destruct (body x s w) as [[s' | e] w'] eqn:Hrun; cbn [fst] in Hb;
    [| discriminate Hb].
  injection Hb as <-. mnext Hrun. apply IH.
Qed.

Lemma fold_left_enumerate {A S} (f : A -> S -> S) (l : list A) i s :
  fold_left (fun s (it : nat * A) => f (snd it) s) (enumerate i l) s
  = fold_left (fun s x => f x s) l s.
Proof.
  revert i s. induction l as [| x r IH]; intros i s; [reflexivity |].
  cbn [enumerate fold_left snd]. apply IH.
Qed.

Lemma get_csrf_token_result E w script :
  csrf_script E = Ok (Some script) ->
  fst (get_csrf_token E w) = Ok (last_token (PyStr.split ";" script)).
Proof.
  intros Hs. unfold get_csrf_token. rewrite Hs.
  mnext (log_run "Retrieving CSRF token." w).
  unfold emit at 1, lift at 1. mstep.
  match goal with
  | |- context [for_each ?l ?a ?b ?w0] =>
      pose proof (for_each_pure l b
                    (fun it csrf =>
                       if PyStr.contains "csrfToken" (snd it)
                       then Some (token_of (snd it)) else csrf)) as Hloop;
      specialize (Hloop
        ltac:(intros [i str] s0 w1; cbv beta iota; cbn [snd]; mstep;
              unfold token_of;
              destruct (PyStr.contains "csrfToken" str); reflexivity)
        a w0);
      destruct (for_each l a b w0) as [[tok | e] w1] eqn:Hfe
  end.
  - cbn [fst] in Hloop. injection Hloop as ->. mstep.
    unfold last_token.
    rewrite (fold_left_enumerate
               (fun p csrf =>
                  if PyStr.contains "csrfToken" p then Some (token_of p)
                  else csrf)).
    reflexivity.
  - discriminate Hloop.
Qed.

(** The page is requested once, right after the first log line, and
    nothing but log lines follows; no file changes. *)
Lemma get_csrf_token_trace E w r w' :
  get_csrf_token E w = (r, w') ->
  fs w' = fs w
  /\ exists logs,
       trace w'
       = (trace w ++ EvLog "Retrieving CSRF token." :: EvGet :: logs)%list
       /\ Forall is_log logs.
Proof.
  intros H. unfold get_csrf_token in H.
  match type of H with
  | bind (log ?t) (fun _ => bind (emit ?ev) ?k) w = _ =>
      assert (Hq : quiet (k tt));
      [| change (k tt (mkWorld (fs w) ((trace w ++ [EvLog t]) ++ [ev])%list)
                 = (r, w')) in H ]
  end.
  - apply quiet_bind; [apply quiet_lift | intros found].
    apply quiet_bind; [apply quiet_log | intros _].
    apply quiet_bind; [apply quiet_log | intros _].
    apply quiet_bind.
    { destruct found; [apply quiet_ret | apply quiet_raise]. }
    intros script.
    apply quiet_bind; [apply quiet_log | intros _].
    apply quiet_bind; [apply quiet_token_loop | intros tok].
    apply quiet_bind; [apply quiet_log | intros _].
    apply quiet_ret.
  - destruct (Hq _ _ _ H) as [Hfs (logs & Ht & Hl)]. cbn [fs trace] in Hfs, Ht.
    split; [exact Hfs |]. exists logs. split; [| exact Hl].
    rewrite Ht, <- !app_assoc. reflexivity.
Qed.

(** X16.  When the token cannot be had.  If the request for the page
    raises, [get_csrf_token] raises the same exception; if the page has
    no text that mentions the token, it raises [AttributeError].
    Whatever the outcome, the page is requested exactly once, right
    after the first log line, nothing but log lines follows, and no file
    changes. *)
Theorem get_csrf_token_failures (E : Env) (w : World) :
  (forall e, csrf_script E = Raise e ->
             fst (get_csrf_token E w) = Raise e)
  /\ (csrf_script E = Ok None ->
      fst (get_csrf_token E w) = Raise AttributeError)
  /\ fs (snd (get_csrf_token E w)) = fs w
  /\ exists logs,
       trace (snd (get_csrf_token E w))
       = (trace w ++ EvLog "Retrieving CSRF token." :: EvGet :: logs)%list
       /\ Forall is_log logs.
Proof.
  split; [| split].
  - intros e He. unfold get_csrf_token. rewrite He. reflexivity.
  - intros He. unfold get_csrf_token. rewrite He. reflexivity.
  - destruct (get_csrf_token E w) as [r w'] eqn:Hrun.
    exact (get_csrf_token_trace E w r w' Hrun).
Qed.

Lemma get_csrf_token_failures_witness :
  fst (get_csrf_token
         (mkEnv ["/"; "data"] true (fun _ => sample_localtime)
            sample_float_repr (fun _ => None) (fun _ _ => None)
            (Raise ConnectionError) (fun _ _ => Ok 200%Z))
         short_world) = Raise ConnectionError
  /\ fst (get_csrf_token
            (mkEnv ["/"; "data"] true (fun _ => sample_localtime)
               sample_float_repr (fun _ => None) (fun _ _ => None)
               (Ok None) (fun _ _ => Ok 200%Z))
            short_world) = Raise AttributeError.
Proof.
  split.
  - apply (proj1 (get_csrf_token_failures _ short_world)). reflexivity.
  - apply (proj1 (proj2 (get_csrf_token_failures _ short_world))). reflexivity.
Defined.

(** ** Finding the statement that holds the token *)

Lemma prefix_head_piece sep sub s :
  occurs sep sub = false -> prefix sub s = true ->
  exists h t, PyStr.split sep s = h :: t /\ prefix sub h = true.
Proof.
  revert s. induction sub as [| c sub IH]; intros s Hocc Hpre.
  - destruct (PyStr.split sep s) as [| h t] eqn:Hs;
      [exfalso; exact (split_nonempty sep s Hs) |].
    exists h, t. split; [reflexivity |]. destruct h; reflexivity.
  - cbn [occurs] in Hocc. apply orb_false_iff in Hocc as [Hc Hsub].
    destruct s as [| d s']; [discriminate Hpre |].
    cbn [prefix] in Hpre. destruct (ascii_dec c d) as [<- | Hne];
      [| discriminate Hpre].
    destruct (IH s' Hsub Hpre) as (h & t & Hs & Hh).
    exists (String c h), t. split.
    + cbn [PyStr.split]. rewrite Hc, Hs. reflexivity.
    + cbn [prefix]. destruct (ascii_dec c c); [exact Hh | congruence].
Qed.

Lemma contains_cons sub c s :
  PyStr.contains sub s = true -> PyStr.contains sub (String c s) = true.
Proof.
  intros H. cbn [PyStr.contains]. rewrite H. apply orb_true_r.
Qed.

Lemma contains_prefix sub s :
  prefix sub s = true -> PyStr.contains sub s = true.
Proof. intros H. destruct s; cbn [PyStr.contains]; rewrite H; reflexivity. Qed.

Lemma contains_piece sep sub s :
  occurs sep sub = false -> PyStr.contains sub s = true ->
  exists p, In p (PyStr.split sep s) /\ PyStr.contains sub p = true.
Proof.
  intros Hocc. induction s as [| c r IH]; intros H.
  - exists "". split; [left; reflexivity | exact H].
  - cbn [PyStr.contains] in H. apply orb_true_iff in H as [Hpre | Hin].
    + destruct (prefix_head_piece sep sub (String c r) Hocc Hpre)
        as (h & t & Hs & Hh).
      exists h. rewrite Hs. split; [left; reflexivity |].
      apply contains_prefix. exact Hh.
    + destruct (IH Hin) as (p & Hp & Hc).
      cbn [PyStr.split]. destruct (Ascii.eqb c sep).
      * exists p. split; [right; exact Hp | exact Hc].
      * destruct (PyStr.split sep r) as [| h t]; [destruct Hp |].
        destruct Hp as [<- | Hp].
        -- exists (String c h). split; [left; reflexivity |].
           apply contains_cons. exact Hc.
        -- exists p. split; [right; exact Hp | exact Hc].
Qed.

Lemma last_token_some pieces acc :
  (acc <> None \/
   exists p, In p pieces /\ PyStr.contains "csrfToken" p = true) ->
  fold_left
    (fun acc p =>
       if PyStr.contains "csrfToken" p then Some (token_of p) else acc)
    pieces acc <> None.
Proof.
  revert acc. induction pieces as [| q r IH]; intros acc H.
  - destruct H as [H | (p & [] & _)]. exact H.
  - cbn [fold_left]. apply IH.
    destruct H as [H | (p & [<- | Hp] & Hc)].
    + left. destruct (PyStr.contains "csrfToken" q); [discriminate | exact H].
    + left. rewrite Hc. discriminate.
    + right. exists p. split; assumption.
Qed.

(** X17.  A page that mentions the token yields one.  When the text
    found on the page contains ["csrfToken"], [get_csrf_token] returns
    a string, never [None]: the text is cut at [";"], which is no part
    of the word, so one of the statements holds the word whole. *)
Theorem get_csrf_token_finds_token (E : Env) (w : World) (script : string) :
  csrf_script E = Ok (Some script) ->
  PyStr.contains "csrfToken" script = true ->
  exists token, fst (get_csrf_token E w) = Ok (Some token).
Proof.
  intros Hs Hc. rewrite (get_csrf_token_result E w script Hs).
  destruct (last_token (PyStr.split ";" script)) as [tok |] eqn:Ht.
  - exists tok. reflexivity.
  - exfalso. revert Ht. apply last_token_some. right.
    apply (contains_piece ";" "csrfToken" script); [reflexivity | exact Hc].
Qed.

Lemma get_csrf_token_finds_token_witness :
  exists token, fst (get_csrf_token sample_env short_world) = Ok (Some token).
Proof.
  apply (get_csrf_token_finds_token sample_env short_world sample_script);
    reflexivity.
Defined.

(** ** Reading the token out of a statement *)

Lemma find_absent c s : occurs c s = false -> PyStr.find c s = (-1)%Z.
Proof.
  induction s as [| d s IH]; intros H; [reflexivity |].
  cbn [occurs] in H. apply orb_false_iff in H as [Hd Hs].
  cbn [PyStr.find]. rewrite Hd, (IH Hs). reflexivity.
Qed.

Lemma find_first c a r :
  occurs c a = false ->
  PyStr.find c (a ++ String c r) = Z.of_nat (String.length a).
Proof.
  induction a as [| d a IH]; intros H.
  - cbn [append PyStr.find String.length]. rewrite Ascii.eqb_refl. reflexivity.
  - cbn [occurs] in H. apply orb_false_iff in H as [Hd Ha].
    cbn [append PyStr.find String.length]. rewrite Hd, (IH Ha).
    destruct (Z.ltb_spec (Z.of_nat (String.length a)) 0); lia.
Qed.

Lemma string_length_app a b :
  String.length (a ++ b) = String.length a + String.length b.
Proof.
  induction a as [| c a IH]; [reflexivity |].
  cbn [append String.length]. rewrite IH. reflexivity.
Qed.

Lemma substring_skip a c r m :
  substring (S (String.length a)) m (a ++ String c r) = substring 0 m r.
Proof.
  induction a as [| d a IH].
  - cbn [append String.length substring]. reflexivity.
  - cbn [append String.length]. cbn [substring]. exact IH.
Qed.

Lemma substring_front t r :
  substring 0 (String.length t) (t ++ r) = t.
Proof.
  induction t as [| c t IH].
  - cbn [String.length append]. destruct r; reflexivity.
  - cbn [String.length append substring]. rewrite IH. reflexivity.
Qed.

Lemma token_of_quoted a tok c :
  occurs DQUOTE a = false ->
  token_of (a ++ String DQUOTE (tok ++ String c "")) = tok.
Proof.
  intros Ha. unfold token_of, PyStr.slice.
  rewrite (find_first DQUOTE a _ Ha).
  replace (Z.to_nat (Z.of_nat (String.length a) + 1))
    with (S (String.length a)) by lia.
  rewrite string_length_app. cbn [String.length].
  rewrite string_length_app. cbn [String.length].
  replace (String.length a + S (String.length tok + 1) - 1
           - S (String.length a)) with (String.length tok) by lia.
  rewrite substring_skip. apply substring_front.
Qed.

Lemma token_of_unquoted body c :
  occurs DQUOTE (body ++ String c "") = false ->
  token_of (body ++ String c "") = body.
Proof.
  intros Hq. unfold token_of, PyStr.slice.
  rewrite (find_absent DQUOTE _ Hq).
  rewrite string_length_app. cbn [String.length].
  replace (String.length body + 1 - 1 - Z.to_nat (-1 + 1))
    with (String.length body) by lia.
  change (Z.to_nat (-1 + 1)) with 0.
  apply substring_front.
Qed.

Lemma last_token_app l1 stmt l2 :
  PyStr.contains "csrfToken" stmt = true ->
  (forall p, In p l2 -> PyStr.contains "csrfToken" p = false) ->
  last_token (l1 ++ stmt :: l2)%list = Some (token_of stmt).
Proof.
  intros Hs Hl2. unfold last_token. rewrite fold_left_app.
  cbn [fold_left]. rewrite Hs.
  induction l2 as [| q l2 IH]; [reflexivity |].
  cbn [fold_left]. rewrite (Hl2 q (or_introl eq_refl)).
  apply IH. intros p Hp. apply Hl2. right. exact Hp.
Qed.

(** X18.  Which token is read.  The token comes from the last statement
    of the script (the text cut at [";"]) that mentions ["csrfToken"].
    It is what stands between the first double quote of that statement
    and its last character; a statement without any double quote gives
    itself without its last character. *)
Theorem get_csrf_token_decodes (E : Env) (w : World) (script stmt : string)
    (l1 l2 : list string) :
  csrf_script E = Ok (Some script) ->
  PyStr.split ";" script = (l1 ++ stmt :: l2)%list ->
  PyStr.contains "csrfToken" stmt = true ->
  (forall p, In p l2 -> PyStr.contains "csrfToken" p = false) ->
  (forall a tok c,
      stmt = a ++ String DQUOTE (tok ++ String c "") ->
      occurs DQUOTE a = false ->
      fst (get_csrf_token E w) = Ok (Some tok))
  /\ (forall body c,
         stmt = body ++ String c "" ->
         occurs DQUOTE stmt = false ->
         fst (get_csrf_token E w) = Ok (Some body)).
Proof.
  intros Hs Hsplit Hc Hl2.
  rewrite (get_csrf_token_result E w script Hs), Hsplit.
  rewrite (last_token_app l1 stmt l2 Hc Hl2). split.
  - intros a tok c -> Ha. rewrite (token_of_quoted a tok c Ha). reflexivity.
  - intros body c -> Hq. rewrite (token_of_unquoted body c Hq). reflexivity.
Qed.

Lemma get_csrf_token_decodes_witness :
  fst (get_csrf_token sample_env short_world) = Ok (Some "abc").
Proof.
  apply (proj1 (get_csrf_token_decodes sample_env short_world sample_script
                  (" var csrfToken = " ++ String DQUOTE ("abc" ++ String DQUOTE ""))
                  ["var a = 1"] []
                  eq_refl eq_refl eq_refl
                  (fun p (H : In p []) => match H with end))
           " var csrfToken = " "abc" DQUOTE).
  - reflexivity.
  - reflexivity.
Defined.

(** ** A run with nothing to process *)

(** X19.  When the scan finds no recording, [process_bags] is the
    retrieval of the token and nothing else: the archive is still asked
    for its page, the run fails when the token cannot be had, and no
    file changes. *)
Theorem process_bags_nothing_to_scan (E : Env) (w : World) :
  glob E (cwd E) (fs w) = [] ->
  exists r w',
    get_csrf_token E w = (r, w')
    /\ process_bags E w
       = (match r with Ok _ => Ok tt | Raise e => Raise e end, w')
    /\ fs w' = fs w
    /\ In EvGet (trace w').
Proof.
  intros Hg. destruct (get_csrf_token E w) as [r w'] eqn:Hrun.
  exists r, w'. split; [reflexivity |].
  destruct (get_csrf_token_trace E w r w' Hrun) as [Hfs (logs & Ht & _)].
  split; [| split; [exact Hfs |]].
  - unfold process_bags. mstep. rewrite Hg, Hrun.
    destruct r; reflexivity.
  - rewrite Ht. apply in_or_app. right. right. left. reflexivity.
Qed.

Lemma process_bags_nothing_to_scan_witness :
  exists r w',
    get_csrf_token sample_env notes_only = (r, w')
    /\ process_bags sample_env notes_only
       = (match r with Ok _ => Ok tt | Raise e => Raise e end, w')
    /\ fs w' = fs notes_only
    /\ In EvGet (trace w').
Proof.
  apply (process_bags_nothing_to_scan sample_env notes_only).
  reflexivity.
Defined.

(** ** [hard_rename] and the validator *)

Lemma catalog_entry_plain t sg names n :
  dict_get t vehicle_info = Some (sg, names) -> In n names ->
  occurs "_" t = false /\ occurs "_" n = false.
Proof.
  unfold vehicle_info. cbn [dict_get].
  destruct (String.eqb t "remus") eqn:Hr.
  - apply String.eqb_eq in Hr. subst t. intros H. injection H as <- <-.
    intros [<- | [<- | [<- | []]]]; split; reflexivity.
  - destruct (String.eqb t "buoy") eqn:Hb; [| discriminate].
    apply String.eqb_eq in Hb. subst t. intros H. injection H as <- <-.
    intros [<- | [<- | [<- | []]]]; split; reflexivity.
Qed.

Lemma hard_name_split t n old :
  occurs "_" t = false -> occurs "_" n = false ->
  PyStr.split "_" (hard_name (Some t) (Some n) old)
  = t :: n :: PyStr.split "_" old.
Proof.
  intros Ht Hn. unfold hard_name, opt_str.
  change (t ++ "_" ++ n ++ "_" ++ old)
    with (t ++ String "_" (n ++ String "_" old)).
  rewrite (split_app "_" t _ Ht), (split_app "_" n _ Hn). reflexivity.
Qed.

(** X20.  The name [hard_rename] gives and the validator of
    [process_bags].  With a type of the catalog and a name of that type,
    [is_rename_necessary] accepts the new name exactly when the old file
    name had at most one underscore; otherwise [process_bags] renames
    the recording again.  With the type left out, the new name begins
    with [None] and is never accepted. *)
Theorem hard_name_validity (old : string) (w : World) :
  (forall t sg names n,
      dict_get t vehicle_info = Some (sg, names) -> In n names ->
      fst (is_rename_necessary (hard_name (Some t) (Some n) old) w)
      = Ok (2 <? List.length (PyStr.split "_" old))%nat)
  /\ (forall N,
         fst (is_rename_necessary (hard_name None N old) w) = Ok true).
Proof.
  split.
  - intros t sg names n Hget Hin.
    destruct (is_rename_necessary_run (hard_name (Some t) (Some n) old) w)
      as [txt Hr].
    rewrite Hr. cbn [fst]. f_equal.
    destruct (catalog_entry_plain t sg names n Hget Hin) as [Ht Hn].
    unfold valid_name. rewrite (hard_name_split t n old Ht Hn).
    cbn [nth_error List.length]. rewrite Hget. cbn [snd].
    rewrite (proj2 (str_mem_In n names) Hin), andb_true_r.
    pose proof (split_nonempty "_" old) as Hne.
    destruct (PyStr.split "_" old) as [| a [| b [| c r]]];
      [congruence | reflexivity | reflexivity | reflexivity].
  - intros N.
    destruct (is_rename_necessary_run (hard_name None N old) w) as [txt Hr].
    rewrite Hr. cbn [fst]. f_equal. apply negb_true_iff.
    unfold valid_name, hard_name.
    change (opt_str None ++ "_" ++ opt_str N ++ "_" ++ old)
      with ("None" ++ String "_" (opt_str N ++ "_" ++ old)).
    rewrite (split_app "_" "None" _ eq_refl). cbn [nth_error].
    destruct (PyStr.split "_" (opt_str N ++ "_" ++ old)) as [| c1 r].
    + apply andb_false_r.
    + cbn [dict_get vehicle_info]. apply andb_false_r.
Qed.

Lemma hard_name_validity_witness :
  fst (is_rename_necessary
         (hard_name (Some "remus") (Some "shadow") "dive_7.bag")
         (mkWorld [] []))
  = Ok false
  /\ fst (is_rename_necessary
            (hard_name (Some "remus") (Some "shadow") "2024_01_05.bag")
            (mkWorld [] []))
     = Ok true.
Proof.
  split.
  - apply (proj1 (hard_name_validity "dive_7.bag" (mkWorld [] [])) "remus"
             "ros_remus/Status" ["shadow"; "casper"; "bullwinkle"] "shadow");
      [reflexivity | left; reflexivity].
  - apply (proj1 (hard_name_validity "2024_01_05.bag" (mkWorld [] [])) "remus"
             "ros_remus/Status" ["shadow"; "casper"; "bullwinkle"] "shadow");
      [reflexivity | left; reflexivity].
Defined.

(** ** What [hard_rename] does to the directory *)









(** Without the freedom of the new names a recording is lost: the first
    rename replaces the file that already carries the new name. *)
Example hard_rename_can_replace_a_recording :
  fs_lookup ["/"; "data"; "remus_shadow_a.bag"] (fs clashing_pair)
  = Some short_rec
  /\ forall q,
       fs_lookup q
         (fs (snd (hard_rename sample_env (Some "remus") (Some "shadow")
                     clashing_pair)))
       <> Some short_rec.
Proof.
  split; [reflexivity |]. intros q.
  assert (Hfs : fs (snd (hard_rename sample_env (Some "remus") (Some "shadow")
                           clashing_pair))
                = [(["/"; "data"; "remus_shadow_remus_shadow_a.bag"],
                    remus_rec)])
    by (vm_compute; reflexivity).
  rewrite Hfs. cbn [fs_lookup].
  destruct (path_eqb q _); discriminate.
Qed.
